(** * Solar Moon agents: coordinator / worker delegation over a shared message table

    A shallow embedding of [backend/envelope.py], [moon_agent.py] and
    [backend/moon_agent_two.py].

    - Python [str] values are Rocq [string]s, one [ascii] per character
      (code points below 256).
    - Python dicts with a fixed set of keys (envelopes, message rows, tasks,
      analyses) are records; a key that may be missing is an [option] field.
    - The LangGraph state dict is a record of optional keys; a node's
      returned dict replaces the state handed to the next node.
    - Everything the program obtains from outside (uuid4 draws, clock
      readings, [json.loads], the Advisor, the message table) is scripted by
      an [Env]; the mutable part of the outside is a [World].
    - Methods run in a state-and-exception monad: a raised exception keeps
      the mutations made before it.
    - [print] calls are dropped, except where formatting their argument can
      raise. Building the Advisor client and the prompt text has no effect
      that is modelled. The server-side [created] column of a row is left
      out, and with it the queries of the two poll loops: a poller is the
      sequence of rows it hands to its dispatcher. *)

From Stdlib Require Import String Ascii ZArith QArith.QArith_base List Bool Lia.
From Stdlib Require Import DecimalString DecimalNat.
From stdpp Require Import base gmap strings list.

Open Scope string_scope.
Open Scope Z_scope.

(** ** Python values, exceptions, strings *)

(** What [json.loads] can return. *)
#[local] Unset Elimination Schemes.
Inductive pyval :=
| PyNone
| PyBool (b : bool)
| PyInt (z : Z)
| PyFloat (q : Q)
| PyStr (s : string)
| PyList (l : list pyval)
| PyDict (d : list (string * pyval)).
#[local] Set Elimination Schemes.

(** Truth value of a Python object, as tested by [if x:]. *)
Definition truthy (v : pyval) : bool :=
  match v with
  | PyNone => false
  | PyBool b => b
  | PyInt z => negb (z =? 0)
  | PyFloat q => negb (Qeq_bool q 0)
  | PyStr s => negb (String.eqb s EmptyString)
  | PyList l => match l with [] => false | _ => true end
  | PyDict d => match d with [] => false | _ => true end
  end.

Fixpoint assoc_get (k : string) (d : list (string * pyval)) : option pyval :=
  match d with
  | [] => None
  | (k', v) :: rest => if String.eqb k k' then Some v else assoc_get k rest
  end.

Inductive exn :=
| KeyError (key : string)
| UnboundLocalError (var : string)
| AttributeError (what : string)
| IndexError
| JSONDecodeError
| APIError (msg : string).

(** [str(e)] *)
Definition str_exn (e : exn) : string :=
  match e with
  | KeyError k => "'" +:+ k +:+ "'"
  | UnboundLocalError v =>
      "cannot access local variable '" +:+ v +:+ "' where it is not associated with a value"
  | AttributeError w => w
  | IndexError => "list index out of range"
  | JSONDecodeError => "Expecting value"
  | APIError m => m
  end.

Inductive py_result (A : Type) :=
| Ok (a : A)
| Raise (e : exn).
Arguments Ok {A} a.
Arguments Raise {A} e.

(** State-and-exception monad. *)
Definition M (S A : Type) : Type := S -> py_result A * S.

Definition ret {S A} (a : A) : M S A := fun s => (Ok a, s).
Definition raise {S A} (e : exn) : M S A := fun s => (Raise e, s).
Definition bind {S A B} (m : M S A) (k : A -> M S B) : M S B :=
  fun s => match m s with
           | (Ok a, s') => k a s'
           | (Raise e, s') => (Raise e, s')
           end.
(** [try: m  except Exception as e: h e] *)
Definition try_except {S A} (m : M S A) (h : exn -> M S A) : M S A :=
  fun s => match m s with
           | (Ok a, s') => (Ok a, s')
           | (Raise e, s') => h e s'
           end.
Definition get {S} : M S S := fun s => (Ok s, s).
Definition modify {S} (f : S -> S) : M S unit := fun s => (Ok tt, f s).
(** [d[k]] on an optional key. *)
Definition subscript {S A} (key : string) (o : option A) : M S A :=
  match o with Some a => ret a | None => raise (KeyError key) end.
(** Reading a local variable that may not have been assigned yet. *)
Definition local {S A} (name : string) (o : option A) : M S A :=
  match o with Some a => ret a | None => raise (UnboundLocalError name) end.

Notation "x <- m ;; k" := (bind m (fun x => k))
  (at level 100, m at next level, right associativity).
Notation "m ;;; k" := (bind m (fun _ => k))
  (at level 100, right associativity).

(** [for x in l: body x]; an exception leaves the loop. *)
Fixpoint for_each {S A} (l : list A) (body : A -> M S unit) : M S unit :=
  match l with
  | [] => ret tt
  | x :: rest => body x ;;; for_each rest body
  end.

(** [{key: new, **state}]: a key already present in [state] keeps the
    state's value, because the later item of a dict display wins. *)
Definition under_state {A} (new : A) (old : option A) : option A :=
  match old with Some a => Some a | None => Some new end.

(** *** [str] methods *)

Definition startswith (s pre : string) : bool := String.prefix pre s.

(** [kw in s] *)
Fixpoint contains (kw s : string) : bool :=
  String.prefix kw s ||
  match s with
  | EmptyString => false
  | String _ rest => contains kw rest
  end.

(** [str.lower] on one character: A-Z, and the upper-case letters of the
    Latin-1 block (all of 192..222 but the multiplication sign 215). *)
Definition lower_char (c : ascii) : ascii :=
  let n := nat_of_ascii c in
  if (((65 <=? n) && (n <=? 90))
      || ((192 <=? n) && (n <=? 222) && negb (n =? 215)))%nat
  then ascii_of_nat (n + 32) else c.

Fixpoint lower (s : string) : string :=
  match s with
  | EmptyString => EmptyString
  | String c rest => String (lower_char c) (lower rest)
  end.

(** [s[:n]] *)
Fixpoint take_str (n : nat) (s : string) : string :=
  match n, s with
  | S k, String c rest => String c (take_str k rest)
  | _, _ => EmptyString
  end.

(** [s.replace(old, new)] for a non-empty [old]: leftmost, non-overlapping
    occurrences. [skip] counts the characters of a matched occurrence that
    are still to be dropped. *)
Fixpoint replace_from (old new : string) (skip : nat) (s : string) : string :=
  match s with
  | EmptyString => EmptyString
  | String c rest =>
      match skip with
      | S k => replace_from old new k rest
      | O => if String.prefix old s
             then new +:+ replace_from old new (String.length old - 1) rest
             else String c (replace_from old new 0 rest)
      end
  end.

(** With an empty [old], Python inserts [new] around every character. *)
Fixpoint intersperse_str (new s : string) : string :=
  match s with
  | EmptyString => new
  | String c rest => new +:+ String c (intersperse_str new rest)
  end.

Definition replace (s old new : string) : string :=
  match old with
  | EmptyString => intersperse_str new s
  | _ => replace_from old new 0 s
  end.

(** [str.isspace] below 256: space, tab to carriage return, the four
    separators 28..31, next-line (133) and no-break space (160). *)
Definition is_space (c : ascii) : bool :=
  let n := nat_of_ascii c in
  ((n =? 32) || ((9 <=? n) && (n <=? 13)) || ((28 <=? n) && (n <=? 31))
   || (n =? 133) || (n =? 160))%nat.

Fixpoint lstrip (s : string) : string :=
  match s with
  | String c rest => if is_space c then lstrip rest else s
  | EmptyString => EmptyString
  end.

Fixpoint rstrip (s : string) : string :=
  match s with
  | EmptyString => EmptyString
  | String c rest =>
      match rstrip rest with
      | EmptyString => if is_space c then EmptyString else String c EmptyString
      | r => String c r
      end
  end.

Definition strip (s : string) : string := rstrip (lstrip s).

(** [s.split(sep)] for a one-character separator. *)
Fixpoint split_on (sep : ascii) (s : string) : list string :=
  match s with
  | EmptyString => [EmptyString]
  | String c rest =>
      if Ascii.eqb c sep then EmptyString :: split_on sep rest
      else match split_on sep rest with
           | [] => [String c EmptyString]
           | hd :: tl => String c hd :: tl
           end
  end.

(** [sep.join(parts)] *)
Fixpoint join (sep : string) (parts : list string) : string :=
  match parts with
  | [] => EmptyString
  | [p] => p
  | p :: rest => p +:+ sep +:+ join sep rest
  end.

(** [l[1:-1]] *)
Definition drop_ends {A} (l : list A) : list A := removelast (tl l).

Definition newline : ascii := ascii_of_nat 10.

(** ** Data model *)

(** [envelope["routing"]]; the builder writes a [reply_to] key (possibly
    [None]), the envelopes the agents build inline have no such key. *)
Record Routing := {
  r_project_id : string;
  r_from : string;
  r_to : string;
  r_reply_to : option (option string)
}.

Record Timestamps := { ts_created : string; ts_updated : string }.

Record Envelope := {
  e_schema : string;
  e_type : string;
  e_routing : Routing;
  e_payload_text : string;
  e_status : string;
  e_timestamps : option Timestamps;
  e_id : string
}.

(** [formatted_response["metadata"]], stored as a row's telemetry. *)
Record Metadata := {
  md_model_used : string;
  md_processing_time_ms : Z;
  md_analysis_type : string;
  md_request_id : string;
  md_worker_agent : string;
  md_completed_at : string
}.

(** A row of the [messages] table, and the dict handed to [insert]. A
    missing [reply_to] or [telemetry] key is a NULL column. *)
Record Message := {
  m_id : string;
  m_project_id : string;
  m_human_id : string;
  m_agent_name : string;
  m_to_agent : string;
  m_intent : string;
  m_status : string;
  m_content : Envelope;
  m_reply_to : option string;
  m_telemetry : option Metadata
}.

(** ** The outside world *)

(** Outcome of one [client.messages.create(...)] round trip up to
    [message.content[0].text]. *)
Inductive advisor_outcome :=
| AdvisorRaises (err : string)
| AdvisorReplies (text : string) (input_tokens output_tokens : Z).

(** Outcome of one request to the table. *)
Inductive store_outcome :=
| StoreOk
| StoreNoData
| StoreRaises (err : string).

Record Env := {
  uuid_src : nat -> string;            (* k-th [str(uuid.uuid4())] *)
  iso_src : nat -> string;             (* k-th [datetime.now().isoformat()] *)
  time_src : nat -> Z;                 (* k-th [time.time()], in microseconds *)
  json_loads : string -> option pyval; (* [None]: [json.JSONDecodeError] *)
  advisor_script : nat -> advisor_outcome;
  store_script : nat -> store_outcome
}.

Record World := {
  uuid_next : nat;
  clock_next : nat;
  advisor_next : nat;
  store_next : nat;
  db : list Message
}.

(** uuid4 never repeats a value. *)
Definition uuid_fresh (env : Env) : Prop :=
  forall i j : nat, uuid_src env i = uuid_src env j -> i = j.

Section Outside.
Variable env : Env.

Definition uuid4 (w : World) : string * World :=
  (uuid_src env (uuid_next w),
   {| uuid_next := S (uuid_next w); clock_next := clock_next w;
      advisor_next := advisor_next w; store_next := store_next w; db := db w |}).

Definition tick (w : World) : World :=
  {| uuid_next := uuid_next w; clock_next := S (clock_next w);
     advisor_next := advisor_next w; store_next := store_next w; db := db w |}.

Definition datetime_now_isoformat (w : World) : string * World :=
  (iso_src env (clock_next w), tick w).

Definition time_time (w : World) : Z * World :=
  (time_src env (clock_next w), tick w).

Definition messages_create (w : World) : advisor_outcome * World :=
  (advisor_script env (advisor_next w),
   {| uuid_next := uuid_next w; clock_next := clock_next w;
      advisor_next := S (advisor_next w); store_next := store_next w; db := db w |}).

Definition store_request (rows : list Message) (w : World) : World :=
  {| uuid_next := uuid_next w; clock_next := clock_next w;
     advisor_next := advisor_next w; store_next := S (store_next w); db := rows |}.

(** [table('messages').insert(row).execute()]: the response's [data], or
    the exception raised. An accepted row is appended and echoed. *)
Definition table_insert (row : Message) (w : World)
  : py_result (list Message) * World :=
  match store_script env (store_next w) with
  | StoreOk => (Ok [row], store_request (db w ++ [row]) w)
  | StoreNoData => (Ok [], store_request (db w) w)
  | StoreRaises err => (Raise (APIError err), store_request (db w) w)
  end.

(** [table('messages').select('*').eq('id', i).execute()] *)
Definition table_select_id (i : string) (w : World)
  : py_result (list Message) * World :=
  match store_script env (store_next w) with
  | StoreOk =>
      (Ok (List.filter (fun r => String.eqb (m_id r) i) (db w)), store_request (db w) w)
  | StoreNoData => (Ok [], store_request (db w) w)
  | StoreRaises err => (Raise (APIError err), store_request (db w) w)
  end.
End Outside.

(** ** [backend/envelope.py] *)

Module SolarEnvelopeBuilder.
Section Builder.
Variable env : Env.

Definition create_task (project_id from_agent to_agent task_text : string)
  : World -> Envelope * World := fun w =>
  let '(created, w) := datetime_now_isoformat env w in
  let '(updated, w) := datetime_now_isoformat env w in
  let '(i, w) := uuid4 env w in
  ({| e_schema := "company.a2a.v1";
      e_type := "task.create";
      e_routing := {| r_project_id := project_id;
                      r_from := "agent: " +:+ from_agent;
                      r_to := "agent:" +:+ to_agent;
                      r_reply_to := Some None |};
      e_payload_text := task_text;
      e_status := "sent";
      e_timestamps := Some {| ts_created := created; ts_updated := updated |};
      e_id := i |}, w).

(** [status] and [reply_to] are keyword arguments; [None] for [status]
    stands for the argument left out (default ["processing"]). *)
Definition create_task_update (project_id from_agent progress_text : string)
    (status : option string) (reply_to : option string)
  : World -> Envelope * World := fun w =>
  let '(created, w) := datetime_now_isoformat env w in
  let '(updated, w) := datetime_now_isoformat env w in
  let '(i, w) := uuid4 env w in
  ({| e_schema := "company.a2a.v1";
      e_type := "task.update";
      e_routing := {| r_project_id := project_id;
                      r_from := "agent:" +:+ from_agent;
                      r_to := "broadcast";
                      r_reply_to := Some reply_to |};
      e_payload_text := progress_text;
      e_status := default "processing" status;
      e_timestamps := Some {| ts_created := created; ts_updated := updated |};
      e_id := i |}, w).
End Builder.
End SolarEnvelopeBuilder.

Module SolarDatabaseAdapter.
Section Adapter.
Variable env : Env.

(** The row [send_envelope] builds from an envelope. *)
Definition db_data (envelope : Envelope) (human_id : string) : M World Message :=
  let from_agent := replace (r_from (e_routing envelope)) "agent:" EmptyString in
  let to_agent := replace (r_to (e_routing envelope)) "agent:" EmptyString in
  reply_to <- subscript "reply_to" (r_reply_to (e_routing envelope)) ;;
  ret {| m_id := e_id envelope;
         m_project_id := r_project_id (e_routing envelope);
         m_human_id := human_id;
         m_agent_name := from_agent;
         m_to_agent := if negb (String.eqb to_agent "broadcast")
                       then to_agent else "broadcast";
         m_intent := e_payload_text envelope;
         m_status := e_status envelope;
         m_content := envelope;
         m_reply_to := reply_to;
         m_telemetry := None |}.

(** Returns [response.data[0]], or [None] when [response.data] is empty. *)
Definition send_envelope (envelope : Envelope) (human_id : string)
  : M World (option Message) :=
  row <- db_data envelope human_id ;;
  data <- table_insert env row ;;
  ret (head data).
End Adapter.
End SolarDatabaseAdapter.

(** ** [moon_agent.py]: the coordinator *)

Module CoordinatorMoon.

Record Task := { t_id : string; t_text : string; t_project_id : string }.

Record Analysis := {
  a_complexity : pyval;
  a_requires_worker : pyval;
  a_estimated_minutes : pyval;
  a_reasoning : pyval
}.

(** The dict kept in [latest_worker_response]. *)
Record Completion := { c_status : string; c_result : string; c_details : string }.

(** [state["worker_response"]]: the text ["Handled directly"] or a dict. *)
Inductive worker_reply :=
| ReplyText (s : string)
| ReplyDict (c : Completion).

Record Telemetry := {
  tl_coordinator_model : string;
  tl_worker_model : string;
  tl_total_processing_time : string
}.

Record FinalResult := {
  fr_task_id : string;
  fr_status : string;
  fr_summary : string;
  fr_worker_contribution : worker_reply;
  fr_completed_at : string;
  fr_telemetry : Telemetry
}.

Record PendingDelegation := { worker_message_id : string; original_task_id : string }.

Record CoordinatorMoonState := {
  current_task : option Task;
  worker_response : list worker_reply;
  task_status : string;
  processed_messages : gset string;
  latest_worker_response : option Completion;
  pending_delegation : option PendingDelegation
}.

(** [CoordinatorMoonState.__init__] *)
Definition init_state : CoordinatorMoonState :=
  {| current_task := None; worker_response := []; task_status := "idle";
     processed_messages := ∅; latest_worker_response := None;
     pending_delegation := None |}.

(** One coordinator process. [human_user] is the signed-in user's id, [None]
    before [authenticate]. [ainvoked] is a ghost log: the ids of the
    messages handed to [workflow.ainvoke], oldest first. *)
Record Proc := {
  agent_name : string;
  human_user : option string;
  state : CoordinatorMoonState;
  world : World;
  ainvoked : list string
}.

(** The dict threaded through the graph. *)
Record WfState := {
  s_incoming_message : option Message;
  s_status : option string;
  s_task : option Task;
  s_analysis : option Analysis;
  s_delegation_sent : option bool;
  s_delegation_id : option string;
  s_error : option string;
  s_worker_response : option worker_reply;
  s_final_result : option FinalResult;
  s_completion_sent : option bool;
  s_completion_id : option string
}.

Definition empty_dict : WfState :=
  {| s_incoming_message := None; s_status := None; s_task := None;
     s_analysis := None; s_delegation_sent := None; s_delegation_id := None;
     s_error := None; s_worker_response := None; s_final_result := None;
     s_completion_sent := None; s_completion_id := None |}.

(** [{"analysis": a, **st}] and its siblings. *)
Definition with_analysis (a : Analysis) (st : WfState) : WfState :=
  {| s_incoming_message := s_incoming_message st; s_status := s_status st;
     s_task := s_task st; s_analysis := under_state a (s_analysis st);
     s_delegation_sent := s_delegation_sent st; s_delegation_id := s_delegation_id st;
     s_error := s_error st; s_worker_response := s_worker_response st;
     s_final_result := s_final_result st; s_completion_sent := s_completion_sent st;
     s_completion_id := s_completion_id st |}.

Definition with_delegation_sent (b : bool) (st : WfState) : WfState :=
  {| s_incoming_message := s_incoming_message st; s_status := s_status st;
     s_task := s_task st; s_analysis := s_analysis st;
     s_delegation_sent := under_state b (s_delegation_sent st);
     s_delegation_id := s_delegation_id st;
     s_error := s_error st; s_worker_response := s_worker_response st;
     s_final_result := s_final_result st; s_completion_sent := s_completion_sent st;
     s_completion_id := s_completion_id st |}.

Definition with_delegation_id (i : string) (st : WfState) : WfState :=
  {| s_incoming_message := s_incoming_message st; s_status := s_status st;
     s_task := s_task st; s_analysis := s_analysis st;
     s_delegation_sent := s_delegation_sent st;
     s_delegation_id := under_state i (s_delegation_id st);
     s_error := s_error st; s_worker_response := s_worker_response st;
     s_final_result := s_final_result st; s_completion_sent := s_completion_sent st;
     s_completion_id := s_completion_id st |}.

Definition with_error (e : string) (st : WfState) : WfState :=
  {| s_incoming_message := s_incoming_message st; s_status := s_status st;
     s_task := s_task st; s_analysis := s_analysis st;
     s_delegation_sent := s_delegation_sent st; s_delegation_id := s_delegation_id st;
     s_error := under_state e (s_error st); s_worker_response := s_worker_response st;
     s_final_result := s_final_result st; s_completion_sent := s_completion_sent st;
     s_completion_id := s_completion_id st |}.

Definition with_worker_response (r : worker_reply) (st : WfState) : WfState :=
  {| s_incoming_message := s_incoming_message st; s_status := s_status st;
     s_task := s_task st; s_analysis := s_analysis st;
     s_delegation_sent := s_delegation_sent st; s_delegation_id := s_delegation_id st;
     s_error := s_error st;
     s_worker_response := under_state r (s_worker_response st);
     s_final_result := s_final_result st; s_completion_sent := s_completion_sent st;
     s_completion_id := s_completion_id st |}.

Definition with_final_result (f : FinalResult) (st : WfState) : WfState :=
  {| s_incoming_message := s_incoming_message st; s_status := s_status st;
     s_task := s_task st; s_analysis := s_analysis st;
     s_delegation_sent := s_delegation_sent st; s_delegation_id := s_delegation_id st;
     s_error := s_error st; s_worker_response := s_worker_response st;
     s_final_result := under_state f (s_final_result st);
     s_completion_sent := s_completion_sent st;
     s_completion_id := s_completion_id st |}.

Definition with_completion (b : bool) (i : string) (st : WfState) : WfState :=
  {| s_incoming_message := s_incoming_message st; s_status := s_status st;
     s_task := s_task st; s_analysis := s_analysis st;
     s_delegation_sent := s_delegation_sent st; s_delegation_id := s_delegation_id st;
     s_error := s_error st; s_worker_response := s_worker_response st;
     s_final_result := s_final_result st;
     s_completion_sent := under_state b (s_completion_sent st);
     s_completion_id := under_state i (s_completion_id st) |}.

(** Assignments to [self.state.*] and the ghost log. *)
Definition set_state (f : CoordinatorMoonState -> CoordinatorMoonState) : M Proc unit :=
  modify (fun p => {| agent_name := agent_name p; human_user := human_user p;
                      state := f (state p); world := world p; ainvoked := ainvoked p |}).

Definition set_current_task (t : option Task) (s : CoordinatorMoonState) :=
  {| current_task := t; worker_response := worker_response s;
     task_status := task_status s; processed_messages := processed_messages s;
     latest_worker_response := latest_worker_response s;
     pending_delegation := pending_delegation s |}.

Definition set_task_status (v : string) (s : CoordinatorMoonState) :=
  {| current_task := current_task s; worker_response := worker_response s;
     task_status := v; processed_messages := processed_messages s;
     latest_worker_response := latest_worker_response s;
     pending_delegation := pending_delegation s |}.

Definition add_processed (i : string) (s : CoordinatorMoonState) :=
  {| current_task := current_task s; worker_response := worker_response s;
     task_status := task_status s; processed_messages := {[ i ]} ∪ processed_messages s;
     latest_worker_response := latest_worker_response s;
     pending_delegation := pending_delegation s |}.

Definition set_latest_worker_response (c : option Completion) (s : CoordinatorMoonState) :=
  {| current_task := current_task s; worker_response := worker_response s;
     task_status := task_status s; processed_messages := processed_messages s;
     latest_worker_response := c;
     pending_delegation := pending_delegation s |}.

Definition set_pending_delegation (d : option PendingDelegation) (s : CoordinatorMoonState) :=
  {| current_task := current_task s; worker_response := worker_response s;
     task_status := task_status s; processed_messages := processed_messages s;
     latest_worker_response := latest_worker_response s;
     pending_delegation := d |}.

Definition log_ainvoke (i : string) : M Proc unit :=
  modify (fun p => {| agent_name := agent_name p; human_user := human_user p;
                      state := state p; world := world p;
                      ainvoked := ainvoked p ++ [i] |}).

(** Run an operation of the outside world inside the process. *)
Definition in_world {A} (f : World -> A * World) : M Proc A :=
  fun p => let '(a, w) := f (world p) in
           (Ok a, {| agent_name := agent_name p; human_user := human_user p;
                     state := state p; world := w; ainvoked := ainvoked p |}).

Definition in_world_try {A} (f : World -> py_result A * World) : M Proc A :=
  fun p => let '(r, w) := f (world p) in
           (r, {| agent_name := agent_name p; human_user := human_user p;
                  state := state p; world := w; ainvoked := ainvoked p |}).

(** [self.human_user.id] *)
Definition human_user_id : M Proc string :=
  p <- get ;;
  match human_user p with
  | Some i => ret i
  | None => raise (AttributeError "'NoneType' object has no attribute 'id'")
  end.

Section Nodes.
Variable env : Env.

Definition _receive_task_node (st : WfState) : M Proc WfState :=
  match s_incoming_message st with
  | None =>
      ret {| s_incoming_message := None; s_status := Some "no_task"; s_task := None;
             s_analysis := None; s_delegation_sent := None; s_delegation_id := None;
             s_error := None; s_worker_response := None; s_final_result := None;
             s_completion_sent := None; s_completion_id := None |}
  | Some task_message =>
      let t := {| t_id := m_id task_message;
                  t_text := m_intent task_message;
                  t_project_id := m_project_id task_message |} in
      set_state (set_current_task (Some t)) ;;;
      ret {| s_incoming_message := None; s_status := Some "task_received";
             s_task := Some t;
             s_analysis := None; s_delegation_sent := None; s_delegation_id := None;
             s_error := None; s_worker_response := None; s_final_result := None;
             s_completion_sent := None; s_completion_id := None |}
  end.

(** The analysis both [except] clauses assign. *)
Definition fallback_analysis : Analysis :=
  {| a_complexity := PyStr "Not given";
     a_requires_worker := PyBool false;
     a_estimated_minutes := PyNone;
     a_reasoning := PyStr "None given" |}.

(** [response] after the handling of a reply wrapped in a code fence. *)
Definition strip_code_fence (response : string) : string :=
  if startswith (strip response) "```"
  then join (String newline EmptyString)
            (drop_ends (split_on newline (strip response)))
  else response.

(** The local variables the [try] block of [_analyze_task_node] assigns. *)
Record Locals := { l_response : option string; l_analysis : option Analysis }.

(** The [try] block: the locals bound when it ends, and the exception that
    ended it, if any. [client.messages.create] and
    [message.content[0].text] precede the assignment of [response];
    [json.loads] and the [.get] calls precede the one of [analysis]. *)
Definition analyze_try_block : M Proc (Locals * option exn) :=
  out <- in_world (messages_create env) ;;
  match out with
  | AdvisorRaises err =>
      ret ({| l_response := None; l_analysis := None |}, Some (APIError err))
  | AdvisorReplies text _ _ =>
      let response := strip_code_fence text in
      match json_loads env response with
      | None =>
          ret ({| l_response := Some response; l_analysis := None |},
               Some JSONDecodeError)
      | Some (PyDict claude_results) =>
          let analysis :=
            {| a_complexity :=
                 default (PyStr "Not given") (assoc_get "complexity" claude_results);
               a_requires_worker :=
                 default (PyStr "Not given") (assoc_get "requires_worker" claude_results);
               a_estimated_minutes :=
                 default PyNone (assoc_get "estimated_minutes" claude_results);
               a_reasoning :=
                 default (PyStr "No reasoning given")
                         (assoc_get "reasoning" claude_results) |} in
          ret ({| l_response := Some response; l_analysis := Some analysis |}, None)
      | Some _ =>
          ret ({| l_response := Some response; l_analysis := None |},
               Some (AttributeError "object has no attribute 'get'"))
      end
  end.

Definition _analyze_task_node (st : WfState) : M Proc WfState :=
  task <- subscript "task" (s_task st) ;;
  r <- analyze_try_block ;;
  let '(locals, exc) := r in
  analysis <-
    match exc with
    | None => local "analysis" (l_analysis locals)
    | Some JSONDecodeError =>
        (* print(f"Claude's reasoning: {analysis['reasoning']}") *)
        local "analysis" (l_analysis locals) ;;;
        ret fallback_analysis
    | Some _ =>
        (* print(f"Here is the text: {response}") *)
        local "response" (l_response locals) ;;;
        ret fallback_analysis
    end ;;
  ret (with_analysis analysis st).

Definition work_request_envelope (task : Task) (from i : string) : Envelope :=
  {| e_schema := "company.a2a.v1";
     e_type := "task.update";
     e_routing := {| r_project_id := t_project_id task; r_from := from;
                     r_to := "worker"; r_reply_to := None |};
     e_payload_text := "WORK_REQUEST: " +:+ t_text task;
     e_status := "sent";
     e_timestamps := None;
     e_id := i |}.

Definition work_request_row (task : Task) (from hid : string)
    (envelope_content : Envelope) (i : string) : Message :=
  {| m_id := i;
     m_project_id := t_project_id task;
     m_human_id := hid;
     m_agent_name := from;
     m_to_agent := "worker";
     m_intent := "WORK_REQUEST: " +:+ t_text task;
     m_status := "sent";
     m_content := envelope_content;
     m_reply_to := Some (t_id task);
     m_telemetry := None |}.

Definition _delegate_to_worker_node (st : WfState) : M Proc WfState :=
  task <- subscript "task" (s_task st) ;;
  analysis <- subscript "analysis" (s_analysis st) ;;
  if truthy (a_requires_worker analysis) then
    self <- get ;;
    eid <- in_world (uuid4 env) ;;
    let envelope_content := work_request_envelope task (agent_name self) eid in
    mid <- in_world (uuid4 env) ;;
    hid <- human_user_id ;;
    let message_data :=
      work_request_row task (agent_name self) hid envelope_content mid in
    try_except
      (data <- in_world_try (table_insert env message_data) ;;
       match data with
       | sent0 :: _ =>
           in_world_try (table_select_id env (m_id sent0)) ;;;
           set_state (set_pending_delegation
                        (Some {| worker_message_id := m_id sent0;
                                 original_task_id := t_id task |})) ;;;
           ret (with_delegation_sent true (with_delegation_id (m_id sent0) st))
       | [] =>
           ret (with_delegation_sent false (with_error "Insert failed" st))
       end)
      (fun e => ret (with_delegation_sent false (with_error (str_exn e) st)))
  else
    ret (with_delegation_sent false st).

Definition placeholder_response : Completion :=
  {| c_status := "Completed";
     c_result := "Task processed successfully";
     c_details := "Worker completed the analysis" |}.

Definition _wait_for_response_node (st : WfState) : M Proc WfState :=
  match s_delegation_sent st with
  | Some true =>
      self <- get ;;
      let worker_response :=
        default placeholder_response (latest_worker_response (state self)) in
      ret (with_worker_response (ReplyDict worker_response) st)
  | _ => ret (with_worker_response (ReplyText "Handled directly") st)
  end.

Definition _consolidate_results_node (st : WfState) : M Proc WfState :=
  task <- subscript "task" (s_task st) ;;
  worker_response <- subscript "worker_response" (s_worker_response st) ;;
  now <- in_world (datetime_now_isoformat env) ;;
  let final_result :=
    {| fr_task_id := t_id task;
       fr_status := "completed";
       fr_summary := "Task completed with worker assistance";
       fr_worker_contribution := worker_response;
       fr_completed_at := now;
       fr_telemetry := {| tl_coordinator_model := "claude-3.5-sonnet";
                          tl_worker_model := "gpt-4";
                          tl_total_processing_time := "3.2s" |} |} in
  ret (with_final_result final_result st).

Definition task_complete_envelope (task : Task) (final_result : FinalResult)
    (from i : string) : Envelope :=
  {| e_schema := "company.a2a.v1";
     e_type := "task.update";
     e_routing := {| r_project_id := t_project_id task; r_from := from;
                     r_to := "broadcast"; r_reply_to := None |};
     e_payload_text := "TASK_COMPLETE: " +:+ fr_summary final_result;
     e_status := "done";
     e_timestamps := None;
     e_id := i |}.

Definition task_complete_row (task : Task) (final_result : FinalResult)
    (from hid : string) (envelope_content : Envelope) (i : string) : Message :=
  {| m_id := i;
     m_project_id := t_project_id task;
     m_human_id := hid;
     m_agent_name := from;
     m_to_agent := "broadcast";
     m_intent := "TASK_COMPLETE: " +:+ fr_summary final_result;
     m_status := "done";
     m_content := envelope_content;
     m_reply_to := Some (t_id task);
     m_telemetry := None |}.

Definition _complete_task_node (st : WfState) : M Proc WfState :=
  final_result <- subscript "final_result" (s_final_result st) ;;
  task <- subscript "task" (s_task st) ;;
  self <- get ;;
  eid <- in_world (uuid4 env) ;;
  let envelope_content :=
    task_complete_envelope task final_result (agent_name self) eid in
  mid <- in_world (uuid4 env) ;;
  hid <- human_user_id ;;
  let completion_data :=
    task_complete_row task final_result (agent_name self) hid envelope_content mid in
  data <- in_world_try (table_insert env completion_data) ;;
  match data with
  | [] => raise IndexError
  | sent0 :: _ =>
      set_state (set_current_task None) ;;;
      set_state (set_task_status "idle") ;;;
      ret (with_completion true (m_id sent0) st)
  end.

(** [self.workflow.ainvoke]: the six nodes along the graph's edges. *)
Definition workflow (initial_state : WfState) : M Proc WfState :=
  st <- _receive_task_node initial_state ;;
  st <- _analyze_task_node st ;;
  st <- _delegate_to_worker_node st ;;
  st <- _wait_for_response_node st ;;
  st <- _consolidate_results_node st ;;
  _complete_task_node st.

Definition initial_state (message_data : Message) : WfState :=
  {| s_incoming_message := Some message_data; s_status := None; s_task := None;
     s_analysis := None; s_delegation_sent := None; s_delegation_id := None;
     s_error := None; s_worker_response := None; s_final_result := None;
     s_completion_sent := None; s_completion_id := None |}.

Definition process_incoming_message (message_data : Message) : M Proc unit :=
  self <- get ;;
  if decide (m_id message_data ∈ processed_messages (state self)) then ret tt
  else
    set_state (add_processed (m_id message_data)) ;;;
    if startswith (m_intent message_data) "WORK_COMPLETE:" then
      set_state (set_latest_worker_response
                   (Some {| c_status := "Completed";
                            c_result := replace (m_intent message_data) "WORK_COMPLETE: " EmptyString;
                            c_details := "Worker completed successfully" |}))
    else if negb (startswith (m_intent message_data) "WORK_REQUEST:"
                  || startswith (m_intent message_data) "TASK_COMPLETE:") then
      log_ainvoke (m_id message_data) ;;;
      workflow (initial_state message_data) ;;;
      ret tt
    else ret tt.

(** [send_test_message_to_self_custom]: returns [sent.data[0]]. *)
Definition send_test_message_to_self_custom (task_text : string) : M Proc Message :=
  self <- get ;;
  eid <- in_world (uuid4 env) ;;
  let envelope_content :=
    {| e_schema := "company.a2a.v1";
       e_type := "task.create";
       e_routing := {| r_project_id := "test_project"; r_from := "cli-user";
                       r_to := agent_name self; r_reply_to := None |};
       e_payload_text := task_text;
       e_status := "sent";
       e_timestamps := None;
       e_id := eid |} in
  mid <- in_world (uuid4 env) ;;
  hid <- human_user_id ;;
  let message_data :=
    {| m_id := mid;
       m_project_id := "test_project";
       m_human_id := hid;
       m_agent_name := "cli-user";
       m_to_agent := agent_name self;
       m_intent := task_text;
       m_status := "sent";
       m_content := envelope_content;
       m_reply_to := None;
       m_telemetry := None |} in
  data <- in_world_try (table_insert env message_data) ;;
  match data with
  | [] => raise IndexError
  | sent0 :: _ => ret sent0
  end.

(** [handle_cli_input] on the lines the operator types; running out of
    lines is the [EOFError] that ends the loop. Only [EOFError] is caught:
    what [send_test_message_to_self_custom] raises leaves the function. *)
Fixpoint handle_cli_input (inputs : list string) : M Proc unit :=
  match inputs with
  | [] => ret tt
  | command :: rest =>
      if String.eqb (lower command) "quit" then ret tt
      else if String.eqb (lower command) "status" then handle_cli_input rest
      else if String.eqb (lower command) "send" then
        match rest with
        | [] => ret tt
        | task_text :: rest' =>
            if negb (String.eqb (strip task_text) EmptyString)
            then send_test_message_to_self_custom (strip task_text) ;;;
                 handle_cli_input rest'
            else handle_cli_input rest'
        end
      else handle_cli_input rest
  end.

(** One pass of the body of [poll_for_messages]'s loop, given what the two
    queries of the pass answer (the second is only made when the first
    loop went through). [true]: the pass reached the end and moves
    [last_checked]; [false]: it was cut short by an exception, which the
    loop prints before backing off. *)
Definition poll_for_messages_pass
    (response worker_responses : py_result (list Message)) : M Proc bool :=
  try_except
    (data <- (fun p => (response, p)) ;;
     for_each data
       (fun message =>
          self <- get ;;
          if decide (m_id message ∈ processed_messages (state self)) then ret tt
          else process_incoming_message message) ;;;
     data <- (fun p => (worker_responses, p)) ;;
     for_each data
       (fun message =>
          self <- get ;;
          if negb (bool_decide (m_id message ∈ processed_messages (state self)))
             && startswith (m_intent message) "WORK_COMPLETE:"
          then process_incoming_message message
          else ret tt) ;;;
     ret true)
    (fun e => ret false).
End Nodes.

End CoordinatorMoon.

(** ** [backend/moon_agent_two.py]: the worker *)

Module EnhancedWorkerMoon.

Record Request := {
  rq_id : string;
  rq_text : string;
  rq_project_id : string;
  rq_original_message : Message
}.

Record Analysis := {
  a_type : string;
  a_prompt_template : string;
  a_complexity : string;
  a_estimated_time : Z
}.

(** [tokens_used] is set on success only, [error] on failure only. *)
Record AiResponse := {
  ai_content : string;
  ai_model : string;
  ai_processing_time_ms : Z;
  ai_tokens_used : option Z;
  ai_error : option string;
  ai_analysis_type : string
}.

Record FormattedResponse := {
  f_summary : string;
  f_detailed_analysis : string;
  f_metadata : Metadata
}.

Record WorkerState := {
  current_request : option Request;
  analysis_result : option Analysis;
  processed_messages : gset string;
  ai_response : option AiResponse
}.

(** [WorkerState.__init__] *)
Definition init_state : WorkerState :=
  {| current_request := None; analysis_result := None;
     processed_messages := ∅; ai_response := None |}.

(** One worker process; [ainvoked] is the ghost log of the ids handed to
    [workflow.ainvoke]. *)
Record Proc := {
  agent_name : string;
  human_user : option string;
  state : WorkerState;
  world : World;
  ainvoked : list string
}.

Record WfState := {
  s_work_request : option Message;
  s_status : option string;
  s_request : option Request;
  s_analysis : option Analysis;
  s_ai_response : option AiResponse;
  s_formatted_response : option FormattedResponse;
  s_summary_text : option string;
  s_result_sent : option bool;
  s_result_id : option string;
  s_error : option string
}.

Definition with_analysis (a : Analysis) (st : WfState) : WfState :=
  {| s_work_request := s_work_request st; s_status := s_status st;
     s_request := s_request st; s_analysis := under_state a (s_analysis st);
     s_ai_response := s_ai_response st;
     s_formatted_response := s_formatted_response st;
     s_summary_text := s_summary_text st; s_result_sent := s_result_sent st;
     s_result_id := s_result_id st; s_error := s_error st |}.

Definition with_ai_response (r : AiResponse) (st : WfState) : WfState :=
  {| s_work_request := s_work_request st; s_status := s_status st;
     s_request := s_request st; s_analysis := s_analysis st;
     s_ai_response := under_state r (s_ai_response st);
     s_formatted_response := s_formatted_response st;
     s_summary_text := s_summary_text st; s_result_sent := s_result_sent st;
     s_result_id := s_result_id st; s_error := s_error st |}.

Definition with_formatted (f : FormattedResponse) (t : string) (st : WfState) : WfState :=
  {| s_work_request := s_work_request st; s_status := s_status st;
     s_request := s_request st; s_analysis := s_analysis st;
     s_ai_response := s_ai_response st;
     s_formatted_response := under_state f (s_formatted_response st);
     s_summary_text := under_state t (s_summary_text st);
     s_result_sent := s_result_sent st;
     s_result_id := s_result_id st; s_error := s_error st |}.

Definition with_result_sent (b : bool) (st : WfState) : WfState :=
  {| s_work_request := s_work_request st; s_status := s_status st;
     s_request := s_request st; s_analysis := s_analysis st;
     s_ai_response := s_ai_response st;
     s_formatted_response := s_formatted_response st;
     s_summary_text := s_summary_text st;
     s_result_sent := under_state b (s_result_sent st);
     s_result_id := s_result_id st; s_error := s_error st |}.

Definition with_result_id (i : string) (st : WfState) : WfState :=
  {| s_work_request := s_work_request st; s_status := s_status st;
     s_request := s_request st; s_analysis := s_analysis st;
     s_ai_response := s_ai_response st;
     s_formatted_response := s_formatted_response st;
     s_summary_text := s_summary_text st; s_result_sent := s_result_sent st;
     s_result_id := under_state i (s_result_id st); s_error := s_error st |}.

Definition with_error (e : string) (st : WfState) : WfState :=
  {| s_work_request := s_work_request st; s_status := s_status st;
     s_request := s_request st; s_analysis := s_analysis st;
     s_ai_response := s_ai_response st;
     s_formatted_response := s_formatted_response st;
     s_summary_text := s_summary_text st; s_result_sent := s_result_sent st;
     s_result_id := s_result_id st; s_error := under_state e (s_error st) |}.

Definition set_state (f : WorkerState -> WorkerState) : M Proc unit :=
  modify (fun p => {| agent_name := agent_name p; human_user := human_user p;
                      state := f (state p); world := world p; ainvoked := ainvoked p |}).

Definition set_current_request (r : option Request) (s : WorkerState) :=
  {| current_request := r; analysis_result := analysis_result s;
     processed_messages := processed_messages s; ai_response := ai_response s |}.

Definition set_ai_response (r : option AiResponse) (s : WorkerState) :=
  {| current_request := current_request s; analysis_result := analysis_result s;
     processed_messages := processed_messages s; ai_response := r |}.

Definition add_processed (i : string) (s : WorkerState) :=
  {| current_request := current_request s; analysis_result := analysis_result s;
     processed_messages := {[ i ]} ∪ processed_messages s;
     ai_response := ai_response s |}.

Definition log_ainvoke (i : string) : M Proc unit :=
  modify (fun p => {| agent_name := agent_name p; human_user := human_user p;
                      state := state p; world := world p;
                      ainvoked := ainvoked p ++ [i] |}).

Definition in_world {A} (f : World -> A * World) : M Proc A :=
  fun p => let '(a, w) := f (world p) in
           (Ok a, {| agent_name := agent_name p; human_user := human_user p;
                     state := state p; world := w; ainvoked := ainvoked p |}).

Definition in_world_try {A} (f : World -> py_result A * World) : M Proc A :=
  fun p => let '(r, w) := f (world p) in
           (r, {| agent_name := agent_name p; human_user := human_user p;
                  state := state p; world := w; ainvoked := ainvoked p |}).

Definition human_user_id : M Proc string :=
  p <- get ;;
  match human_user p with
  | Some i => ret i
  | None => raise (AttributeError "'NoneType' object has no attribute 'id'")
  end.

(** [any(keyword in request_text for keyword in keywords)] *)
Definition any_keyword (keywords : list string) (request_text : string) : bool :=
  existsb (fun keyword => contains keyword request_text) keywords.

Section Nodes.
Variable env : Env.

Definition _receive_request_node (st : WfState) : M Proc WfState :=
  match s_work_request st with
  | None =>
      ret {| s_work_request := None; s_status := Some "no_request";
             s_request := None; s_analysis := None; s_ai_response := None;
             s_formatted_response := None; s_summary_text := None;
             s_result_sent := None; s_result_id := None; s_error := None |}
  | Some request_message =>
      let r := {| rq_id := m_id request_message;
                  rq_text := replace (m_intent request_message) "WORK_REQUEST: " EmptyString;
                  rq_project_id := m_project_id request_message;
                  rq_original_message := request_message |} in
      set_state (set_current_request (Some r)) ;;;
      ret {| s_work_request := None; s_status := Some "request_received";
             s_request := Some r; s_analysis := None; s_ai_response := None;
             s_formatted_response := None; s_summary_text := None;
             s_result_sent := None; s_result_id := None; s_error := None |}
  end.

(** The [if]/[elif] chain: [(analysis_type, prompt_template)]. *)
Definition classify (text : string) : string * string :=
  let request_text := lower text in
  if any_keyword ["security"; "vulnerability"; "exploit"] request_text
  then ("security_review", "security_analysis")
  else if any_keyword ["code"; "review"; "bug"; "error"] request_text
  then ("code_review", "code_analysis")
  else if any_keyword ["test"; "testing"; "qa"] request_text
  then ("test_analysis", "test_strategy")
  else ("general_analysis", "general_task").

Definition _analyze_request_node (st : WfState) : M Proc WfState :=
  request <- subscript "request" (s_request st) ;;
  let '(analysis_type, prompt_template) := classify (rq_text request) in
  now <- in_world (time_time env) ;;
  let analysis :=
    {| a_type := analysis_type;
       a_prompt_template := prompt_template;
       a_complexity := if (50 <? String.length (rq_text request))%nat
                       then "high" else "medium";
       a_estimated_time := now |} in
  ret (with_analysis analysis st).

(** The prompt text only travels to the Advisor, whose reply is scripted
    by [env]; it is not built here. *)
Definition _call_ai_model_node (st : WfState) : M Proc WfState :=
  request <- subscript "request" (s_request st) ;;
  analysis <- subscript "analysis" (s_analysis st) ;;
  try_except
    (start_time <- in_world (time_time env) ;;
     out <- in_world (messages_create env) ;;
     match out with
     | AdvisorRaises err => raise (APIError err)
     | AdvisorReplies text input_tokens output_tokens =>
         end_time <- in_world (time_time env) ;;
         let processing_time := Z.quot (end_time - start_time) 1000 in
         let r := {| ai_content := text;
                     ai_model := "claude-3-sonnet-20240229";
                     ai_processing_time_ms := processing_time;
                     ai_tokens_used := Some (input_tokens + output_tokens);
                     ai_error := None;
                     ai_analysis_type := a_type analysis |} in
         set_state (set_ai_response (Some r)) ;;;
         ret (with_ai_response r st)
     end)
    (fun e =>
       let fallback_response :=
         "Analysis completed for '" +:+ take_str 50 (rq_text request)
         +:+ "...'. Unable to connect to AI model, providing basic analysis." in
       let r := {| ai_content := fallback_response;
                   ai_model := "fallback";
                   ai_processing_time_ms := 100;
                   ai_tokens_used := None;
                   ai_error := Some (str_exn e);
                   ai_analysis_type := a_type analysis |} in
       set_state (set_ai_response (Some r)) ;;;
       ret (with_ai_response r st)).

Definition _format_response_node (st : WfState) : M Proc WfState :=
  ai <- subscript "ai_response" (s_ai_response st) ;;
  analysis <- subscript "analysis" (s_analysis st) ;;
  request <- subscript "request" (s_request st) ;;
  self <- get ;;
  now <- in_world (datetime_now_isoformat env) ;;
  let formatted_response :=
    {| f_summary := "AI-powered " +:+ a_type analysis +:+ " completed";
       f_detailed_analysis := ai_content ai;
       f_metadata := {| md_model_used := ai_model ai;
                        md_processing_time_ms := ai_processing_time_ms ai;
                        md_analysis_type := ai_analysis_type ai;
                        md_request_id := rq_id request;
                        md_worker_agent := agent_name self;
                        md_completed_at := now |} |} in
  let summary_text :=
    f_summary formatted_response +:+ ": " +:+ take_str 100 (ai_content ai) +:+ "..." in
  ret (with_formatted formatted_response summary_text st).

Definition work_complete_envelope (request : Request) (summary_text : string)
    (from i : string) : Envelope :=
  {| e_schema := "company.a2a.v1";
     e_type := "task.update";
     e_routing := {| r_project_id := rq_project_id request; r_from := from;
                     r_to := "coordinator"; r_reply_to := None |};
     e_payload_text := "WORK_COMPLETE: " +:+ summary_text;
     e_status := "done";
     e_timestamps := None;
     e_id := i |}.

Definition work_complete_row (request : Request)
    (formatted_response : FormattedResponse) (summary_text : string)
    (from hid : string) (envelope_content : Envelope) (i : string) : Message :=
  {| m_id := i;
     m_project_id := rq_project_id request;
     m_human_id := hid;
     m_agent_name := from;
     m_to_agent := "coordinator";
     m_intent := "WORK_COMPLETE: " +:+ summary_text;
     m_status := "done";
     m_content := envelope_content;
     m_reply_to := Some (rq_id request);
     m_telemetry := Some (f_metadata formatted_response) |}.

Definition _send_result_node (st : WfState) : M Proc WfState :=
  request <- subscript "request" (s_request st) ;;
  formatted_response <- subscript "formatted_response" (s_formatted_response st) ;;
  summary_text <- subscript "summary_text" (s_summary_text st) ;;
  self <- get ;;
  eid <- in_world (uuid4 env) ;;
  let envelope_content :=
    work_complete_envelope request summary_text (agent_name self) eid in
  mid <- in_world (uuid4 env) ;;
  hid <- human_user_id ;;
  let completion_data :=
    work_complete_row request formatted_response summary_text
                      (agent_name self) hid envelope_content mid in
  try_except
    (data <- in_world_try (table_insert env completion_data) ;;
     match data with
     | [] => raise IndexError
     | sent0 :: _ =>
         set_state (set_current_request None) ;;;
         set_state (set_ai_response None) ;;;
         ret (with_result_sent true (with_result_id (m_id sent0) st))
     end)
    (fun e => ret (with_result_sent false (with_error (str_exn e) st))).

(** [self.workflow.ainvoke]: the five nodes along the graph's edges. *)
Definition workflow (initial_state : WfState) : M Proc WfState :=
  st <- _receive_request_node initial_state ;;
  st <- _analyze_request_node st ;;
  st <- _call_ai_model_node st ;;
  st <- _format_response_node st ;;
  _send_result_node st.

Definition initial_state (message_data : Message) : WfState :=
  {| s_work_request := Some message_data; s_status := None;
     s_request := None; s_analysis := None; s_ai_response := None;
     s_formatted_response := None; s_summary_text := None;
     s_result_sent := None; s_result_id := None; s_error := None |}.

Definition process_work_request (message_data : Message) : M Proc unit :=
  self <- get ;;
  if decide (m_id message_data ∈ processed_messages (state self)) then ret tt
  else
    set_state (add_processed (m_id message_data)) ;;;
    log_ainvoke (m_id message_data) ;;;
    try_except (workflow (initial_state message_data) ;;; ret tt)
               (fun e => ret tt).

(** One pass of the body of [poll_for_work_requests]'s loop, given what the
    query of the pass answers; [true] when the pass reached the end. *)
Definition poll_for_work_requests_pass (worker_messages : py_result (list Message))
  : M Proc bool :=
  try_except
    (data <- (fun q => (worker_messages, q)) ;;
     for_each data
       (fun message =>
          self <- get ;;
          if negb (bool_decide (m_id message ∈ processed_messages (state self)))
             && startswith (m_intent message) "WORK_REQUEST:"
          then process_work_request message
          else ret tt) ;;;
     ret true)
    (fun e => ret false).
End Nodes.

End EnhancedWorkerMoon.

(** ** Concrete environments and messages *)

Module Examples.

Definition decimal (n : nat) : string := NilEmpty.string_of_uint (Nat.to_uint n).

Definition uuid_of (k : nat) : string := "uuid-" +:+ decimal k.

Definition quote : string := String (ascii_of_nat 34) EmptyString.

(** [{"requires_worker": true}] and [{"requires_worker": false}] *)
Definition reply_needs_worker : string :=
  "{" +:+ quote +:+ "requires_worker" +:+ quote +:+ ": true}".
Definition reply_no_worker : string :=
  "{" +:+ quote +:+ "requires_worker" +:+ quote +:+ ": false}".

(** [json.loads] on the few texts the examples use; any other text is
    rejected. *)
Definition json_table (s : string) : option pyval :=
  if String.eqb s reply_needs_worker
  then Some (PyDict [("requires_worker", PyBool true)])
  else if String.eqb s reply_no_worker
  then Some (PyDict [("requires_worker", PyBool false)])
  else if String.eqb s "[]" then Some (PyList [])
  else None.

Definition env_of (adv : nat -> advisor_outcome) (st : nat -> store_outcome) : Env :=
  {| uuid_src := uuid_of;
     iso_src := fun k => "2025-01-01T00:00:" +:+ decimal k;
     time_src := fun k => Z.of_nat k * 1000000;
     json_loads := json_table;
     advisor_script := adv;
     store_script := st |}.

Definition store_up : nat -> store_outcome := fun _ => StoreOk.
Definition store_down : nat -> store_outcome := fun _ => StoreRaises "connection refused".

(** The Advisor is unreachable. *)
Definition env_advisor_down : Env :=
  env_of (fun _ => AdvisorRaises "connection error") store_up.
(** The Advisor answers with text that is not JSON. *)
Definition env_advisor_garbled : Env :=
  env_of (fun _ => AdvisorReplies "I think this is a hard task." 10 10) store_up.
(** The Advisor answers with a JSON array instead of an object. *)
Definition env_advisor_array : Env :=
  env_of (fun _ => AdvisorReplies "[]" 10 2) store_up.
(** The Advisor asks for delegation. *)
Definition env_delegating : Env :=
  env_of (fun _ => AdvisorReplies reply_needs_worker 10 8) store_up.
(** The Advisor asks for delegation and the table is unreachable. *)
Definition env_delegating_store_down : Env :=
  env_of (fun _ => AdvisorReplies reply_needs_worker 10 8) store_down.
(** The Advisor declines delegation. *)
Definition env_direct : Env :=
  env_of (fun _ => AdvisorReplies reply_no_worker 10 8) store_up.

Definition world0 : World :=
  {| uuid_next := 0; clock_next := 0; advisor_next := 0; store_next := 0; db := [] |}.

Definition cli_envelope (text i : string) : Envelope :=
  {| e_schema := "company.a2a.v1";
     e_type := "task.create";
     e_routing := {| r_project_id := "test_project"; r_from := "cli-user";
                     r_to := "coordinator"; r_reply_to := None |};
     e_payload_text := text;
     e_status := "sent";
     e_timestamps := None;
     e_id := i |}.

(** A row as [send_test_message_to_self_custom] writes it. *)
Definition cli_task (i text : string) : Message :=
  {| m_id := i;
     m_project_id := "test_project";
     m_human_id := "human-1";
     m_agent_name := "cli-user";
     m_to_agent := "coordinator";
     m_intent := text;
     m_status := "sent";
     m_content := cli_envelope text ("env-" +:+ i);
     m_reply_to := None;
     m_telemetry := None |}.

Definition task1 : Message :=
  cli_task "task-1" "Refactor the login module for better error handling".

(** A completion row as the worker writes it. *)
Definition completion1 : Message :=
  {| m_id := "done-1";
     m_project_id := "test_project";
     m_human_id := "human-1";
     m_agent_name := "worker";
     m_to_agent := "coordinator";
     m_intent := "WORK_COMPLETE: AI-powered code_review completed: fine...";
     m_status := "done";
     m_content := cli_envelope "WORK_COMPLETE: AI-powered code_review completed: fine..." "env-done-1";
     m_reply_to := Some "uuid-1";
     m_telemetry := None |}.

(** The work request the coordinator writes for [task1]. *)
Definition work_request1 : Message :=
  CoordinatorMoon.work_request_row
    {| CoordinatorMoon.t_id := "task-1";
       CoordinatorMoon.t_text := "Refactor the login module for better error handling";
       CoordinatorMoon.t_project_id := "test_project" |}
    "coordinator" "human-1"
    (CoordinatorMoon.work_request_envelope
       {| CoordinatorMoon.t_id := "task-1";
          CoordinatorMoon.t_text := "Refactor the login module for better error handling";
          CoordinatorMoon.t_project_id := "test_project" |}
       "coordinator" "uuid-0")
    "uuid-1".

Definition coordinator0 : CoordinatorMoon.Proc :=
  {| CoordinatorMoon.agent_name := "coordinator";
     CoordinatorMoon.human_user := Some "human-1";
     CoordinatorMoon.state := CoordinatorMoon.init_state;
     CoordinatorMoon.world := world0;
     CoordinatorMoon.ainvoked := [] |}.

Definition worker0 : EnhancedWorkerMoon.Proc :=
  {| EnhancedWorkerMoon.agent_name := "worker";
     EnhancedWorkerMoon.human_user := Some "human-1";
     EnhancedWorkerMoon.state := EnhancedWorkerMoon.init_state;
     EnhancedWorkerMoon.world := world0;
     EnhancedWorkerMoon.ainvoked := [] |}.

End Examples.

(** ** The specification's wording of the worker's classification *)

Module Spec.

(** Ordered rule table: keywords and the category they select. *)
Definition classification_rules : list (list string * string) :=
  [ (["security"; "vulnerability"; "exploit"], "security_analysis");
    (["code"; "review"; "bug"; "error"], "code_analysis");
    (["test"; "testing"; "qa"], "test_strategy") ].

(** First matching category wins; [general_task] when none matches. *)
Definition classify_by_rules (text : string) : string :=
  match List.find (fun rule => EnhancedWorkerMoon.any_keyword (fst rule) (lower text))
                  classification_rules with
  | Some rule => snd rule
  | None => "general_task"
  end.

Definition complexity_tag (text : string) : string :=
  if (50 <? String.length text)%nat then "high" else "medium".

(** The analysis the specification says is substituted when the Advisor
    fails. *)
Definition fallback_analysis : CoordinatorMoon.Analysis :=
  {| CoordinatorMoon.a_complexity := PyStr "unknown";
     CoordinatorMoon.a_requires_worker := PyBool false;
     CoordinatorMoon.a_estimated_minutes := PyNone;
     CoordinatorMoon.a_reasoning := PyStr "none" |}.

End Spec.

(** ** Vocabulary for statements about runs *)

(** The rows stored between two worlds. *)
Definition stored_between (w w' : World) (rows : list Message) : Prop :=
  db w' = (db w ++ rows)%list.

(** A poller handing rows to the coordinator's dispatcher one after the
    other; the poll loop catches whatever a dispatch raises and goes on. *)
Definition coordinator_dispatches (env : Env) (ms : list Message)
    (p : CoordinatorMoon.Proc) : CoordinatorMoon.Proc :=
  fold_left (fun p m => snd (CoordinatorMoon.process_incoming_message env m p)) ms p.

Definition worker_dispatches (env : Env) (ms : list Message)
    (p : EnhancedWorkerMoon.Proc) : EnhancedWorkerMoon.Proc :=
  fold_left (fun p m => snd (EnhancedWorkerMoon.process_work_request env m p)) ms p.

(** What no coordinator stage touches: the identity of the process, the
    ghost log, the processed set and the captured completion; the uuid
    counter only advances. *)
Record coordinator_frame (p p' : CoordinatorMoon.Proc) : Prop := {
  cf_name : CoordinatorMoon.agent_name p' = CoordinatorMoon.agent_name p;
  cf_user : CoordinatorMoon.human_user p' = CoordinatorMoon.human_user p;
  cf_log : CoordinatorMoon.ainvoked p' = CoordinatorMoon.ainvoked p;
  cf_processed :
    CoordinatorMoon.processed_messages (CoordinatorMoon.state p')
    = CoordinatorMoon.processed_messages (CoordinatorMoon.state p);
  cf_latest :
    CoordinatorMoon.latest_worker_response (CoordinatorMoon.state p')
    = CoordinatorMoon.latest_worker_response (CoordinatorMoon.state p);
  cf_uuid :
    (uuid_next (CoordinatorMoon.world p) <= uuid_next (CoordinatorMoon.world p'))%nat
}.

Record worker_frame (p p' : EnhancedWorkerMoon.Proc) : Prop := {
  wf_name : EnhancedWorkerMoon.agent_name p' = EnhancedWorkerMoon.agent_name p;
  wf_user : EnhancedWorkerMoon.human_user p' = EnhancedWorkerMoon.human_user p;
  wf_log : EnhancedWorkerMoon.ainvoked p' = EnhancedWorkerMoon.ainvoked p;
  wf_processed :
    EnhancedWorkerMoon.processed_messages (EnhancedWorkerMoon.state p')
    = EnhancedWorkerMoon.processed_messages (EnhancedWorkerMoon.state p);
  wf_uuid :
    (uuid_next (EnhancedWorkerMoon.world p) <= uuid_next (EnhancedWorkerMoon.world p'))%nat
}.

(** The task [_receive_task_node] extracts from a row, and the dict it
    returns. *)
Definition task_of (m : Message) : CoordinatorMoon.Task :=
  {| CoordinatorMoon.t_id := m_id m;
     CoordinatorMoon.t_text := m_intent m;
     CoordinatorMoon.t_project_id := m_project_id m |}.

Definition task_received (t : CoordinatorMoon.Task) : CoordinatorMoon.WfState :=
  {| CoordinatorMoon.s_incoming_message := None;
     CoordinatorMoon.s_status := Some "task_received";
     CoordinatorMoon.s_task := Some t;
     CoordinatorMoon.s_analysis := None;
     CoordinatorMoon.s_delegation_sent := None;
     CoordinatorMoon.s_delegation_id := None;
     CoordinatorMoon.s_error := None;
     CoordinatorMoon.s_worker_response := None;
     CoordinatorMoon.s_final_result := None;
     CoordinatorMoon.s_completion_sent := None;
     CoordinatorMoon.s_completion_id := None |}.

(** The rows a coordinator named [name] writes for [task]: a work request
    or a completion, whose envelope id and record id are two consecutive
    uuid4 draws. *)
Inductive coordinator_row (env : Env) (task : CoordinatorMoon.Task) (name : string)
  : Message -> Prop :=
| is_work_request (hid : string) (n : nat) :
    coordinator_row env task name
      (CoordinatorMoon.work_request_row task name hid
         (CoordinatorMoon.work_request_envelope task name (uuid_src env n))
         (uuid_src env (S n)))
| is_task_complete (final_result : CoordinatorMoon.FinalResult) (hid : string) (n : nat) :
    coordinator_row env task name
      (CoordinatorMoon.task_complete_row task final_result name hid
         (CoordinatorMoon.task_complete_envelope task final_result name (uuid_src env n))
         (uuid_src env (S n))).

(** A stretch of a coordinator run working on [task]. *)
Definition coordinator_run (env : Env) (task : CoordinatorMoon.Task)
    (p p' : CoordinatorMoon.Proc) : Prop :=
  coordinator_frame p p' /\
  exists rows,
    stored_between (CoordinatorMoon.world p) (CoordinatorMoon.world p') rows /\
    Forall (coordinator_row env task (CoordinatorMoon.agent_name p)) rows.

(** The request [_receive_request_node] extracts from a row. *)
Definition request_of (m : Message) : EnhancedWorkerMoon.Request :=
  {| EnhancedWorkerMoon.rq_id := m_id m;
     EnhancedWorkerMoon.rq_text := replace (m_intent m) "WORK_REQUEST: " EmptyString;
     EnhancedWorkerMoon.rq_project_id := m_project_id m;
     EnhancedWorkerMoon.rq_original_message := m |}.

Definition request_received (r : EnhancedWorkerMoon.Request) : EnhancedWorkerMoon.WfState :=
  {| EnhancedWorkerMoon.s_work_request := None;
     EnhancedWorkerMoon.s_status := Some "request_received";
     EnhancedWorkerMoon.s_request := Some r;
     EnhancedWorkerMoon.s_analysis := None;
     EnhancedWorkerMoon.s_ai_response := None;
     EnhancedWorkerMoon.s_formatted_response := None;
     EnhancedWorkerMoon.s_summary_text := None;
     EnhancedWorkerMoon.s_result_sent := None;
     EnhancedWorkerMoon.s_result_id := None;
     EnhancedWorkerMoon.s_error := None |}.

(** The rows a worker named [name] writes for [request]. *)
Inductive worker_row (env : Env) (request : EnhancedWorkerMoon.Request) (name : string)
  : Message -> Prop :=
| is_work_complete (f : EnhancedWorkerMoon.FormattedResponse) (summary_text hid : string)
    (n : nat) :
    worker_row env request name
      (EnhancedWorkerMoon.work_complete_row request f summary_text name hid
         (EnhancedWorkerMoon.work_complete_envelope request summary_text name
                                                    (uuid_src env n))
         (uuid_src env (S n))).

(** A stretch of a worker run working on [request]. *)
Definition worker_run (env : Env) (request : EnhancedWorkerMoon.Request)
    (p p' : EnhancedWorkerMoon.Proc) : Prop :=
  worker_frame p p' /\
  exists rows,
    stored_between (EnhancedWorkerMoon.world p) (EnhancedWorkerMoon.world p') rows /\
    Forall (worker_row env request (EnhancedWorkerMoon.agent_name p)) rows.

(** The coordinator's routing guard on an intent: neither a completion to
    capture nor the coordinator's own traffic. *)
Definition is_fresh_task (intent : string) : bool :=
  negb (startswith intent "WORK_COMPLETE:")
  && negb (startswith intent "WORK_REQUEST:" || startswith intent "TASK_COMPLETE:").

(** The process right after the dispatcher has put a row's id in the
    processed set and entered it in the ghost log, before the pipeline. *)
Definition coordinator_claim (m : Message) (p : CoordinatorMoon.Proc)
  : CoordinatorMoon.Proc :=
  snd ((CoordinatorMoon.set_state (CoordinatorMoon.add_processed (m_id m)) ;;;
        CoordinatorMoon.log_ainvoke (m_id m)) p).

Definition worker_claim (m : Message) (p : EnhancedWorkerMoon.Proc)
  : EnhancedWorkerMoon.Proc :=
  snd ((EnhancedWorkerMoon.set_state (EnhancedWorkerMoon.add_processed (m_id m)) ;;;
        EnhancedWorkerMoon.log_ainvoke (m_id m)) p).

(** No id was handed to the pipeline twice, and every id handed to it is
    in the processed set. *)
Definition coordinator_dedup (p : CoordinatorMoon.Proc) : Prop :=
  NoDup (CoordinatorMoon.ainvoked p) /\
  forall i, i ∈ CoordinatorMoon.ainvoked p ->
            i ∈ CoordinatorMoon.processed_messages (CoordinatorMoon.state p).

Definition worker_dedup (p : EnhancedWorkerMoon.Proc) : Prop :=
  NoDup (EnhancedWorkerMoon.ainvoked p) /\
  forall i, i ∈ EnhancedWorkerMoon.ainvoked p ->
            i ∈ EnhancedWorkerMoon.processed_messages (EnhancedWorkerMoon.state p).

(** The first two stages of a coordinator run on a row. *)
Definition received_and_analyzed (env : Env) (m : Message)
  : M CoordinatorMoon.Proc CoordinatorMoon.WfState :=
  st <- CoordinatorMoon._receive_task_node (CoordinatorMoon.initial_state m) ;;
  CoordinatorMoon._analyze_task_node env st.

(** ** Further concrete inputs *)

Module MoreExamples.

Definition formatted1 : EnhancedWorkerMoon.FormattedResponse :=
  {| EnhancedWorkerMoon.f_summary := "AI-powered code_review completed";
     EnhancedWorkerMoon.f_detailed_analysis := "fine";
     EnhancedWorkerMoon.f_metadata :=
       {| md_model_used := "claude-3-sonnet-20240229";
          md_processing_time_ms := 1000;
          md_analysis_type := "code_review";
          md_request_id := "uuid-1";
          md_worker_agent := "worker";
          md_completed_at := "2025-01-01T00:00:0" |} |}.

(** The completion the worker writes for [Examples.work_request1]. *)
Definition completion_row1 : Message :=
  EnhancedWorkerMoon.work_complete_row
    (request_of Examples.work_request1) formatted1
    "AI-powered code_review completed: fine..." "worker" "human-1"
    (EnhancedWorkerMoon.work_complete_envelope
       (request_of Examples.work_request1)
       "AI-powered code_review completed: fine..." "worker" "uuid-0")
    "uuid-1".

(** The Advisor answers with a JSON object that says nothing about
    delegation. *)
Definition json_table' (s : string) : option pyval :=
  if String.eqb s "{}" then Some (PyDict []) else Examples.json_table s.

Definition env_silent_about_worker : Env :=
  {| uuid_src := Examples.uuid_of;
     iso_src := fun k => "2025-01-01T00:00:" +:+ Examples.decimal k;
     time_src := fun k => Z.of_nat k * 1000000;
     json_loads := json_table';
     advisor_script := fun _ => AdvisorReplies "{}" 10 2;
     store_script := Examples.store_up |}.

(** The Advisor is unreachable and so is the table. *)
Definition env_all_down : Env :=
  Examples.env_of (fun _ => AdvisorRaises "connection error") Examples.store_down.

(** A coordinator and a worker that never signed in. *)
Definition coordinator_signed_out : CoordinatorMoon.Proc :=
  {| CoordinatorMoon.agent_name := "coordinator";
     CoordinatorMoon.human_user := None;
     CoordinatorMoon.state := CoordinatorMoon.init_state;
     CoordinatorMoon.world := Examples.world0;
     CoordinatorMoon.ainvoked := [] |}.

Definition worker_signed_out : EnhancedWorkerMoon.Proc :=
  {| EnhancedWorkerMoon.agent_name := "worker";
     EnhancedWorkerMoon.human_user := None;
     EnhancedWorkerMoon.state := EnhancedWorkerMoon.init_state;
     EnhancedWorkerMoon.world := Examples.world0;
     EnhancedWorkerMoon.ainvoked := [] |}.

End MoreExamples.

(** ** The worker's texts, as a reader of its rows expects them *)

(** The text the worker substitutes for the Advisor's when the call fails. *)
Definition fallback_content (request_text : string) : string :=
  "Analysis completed for '" +:+ take_str 50 request_text
  +:+ "...'. Unable to connect to AI model, providing basic analysis.".

(** The summary sent back for an analysis type and a content. *)
Definition summary_of (analysis_type content : string) : string :=
  ("AI-powered " +:+ analysis_type +:+ " completed")
  +:+ ": " +:+ take_str 100 content +:+ "...".

(** The content and the model tag an Advisor outcome leads to. *)
Definition content_of (request_text : string) (out : advisor_outcome) : string :=
  match out with
  | AdvisorReplies text _ _ => text
  | AdvisorRaises _ => fallback_content request_text
  end.

Definition model_tag_of (out : advisor_outcome) : string :=
  match out with
  | AdvisorReplies _ _ _ => "claude-3-sonnet-20240229"
  | AdvisorRaises _ => "fallback"
  end.

(** ** The command line *)

(** What the command line leaves alone: the process identity, the whole
    dispatcher state and the ghost log. *)
Record cli_frame (p p' : CoordinatorMoon.Proc) : Prop := {
  cl_name : CoordinatorMoon.agent_name p' = CoordinatorMoon.agent_name p;
  cl_user : CoordinatorMoon.human_user p' = CoordinatorMoon.human_user p;
  cl_state : CoordinatorMoon.state p' = CoordinatorMoon.state p;
  cl_log : CoordinatorMoon.ainvoked p' = CoordinatorMoon.ainvoked p
}.

(** A task row as the command line writes it for the agent [name]. *)
Definition cli_row (name text : string) (row : Message) : Prop :=
  m_intent row = text /\ m_to_agent row = name /\ m_agent_name row = "cli-user" /\
  m_status row = "sent" /\ m_reply_to row = None /\ m_project_id row = "test_project" /\
  e_type (m_content row) = "task.create" /\ e_payload_text (m_content row) = text /\
  r_to (e_routing (m_content row)) = name.

(** What a command-line session on the typed lines [inputs] may do. *)
Definition session_ok (env : Env) (inputs : list string) (p : CoordinatorMoon.Proc)
  : Prop :=
  let r := CoordinatorMoon.handle_cli_input env inputs p in
  cli_frame p (snd r) /\
  exists rows,
    stored_between (CoordinatorMoon.world p) (CoordinatorMoon.world (snd r)) rows /\
    (2 * length rows <= length inputs)%nat /\
    Forall (fun row => exists line,
                In line inputs /\ strip line <> EmptyString /\
                cli_row (CoordinatorMoon.agent_name p) (strip line) row) rows.

(** * Properties *)

Import SolarEnvelopeBuilder SolarDatabaseAdapter.

(** ** The example environments draw fresh uuids *)

Lemma decimal_inj (i j : nat) : Examples.decimal i = Examples.decimal j -> i = j.
Proof.
  unfold Examples.decimal. intros H.
  apply (f_equal NilEmpty.uint_of_string) in H.
  rewrite !NilEmpty.usu in H.
  injection H as H.
  apply (f_equal Nat.of_uint) in H.
  now rewrite !Unsigned.of_to in H.
Qed.

Lemma env_of_fresh adv st : uuid_fresh (Examples.env_of adv st).
Proof.
  intros i j H. unfold Examples.env_of, Examples.uuid_of in H.
  cbn [uuid_src String.append] in H.
  apply decimal_inj. now inversion H.
Qed.

(** ** Envelope builder *)

Lemma create_task_id env project_id from_agent to_agent task_text w :
  e_id (fst (create_task env project_id from_agent to_agent task_text w))
  = uuid_src env (uuid_next w).
Proof. reflexivity. Qed.

Lemma create_task_world env project_id from_agent to_agent task_text w :
  uuid_next (snd (create_task env project_id from_agent to_agent task_text w))
  = S (uuid_next w).
Proof. reflexivity. Qed.

(** C6. [create_task] always yields status "sent", type "task.create" and
    the next uuid4 draw as id, so (uuid4 never repeating) the ids of two
    calls made one after the other, at any distance, differ;
    [create_task_update] yields type "task.update", routing.to "broadcast"
    and status "processing" unless a status argument is passed. *)
Theorem builder_envelopes (env : Env) (Hfresh : uuid_fresh env) :
  (forall project_id from_agent to_agent task_text w,
      let e := fst (create_task env project_id from_agent to_agent task_text w) in
      e_status e = "sent" /\ e_type e = "task.create" /\
      e_id e = uuid_src env (uuid_next w)) /\
  (forall p1 f1 t1 x1 w1 p2 f2 t2 x2 w2,
      (uuid_next (snd (create_task env p1 f1 t1 x1 w1)) <= uuid_next w2)%nat ->
      e_id (fst (create_task env p1 f1 t1 x1 w1))
      <> e_id (fst (create_task env p2 f2 t2 x2 w2))) /\
  (forall project_id from_agent progress_text status reply_to w,
      let e := fst (create_task_update env project_id from_agent progress_text
                                       status reply_to w) in
      e_type e = "task.update" /\ r_to (e_routing e) = "broadcast" /\
      e_status e = match status with Some s => s | None => "processing" end).
Proof.
  split; [|split].
  - intros. subst e. cbn. auto.
  - intros p1 f1 t1 x1 w1 p2 f2 t2 x2 w2 Hlater Heq.
    rewrite !create_task_id in Heq. rewrite create_task_world in Hlater.
    apply Hfresh in Heq. lia.
  - intros. subst e. cbn. destruct status; auto.
Qed.

Lemma builder_envelopes_witness :
  let env := Examples.env_advisor_down in
  let first := create_task env "test_project" "coordinator" "worker" "Test task"
                           Examples.world0 in
  e_id (fst first)
  <> e_id (fst (create_task env "test_project" "coordinator" "worker" "Test task"
                            (snd first))).
Proof.
  intros env first.
  apply (proj1 (proj2 (builder_envelopes env (env_of_fresh _ _)))).
  cbn. lia.
Defined.

(** ** Store adapter *)

(** C5. [send_envelope] returns the inserted record when the insert is
    accepted, and returns [None], storing nothing and raising nothing, when
    the insert reports no data. *)
Theorem send_envelope_result (env : Env) (envelope : Envelope) (human_id : string)
    (w : World) (reply_to : option string)
    (Hkey : r_reply_to (e_routing envelope) = Some reply_to) :
  exists row,
    db_data envelope human_id w = (Ok row, w) /\
    (store_script env (store_next w) = StoreOk ->
     fst (send_envelope env envelope human_id w) = Ok (Some row) /\
     db (snd (send_envelope env envelope human_id w)) = (db w ++ [row])%list) /\
    (store_script env (store_next w) = StoreNoData ->
     fst (send_envelope env envelope human_id w) = Ok None /\
     db (snd (send_envelope env envelope human_id w)) = db w).
Proof.
  unfold send_envelope, db_data, bind, subscript, ret, table_insert.
  rewrite Hkey. cbn. eexists. split; [reflexivity|].
  split; intros ->; cbn; auto.
Qed.

Lemma send_envelope_result_witness :
  let env := Examples.env_advisor_down in
  let built := create_task env "test_project" "coordinator" "worker" "Test task"
                           Examples.world0 in
  exists row,
    fst (send_envelope env (fst built) "human-1" (snd built)) = Ok (Some row) /\
    db (snd (send_envelope env (fst built) "human-1" (snd built))) = [row].
Proof.
  intros env built.
  destruct (send_envelope_result env (fst built) "human-1" (snd built) None eq_refl)
    as (row & _ & Hok & _).
  exists row. apply Hok. reflexivity.
Defined.

Lemma prefix_empty (x : string) : String.prefix EmptyString x = true.
Proof. now destruct x. Qed.

Lemma strip_to_prefix (x : string) :
  replace ("agent:" +:+ x) "agent:" EmptyString = replace x "agent:" EmptyString.
Proof.
  unfold replace. cbv [String.append]. cbn.
  now rewrite ?prefix_empty.
Qed.

Lemma strip_from_prefix (x : string) :
  replace ("agent: " +:+ x) "agent:" EmptyString = " " +:+ replace x "agent:" EmptyString.
Proof.
  unfold replace. cbv [String.append]. cbn.
  now rewrite ?prefix_empty.
Qed.

(** What the send path stores for an envelope built by [create_task] when
    the insert is accepted: the envelope itself as content, the recipient
    with every "agent:" removed, and the sender with every "agent:"
    removed behind a leading space. *)
Lemma send_created_task env project_id from_agent to_agent task_text human_id w :
  let built := create_task env project_id from_agent to_agent task_text w in
  store_script env (store_next w) = StoreOk ->
  exists row,
    fst (send_envelope env (fst built) human_id (snd built)) = Ok (Some row) /\
    db (snd (send_envelope env (fst built) human_id (snd built))) = (db w ++ [row])%list /\
    m_content row = fst built /\
    m_id row = e_id (fst built) /\
    m_to_agent row = replace to_agent "agent:" EmptyString /\
    m_agent_name row = " " +:+ replace from_agent "agent:" EmptyString.
Proof.
  intros built Hok. subst built.
  unfold send_envelope, db_data, bind, subscript, ret, table_insert, create_task.
  cbn [fst snd store_next db uuid4 datetime_now_isoformat tick e_routing r_reply_to
       r_from r_to e_id e_payload_text e_status r_project_id].
  rewrite Hok. rewrite strip_to_prefix, strip_from_prefix.
  eexists. cbn [fst snd db store_request m_content m_id m_to_agent m_agent_name].
  repeat split.
  destruct (String.eqb _ "broadcast") eqn:E; [|reflexivity].
  apply String.eqb_eq in E. now rewrite E.
Qed.

(** C4, at the repository's own test input: the stored content is the
    envelope and the recipient is "worker", but the stored sender is
    " coordinator", not "coordinator". *)
Theorem send_created_task_sender :
  let env := Examples.env_advisor_down in
  let built := create_task env "test_project" "coordinator" "worker" "Test task"
                           Examples.world0 in
  exists row,
    fst (send_envelope env (fst built) "human-1" (snd built)) = Ok (Some row) /\
    m_content row = fst built /\
    m_to_agent row = "worker" /\
    m_agent_name row = " coordinator" /\
    m_agent_name row <> "coordinator".
Proof.
  cbn zeta. eexists. split; [vm_compute; reflexivity|].
  repeat split. discriminate.
Qed.

(** ** Worker: request classification *)

Lemma classify_by_rules_refines (text : string) :
  snd (EnhancedWorkerMoon.classify text) = Spec.classify_by_rules text.
Proof.
  unfold EnhancedWorkerMoon.classify, Spec.classify_by_rules, Spec.classification_rules.
  cbn [List.find fst snd].
  destruct (EnhancedWorkerMoon.any_keyword _ _); [reflexivity|].
  destruct (EnhancedWorkerMoon.any_keyword _ _); [reflexivity|].
  destruct (EnhancedWorkerMoon.any_keyword _ _); reflexivity.
Qed.

Lemma analyze_request_runs env st request p :
  EnhancedWorkerMoon.s_request st = Some request ->
  exists a,
    EnhancedWorkerMoon._analyze_request_node env st p
    = (Ok (EnhancedWorkerMoon.with_analysis a st),
       snd (EnhancedWorkerMoon.in_world (time_time env) p)) /\
    EnhancedWorkerMoon.a_prompt_template a
    = snd (EnhancedWorkerMoon.classify (EnhancedWorkerMoon.rq_text request)) /\
    EnhancedWorkerMoon.a_complexity a
    = Spec.complexity_tag (EnhancedWorkerMoon.rq_text request).
Proof.
  intros Hreq.
  unfold EnhancedWorkerMoon._analyze_request_node, bind, subscript, ret.
  rewrite Hreq.
  destruct (EnhancedWorkerMoon.classify _) as [ty tpl].
  unfold EnhancedWorkerMoon.in_world. cbn.
  eexists. split; [reflexivity|]. split; reflexivity.
Qed.

(** C7. [analyze_request] selects the category of the first rule, in order,
    one of whose keywords occurs in the lower-cased request text, and
    general_task when none does; the four literal requests fall in
    security_analysis, code_analysis, test_strategy and general_task; the
    complexity tag is "high" exactly when the text has more than 50
    characters and "medium" otherwise. *)
Theorem analyze_request_classification (env : Env)
    (st : EnhancedWorkerMoon.WfState) (request : EnhancedWorkerMoon.Request)
    (p : EnhancedWorkerMoon.Proc)
    (Hreq : EnhancedWorkerMoon.s_request st = Some request) :
  (exists a p',
      EnhancedWorkerMoon._analyze_request_node env st p
      = (Ok (EnhancedWorkerMoon.with_analysis a st), p') /\
      EnhancedWorkerMoon.a_prompt_template a
      = Spec.classify_by_rules (EnhancedWorkerMoon.rq_text request) /\
      (EnhancedWorkerMoon.a_complexity a = "high"
       <-> (50 < String.length (EnhancedWorkerMoon.rq_text request))%nat) /\
      (EnhancedWorkerMoon.a_complexity a = "medium"
       <-> (String.length (EnhancedWorkerMoon.rq_text request) <= 50)%nat)) /\
  snd (EnhancedWorkerMoon.classify "Check for SQL injection vulnerability")
  = "security_analysis" /\
  snd (EnhancedWorkerMoon.classify "There's a bug in this function")
  = "code_analysis" /\
  snd (EnhancedWorkerMoon.classify "Need a QA test plan") = "test_strategy" /\
  snd (EnhancedWorkerMoon.classify "Explain microservices") = "general_task".
Proof.
  split; [|repeat split; vm_compute; reflexivity].
  destruct (analyze_request_runs env st request p Hreq) as (a & Hrun & Htpl & Hcx).
  exists a. eexists. split; [exact Hrun|].
  rewrite Htpl, Hcx, classify_by_rules_refines. unfold Spec.complexity_tag.
  split; [reflexivity|].
  destruct (Nat.ltb_spec 50 (String.length (EnhancedWorkerMoon.rq_text request)));
    split; split; intros; try discriminate; try reflexivity; try lia.
Qed.

(** ** Symbolic execution of a stage *)

Ltac unfold_effects :=
  unfold bind, ret, raise, get, modify, subscript, local, try_except,
    table_insert, table_select_id, uuid4, messages_create,
    datetime_now_isoformat, time_time, tick, store_request in *.

Ltac unfold_coordinator :=
  unfold CoordinatorMoon.in_world, CoordinatorMoon.in_world_try,
    CoordinatorMoon.set_state, CoordinatorMoon.log_ainvoke,
    CoordinatorMoon.human_user_id in *;
  unfold_effects.

Ltac unfold_worker :=
  unfold EnhancedWorkerMoon.in_world, EnhancedWorkerMoon.in_world_try,
    EnhancedWorkerMoon.set_state, EnhancedWorkerMoon.log_ainvoke,
    EnhancedWorkerMoon.human_user_id in *;
  unfold_effects.

Ltac split_match :=
  match goal with
  | |- context [match ?x with _ => _ end] =>
      lazymatch x with
      | context [match _ with _ => _ end] => fail
      | _ => destruct x eqn:?
      end
  end.

Ltac run_stage :=
  unfold_coordinator; unfold_worker;
  repeat (cbn -[String.append take_str replace]; try split_match).

Ltac unfold_monad := unfold_coordinator; unfold_worker.

Ltac frame_done := split; cbn; try reflexivity; try lia; congruence.

(** ** Coordinator: the stages one by one *)

Section CoordinatorStages.
Import CoordinatorMoon.
Variable env : Env.

Lemma frame_refl p : coordinator_frame p p.
Proof. split; auto. Qed.

Lemma frame_trans p1 p2 p3 :
  coordinator_frame p1 p2 -> coordinator_frame p2 p3 -> coordinator_frame p1 p3.
Proof. intros [] []. split; try congruence; lia. Qed.

Lemma run_refl task p : coordinator_run env task p p.
Proof.
  split; [apply frame_refl|]. exists []. split; [|constructor].
  unfold stored_between. now rewrite app_nil_r.
Qed.

Lemma run_trans task p1 p2 p3 :
  coordinator_run env task p1 p2 -> coordinator_run env task p2 p3 ->
  coordinator_run env task p1 p3.
Proof.
  intros [F1 (r1 & S1 & A1)] [F2 (r2 & S2 & A2)].
  split; [eapply frame_trans; eauto|].
  exists (r1 ++ r2)%list. unfold stored_between in *. split.
  - rewrite S2, S1. now rewrite app_assoc.
  - apply Forall_app. split; [exact A1|].
    now rewrite (cf_name _ _ F1) in A2.
Qed.

(** A stage that stores nothing. *)
Lemma run_quiet task p p' :
  coordinator_frame p p' -> db (world p') = db (world p) -> coordinator_run env task p p'.
Proof.
  intros F D. split; [exact F|]. exists []. split; [|constructor].
  unfold stored_between. now rewrite app_nil_r.
Qed.

Lemma receive_task_runs (m : Message) (p : Proc) :
  exists p1,
    _receive_task_node (initial_state m) p = (Ok (task_received (task_of m)), p1) /\
    coordinator_frame p p1 /\ world p1 = world p.
Proof.
  unfold _receive_task_node. unfold_monad. cbn.
  eexists. split; [reflexivity|]. split; [|reflexivity]. split; auto.
Qed.

Lemma analyze_task_frame st p :
  coordinator_frame p (snd (_analyze_task_node env st p)) /\
  db (world (snd (_analyze_task_node env st p))) = db (world p) /\
  store_next (world (snd (_analyze_task_node env st p))) = store_next (world p).
Proof.
  unfold _analyze_task_node, analyze_try_block. run_stage.
  all: repeat split; cbn; try reflexivity; try lia.
Qed.

Lemma analyze_task_state st p st' :
  fst (_analyze_task_node env st p) = Ok st' ->
  exists a, st' = with_analysis a st.
Proof.
  unfold _analyze_task_node, analyze_try_block. run_stage.
  all: intros H; try discriminate H; injection H as <-; eauto.
Qed.

Lemma delegate_frame st p :
  coordinator_frame p (snd (_delegate_to_worker_node env st p)).
Proof.
  unfold _delegate_to_worker_node. run_stage.
  all: frame_done.
Qed.

Lemma delegate_stores st p :
  exists rows,
    stored_between (world p) (world (snd (_delegate_to_worker_node env st p))) rows /\
    (length rows <= 1)%nat /\
    Forall (fun row => exists task,
                s_task st = Some task /\
                coordinator_row env task (agent_name p) row) rows.
Proof.
  unfold _delegate_to_worker_node. run_stage.
  all: unfold stored_between; cbn.
  all: try (exists []; split; [now rewrite app_nil_r|split; [cbn; lia|constructor]]).
  all: eexists [_]; split; [reflexivity|split; [cbn; lia|]].
  all: constructor; [|constructor].
  all: eexists; split; [reflexivity|apply is_work_request].
Qed.

Lemma delegate_rows st p task :
  s_task st = Some task ->
  exists rows,
    stored_between (world p) (world (snd (_delegate_to_worker_node env st p))) rows /\
    Forall (coordinator_row env task (agent_name p)) rows.
Proof.
  intros Htask. destruct (delegate_stores st p) as (rows & S & _ & A).
  exists rows. split; [exact S|].
  eapply Forall_impl; [exact A|]. intros row (t & Ht & Hrow). congruence.
Qed.

Lemma delegate_state st p st' :
  fst (_delegate_to_worker_node env st p) = Ok st' ->
  (exists i, st' = with_delegation_sent true (with_delegation_id i st)) \/
  (exists e, st' = with_delegation_sent false (with_error e st)) \/
  st' = with_delegation_sent false st.
Proof.
  unfold _delegate_to_worker_node. run_stage.
  all: intros H; try discriminate H; injection H as <-; eauto.
Qed.

Lemma wait_runs st p :
  _wait_for_response_node st p
  = (Ok (with_worker_response
           (match s_delegation_sent st with
            | Some true =>
                ReplyDict (default placeholder_response
                                   (latest_worker_response (state p)))
            | _ => ReplyText "Handled directly"
            end) st), p).
Proof.
  unfold _wait_for_response_node. run_stage. all: reflexivity.
Qed.

Lemma consolidate_frame st p :
  coordinator_frame p (snd (_consolidate_results_node env st p)) /\
  db (world (snd (_consolidate_results_node env st p))) = db (world p) /\
  store_next (world (snd (_consolidate_results_node env st p))) = store_next (world p).
Proof.
  unfold _consolidate_results_node. run_stage.
  all: repeat split; cbn; try reflexivity; try lia.
Qed.

Lemma consolidate_state st p st' :
  fst (_consolidate_results_node env st p) = Ok st' ->
  exists f, st' = with_final_result f st.
Proof.
  unfold _consolidate_results_node. run_stage.
  all: intros H; try discriminate H; injection H as <-; eauto.
Qed.

Lemma complete_frame st p :
  coordinator_frame p (snd (_complete_task_node env st p)).
Proof.
  unfold _complete_task_node. run_stage.
  all: frame_done.
Qed.

Lemma complete_stores st p :
  exists rows,
    stored_between (world p) (world (snd (_complete_task_node env st p))) rows /\
    (length rows <= 1)%nat /\
    Forall (fun row => exists task,
                s_task st = Some task /\
                coordinator_row env task (agent_name p) row) rows.
Proof.
  unfold _complete_task_node. run_stage.
  all: unfold stored_between; cbn.
  all: try (exists []; split; [now rewrite app_nil_r|split; [cbn; lia|constructor]]).
  all: eexists [_]; split; [reflexivity|split; [cbn; lia|]].
  all: constructor; [|constructor].
  all: eexists; split; [reflexivity|apply is_task_complete].
Qed.

Lemma complete_rows st p task :
  s_task st = Some task ->
  exists rows,
    stored_between (world p) (world (snd (_complete_task_node env st p))) rows /\
    Forall (coordinator_row env task (agent_name p)) rows.
Proof.
  intros Htask. destruct (complete_stores st p) as (rows & S & _ & A).
  exists rows. split; [exact S|].
  eapply Forall_impl; [exact A|]. intros row (t & Ht & Hrow). congruence.
Qed.

Lemma complete_state st p st' :
  fst (_complete_task_node env st p) = Ok st' ->
  exists i, st' = with_completion true i st.
Proof.
  unfold _complete_task_node. run_stage.
  all: intros H; try discriminate H; injection H as <-; eauto.
Qed.

End CoordinatorStages.

(** ** Coordinator: a whole workflow run *)

Section CoordinatorWorkflow.
Import CoordinatorMoon.
Variable env : Env.

(** What every run of the six stages on a row [m] does: it leaves the
    process identity, the processed set and the captured completion alone,
    stores only rows written for [m]'s task, and, when it reaches the end,
    has answered with the captured completion (or the placeholder when
    there is none) if the delegation was sent and with "Handled directly"
    otherwise. *)
Lemma workflow_run (m : Message) (p : Proc) :
  coordinator_run env (task_of m) p (snd (workflow env (initial_state m) p)) /\
  (forall st',
      fst (workflow env (initial_state m) p) = Ok st' ->
      s_task st' = Some (task_of m) /\
      s_completion_sent st' = Some true /\
      s_worker_response st'
      = Some (match s_delegation_sent st' with
              | Some true =>
                  ReplyDict (default placeholder_response
                                     (latest_worker_response (state p)))
              | _ => ReplyText "Handled directly"
              end)).
Proof.
  unfold workflow, bind.
  destruct (receive_task_runs m p) as (p1 & -> & F1 & W1).
  assert (R1 : coordinator_run env (task_of m) p p1)
    by (apply run_quiet; [exact F1|now rewrite W1]).
  destruct (_analyze_task_node env (task_received (task_of m)) p1)
    as [[st2|e2] p2] eqn:E2;
    pose proof (analyze_task_frame env (task_received (task_of m)) p1) as (F2 & D2 & _);
    rewrite E2 in F2, D2; cbn [fst snd] in F2, D2;
    assert (R2 : coordinator_run env (task_of m) p p2)
      by (eapply run_trans; [exact R1|now apply run_quiet]);
    [|split; [exact R2|discriminate]].
  pose proof (analyze_task_state env (task_received (task_of m)) p1 st2) as S2.
  rewrite E2 in S2. destruct (S2 eq_refl) as (a & ->). clear S2.
  set (st2 := with_analysis a (task_received (task_of m))) in *.
  destruct (_delegate_to_worker_node env st2 p2) as [[st3|e3] p3] eqn:E3;
    pose proof (delegate_frame env st2 p2) as F3;
    pose proof (delegate_rows env st2 p2 (task_of m) eq_refl) as D3;
    rewrite E3 in F3, D3; cbn [fst snd] in F3, D3;
    assert (R3 : coordinator_run env (task_of m) p p3)
      by (eapply run_trans; [exact R2|];
          split; [exact F3|exact D3]);
    [|split; [exact R3|discriminate]].
  pose proof (delegate_state env st2 p2 st3) as S3. rewrite E3 in S3.
  specialize (S3 eq_refl).
  rewrite wait_runs.
  set (st4 := with_worker_response _ st3).
  destruct (_consolidate_results_node env st4 p3) as [[st5|e5] p5] eqn:E5;
    pose proof (consolidate_frame env st4 p3) as (F5 & D5 & _);
    rewrite E5 in F5, D5; cbn [fst snd] in F5, D5;
    assert (R5 : coordinator_run env (task_of m) p p5)
      by (eapply run_trans; [exact R3|now apply run_quiet]);
    [|split; [exact R5|discriminate]].
  pose proof (consolidate_state env st4 p3 st5) as S5. rewrite E5 in S5.
  destruct (S5 eq_refl) as (f & ->). clear S5.
  set (st5 := with_final_result f st4) in *.
  assert (T5 : s_task st5 = Some (task_of m)).
  { subst st5 st4. destruct S3 as [(i & ->)|[(e & ->)| ->]]; reflexivity. }
  pose proof (complete_frame env st5 p5) as F6.
  pose proof (complete_rows env st5 p5 (task_of m) T5) as D6.
  pose proof (complete_state env st5 p5) as S6.
  destruct (_complete_task_node env st5 p5) as [r6 p6].
  cbn [fst snd] in *.
  split.
  - eapply run_trans; [exact R5|]. split; [exact F6|exact D6].
  - intros st' ->. destruct (S6 _ eq_refl) as (i6 & ->).
    rewrite <- (cf_latest _ _ (proj1 R3)).
    subst st5 st4.
    destruct S3 as [(i & ->)|[(e & ->)| ->]]; cbn; auto.
Qed.

Lemma workflow_frame (m : Message) (p : Proc) :
  coordinator_frame p (snd (workflow env (initial_state m) p)).
Proof. apply workflow_run. Qed.

End CoordinatorWorkflow.

(** ** Worker: the stages and a whole run *)

Section WorkerStages.
Import EnhancedWorkerMoon.
Variable env : Env.

Lemma worker_frame_refl p : worker_frame p p.
Proof. split; auto. Qed.

Lemma worker_frame_trans p1 p2 p3 :
  worker_frame p1 p2 -> worker_frame p2 p3 -> worker_frame p1 p3.
Proof. intros [] []. split; try congruence; lia. Qed.

Lemma worker_run_trans request p1 p2 p3 :
  worker_run env request p1 p2 -> worker_run env request p2 p3 ->
  worker_run env request p1 p3.
Proof.
  intros [F1 (r1 & S1 & A1)] [F2 (r2 & S2 & A2)].
  split; [eapply worker_frame_trans; eauto|].
  exists (r1 ++ r2)%list. unfold stored_between in *. split.
  - rewrite S2, S1. now rewrite app_assoc.
  - apply Forall_app. split; [exact A1|].
    now rewrite (wf_name _ _ F1) in A2.
Qed.

Lemma worker_run_quiet request p p' :
  worker_frame p p' -> db (world p') = db (world p) -> worker_run env request p p'.
Proof.
  intros F D. split; [exact F|]. exists []. split; [|constructor].
  unfold stored_between. now rewrite app_nil_r.
Qed.

Lemma receive_request_runs (m : Message) (p : Proc) :
  exists p1,
    _receive_request_node (initial_state m) p
    = (Ok (request_received (request_of m)), p1) /\
    worker_frame p p1 /\ world p1 = world p.
Proof.
  unfold _receive_request_node. unfold_monad. cbn.
  eexists. split; [reflexivity|]. split; [|reflexivity]. split; auto.
Qed.

Lemma analyze_request_frame st p :
  worker_frame p (snd (_analyze_request_node env st p)) /\
  db (world (snd (_analyze_request_node env st p))) = db (world p).
Proof.
  unfold _analyze_request_node. run_stage.
  all: repeat split; cbn; try reflexivity; try lia.
Qed.

Lemma analyze_request_state st p st' :
  fst (_analyze_request_node env st p) = Ok st' ->
  exists a, st' = with_analysis a st.
Proof.
  unfold _analyze_request_node. run_stage.
  all: intros H; try discriminate H; injection H as <-; eauto.
Qed.

Lemma call_ai_model_frame st p :
  worker_frame p (snd (_call_ai_model_node env st p)) /\
  db (world (snd (_call_ai_model_node env st p))) = db (world p).
Proof.
  unfold _call_ai_model_node. run_stage.
  all: repeat split; cbn; try reflexivity; try lia.
Qed.

Lemma call_ai_model_state st p st' :
  fst (_call_ai_model_node env st p) = Ok st' ->
  exists r, st' = with_ai_response r st.
Proof.
  unfold _call_ai_model_node. run_stage.
  all: intros H; try discriminate H; injection H as <-; eauto.
Qed.

Lemma format_response_frame st p :
  worker_frame p (snd (_format_response_node env st p)) /\
  db (world (snd (_format_response_node env st p))) = db (world p).
Proof.
  unfold _format_response_node. run_stage.
  all: repeat split; cbn; try reflexivity; try lia.
Qed.

Lemma format_response_state st p st' :
  fst (_format_response_node env st p) = Ok st' ->
  exists f t, st' = with_formatted f t st.
Proof.
  unfold _format_response_node. run_stage.
  all: intros H; try discriminate H; injection H as <-; eauto.
Qed.

Lemma send_result_frame st p :
  worker_frame p (snd (_send_result_node env st p)).
Proof.
  unfold _send_result_node. run_stage.
  all: split; cbn; try reflexivity; try lia; congruence.
Qed.

Lemma send_result_stores st p :
  exists rows,
    stored_between (world p) (world (snd (_send_result_node env st p))) rows /\
    (length rows <= 1)%nat /\
    Forall (fun row => exists request,
                s_request st = Some request /\
                worker_row env request (agent_name p) row) rows.
Proof.
  unfold _send_result_node. run_stage.
  all: unfold stored_between; cbn.
  all: try (exists []; split; [now rewrite app_nil_r|split; [cbn; lia|constructor]]).
  all: eexists [_]; split; [reflexivity|split; [cbn; lia|]].
  all: constructor; [|constructor].
  all: eexists; split; [reflexivity|apply is_work_complete].
Qed.

(** Every run of the five stages on a row [m] leaves the process identity
    and the processed set alone and stores only completion rows written
    for [m]'s request. *)
Lemma worker_workflow_run (m : Message) (p : Proc) :
  worker_run env (request_of m) p (snd (workflow env (initial_state m) p)).
Proof.
  unfold workflow, bind.
  destruct (receive_request_runs m p) as (p1 & -> & F1 & W1).
  assert (R1 : worker_run env (request_of m) p p1)
    by (apply worker_run_quiet; [exact F1|now rewrite W1]).
  set (st1 := request_received (request_of m)).
  destruct (_analyze_request_node env st1 p1) as [[st2|e2] p2] eqn:E2;
    pose proof (analyze_request_frame st1 p1) as (F2 & D2);
    rewrite E2 in F2, D2; cbn [fst snd] in F2, D2;
    assert (R2 : worker_run env (request_of m) p p2)
      by (eapply worker_run_trans; [exact R1|now apply worker_run_quiet]);
    [|exact R2].
  pose proof (analyze_request_state st1 p1 st2) as S2.
  rewrite E2 in S2. destruct (S2 eq_refl) as (a & ->). clear S2.
  set (st2 := with_analysis a st1) in *.
  destruct (_call_ai_model_node env st2 p2) as [[st3|e3] p3] eqn:E3;
    pose proof (call_ai_model_frame st2 p2) as (F3 & D3);
    rewrite E3 in F3, D3; cbn [fst snd] in F3, D3;
    assert (R3 : worker_run env (request_of m) p p3)
      by (eapply worker_run_trans; [exact R2|now apply worker_run_quiet]);
    [|exact R3].
  pose proof (call_ai_model_state st2 p2 st3) as S3.
  rewrite E3 in S3. destruct (S3 eq_refl) as (r & ->). clear S3.
  set (st3 := with_ai_response r st2) in *.
  destruct (_format_response_node env st3 p3) as [[st4|e4] p4] eqn:E4;
    pose proof (format_response_frame st3 p3) as (F4 & D4);
    rewrite E4 in F4, D4; cbn [fst snd] in F4, D4;
    assert (R4 : worker_run env (request_of m) p p4)
      by (eapply worker_run_trans; [exact R3|now apply worker_run_quiet]);
    [|exact R4].
  pose proof (format_response_state st3 p3 st4) as S4.
  rewrite E4 in S4. destruct (S4 eq_refl) as (f & t & ->). clear S4.
  set (st4 := with_formatted f t st3) in *.
  eapply worker_run_trans; [exact R4|].
  split; [apply send_result_frame|].
  destruct (send_result_stores st4 p4) as (rows & S & _ & A).
  exists rows. split; [exact S|].
  eapply Forall_impl; [exact A|].
  intros row (rq & Hrq & Hrow). cbn in Hrq. congruence.
Qed.

End WorkerStages.

(** ** Reply chain and record ids *)

Lemma prefix_append (a x : string) : String.prefix a (a +:+ x) = true.
Proof.
  induction a as [|c a IH].
  - apply prefix_empty.
  - change (String c a +:+ x) with (String c (a +:+ x)).
    cbn [String.prefix]. destruct (ascii_dec c c); [exact IH|congruence].
Qed.

Lemma coordinator_row_reply_to env task name row :
  coordinator_row env task name row ->
  m_reply_to row = Some (CoordinatorMoon.t_id task) /\
  (m_to_agent row = "worker" ->
   m_intent row = "WORK_REQUEST: " +:+ CoordinatorMoon.t_text task).
Proof.
  intros []; cbn; split; auto. discriminate.
Qed.

Lemma worker_row_reply_to env request name row :
  worker_row env request name row ->
  m_reply_to row = Some (EnhancedWorkerMoon.rq_id request) /\
  m_to_agent row = "coordinator" /\
  startswith (m_intent row) "WORK_COMPLETE: " = true.
Proof.
  intros []; cbn -[String.append]. repeat split.
  unfold startswith. apply prefix_append.
Qed.

Lemma coordinator_row_ids env task name row :
  uuid_fresh env -> coordinator_row env task name row ->
  m_id row <> e_id (m_content row).
Proof.
  intros Hfresh []; cbn; intros H; apply Hfresh in H; lia.
Qed.

Lemma worker_row_ids env request name row :
  uuid_fresh env -> worker_row env request name row ->
  m_id row <> e_id (m_content row).
Proof.
  intros Hfresh []; cbn; intros H; apply Hfresh in H; lia.
Qed.

Lemma send_envelope_stores env envelope human_id w :
  exists rows,
    stored_between w (snd (send_envelope env envelope human_id w)) rows /\
    Forall (fun row => m_id row = e_id envelope /\ m_content row = envelope) rows.
Proof.
  unfold send_envelope, db_data, bind, subscript, ret, raise, table_insert,
    stored_between.
  destruct (r_reply_to (e_routing envelope)); cbn;
    [|exists []; split; [now rewrite app_nil_r|constructor]].
  destruct (store_script env (store_next w)); cbn.
  - eexists [_]. split; [reflexivity|]. repeat constructor.
  - exists []. split; [now rewrite app_nil_r|constructor].
  - exists []. split; [now rewrite app_nil_r|constructor].
Qed.

(** C8. Every row a coordinator run on a task row [m] stores, the
    delegation row in particular, carries reply_to = [m]'s id; every row a
    worker run on a work-request row [rq] stores is a WORK_COMPLETE row for
    the coordinator carrying reply_to = [rq]'s id. *)
Theorem two_hop_reply_chain (env : Env) :
  (forall (m : Message) (p : CoordinatorMoon.Proc),
      exists rows,
        stored_between
          (CoordinatorMoon.world p)
          (CoordinatorMoon.world
             (snd (CoordinatorMoon.workflow env (CoordinatorMoon.initial_state m) p)))
          rows /\
        Forall (fun row =>
                  m_reply_to row = Some (m_id m) /\
                  (m_to_agent row = "worker" ->
                   m_intent row = "WORK_REQUEST: " +:+ m_intent m)) rows) /\
  (forall (rq : Message) (q : EnhancedWorkerMoon.Proc),
      exists rows,
        stored_between
          (EnhancedWorkerMoon.world q)
          (EnhancedWorkerMoon.world
             (snd (EnhancedWorkerMoon.workflow env
                     (EnhancedWorkerMoon.initial_state rq) q)))
          rows /\
        Forall (fun row =>
                  m_reply_to row = Some (m_id rq) /\
                  m_to_agent row = "coordinator" /\
                  startswith (m_intent row) "WORK_COMPLETE: " = true) rows).
Proof.
  split.
  - intros m p. destruct (workflow_run env m p) as [[_ (rows & S & A)] _].
    exists rows. split; [exact S|].
    eapply Forall_impl; [exact A|]. intros row Hrow.
    apply coordinator_row_reply_to in Hrow. exact Hrow.
  - intros rq q. destruct (worker_workflow_run env rq q) as [_ (rows & S & A)].
    exists rows. split; [exact S|].
    eapply Forall_impl; [exact A|]. intros row Hrow.
    apply worker_row_reply_to in Hrow. exact Hrow.
Qed.

(** C10. uuid4 never repeating, every row stored by the coordinator's
    delegate_to_worker and complete_task stages and by the worker's
    send_result stage has a record id different from the id inside its
    content envelope, the two being consecutive uuid4 draws; a row stored
    by the adapter's [send_envelope] has the envelope's own id. *)
Theorem record_id_and_envelope_id (env : Env) (Hfresh : uuid_fresh env) :
  (forall st p,
      exists rows,
        stored_between
          (CoordinatorMoon.world p)
          (CoordinatorMoon.world (snd (CoordinatorMoon._delegate_to_worker_node env st p)))
          rows /\
        Forall (fun row => m_id row <> e_id (m_content row)) rows) /\
  (forall st p,
      exists rows,
        stored_between
          (CoordinatorMoon.world p)
          (CoordinatorMoon.world (snd (CoordinatorMoon._complete_task_node env st p)))
          rows /\
        Forall (fun row => m_id row <> e_id (m_content row)) rows) /\
  (forall st q,
      exists rows,
        stored_between
          (EnhancedWorkerMoon.world q)
          (EnhancedWorkerMoon.world (snd (EnhancedWorkerMoon._send_result_node env st q)))
          rows /\
        Forall (fun row => m_id row <> e_id (m_content row)) rows) /\
  (forall envelope human_id w,
      exists rows,
        stored_between w (snd (send_envelope env envelope human_id w)) rows /\
        Forall (fun row => m_id row = e_id envelope /\
                           m_id row = e_id (m_content row)) rows).
Proof.
  repeat split.
  - intros st p. destruct (delegate_stores env st p) as (rows & S & _ & A).
    exists rows. split; [exact S|]. eapply Forall_impl; [exact A|].
    intros row (task & _ & Hrow). eapply coordinator_row_ids; eauto.
  - intros st p. destruct (complete_stores env st p) as (rows & S & _ & A).
    exists rows. split; [exact S|]. eapply Forall_impl; [exact A|].
    intros row (task & _ & Hrow). eapply coordinator_row_ids; eauto.
  - intros st q. destruct (send_result_stores env st q) as (rows & S & _ & A).
    exists rows. split; [exact S|]. eapply Forall_impl; [exact A|].
    intros row (request & _ & Hrow). eapply worker_row_ids; eauto.
  - intros envelope human_id w.
    destruct (send_envelope_stores env envelope human_id w) as (rows & S & A).
    exists rows. split; [exact S|]. eapply Forall_impl; [exact A|].
    intros row [Hid Hc]. split; [exact Hid|]. now rewrite Hc.
Qed.

(** ** Dispatch and deduplication *)

Lemma bind_ret_snd {S A} (m : M S A) (s : S) : snd ((m ;;; ret tt) s) = snd (m s).
Proof. unfold bind, ret. now destruct (m s) as [[a|e] s']. Qed.

Section CoordinatorDispatch.
Import CoordinatorMoon.
Variable env : Env.

Lemma process_skips (m : Message) (p : Proc) :
  m_id m ∈ processed_messages (state p) ->
  process_incoming_message env m p = (Ok tt, p).
Proof.
  intros Hin. unfold process_incoming_message, bind, get.
  destruct (decide _); [reflexivity|contradiction].
Qed.

Lemma process_runs_workflow (m : Message) (p : Proc) :
  m_id m ∉ processed_messages (state p) ->
  is_fresh_task (m_intent m) = true ->
  process_incoming_message env m p
  = (workflow env (initial_state m) ;;; ret tt) (coordinator_claim m p).
Proof.
  intros Hnew Hfresh. unfold is_fresh_task in Hfresh.
  apply andb_prop in Hfresh as [H1 H2].
  apply negb_true_iff in H1.
  unfold process_incoming_message, coordinator_claim, bind, get, set_state, modify,
    log_ainvoke.
  destruct (decide _); [contradiction|].
  cbn. rewrite H1, H2. cbn. reflexivity.
Qed.

Lemma process_routes_away (m : Message) (p : Proc) :
  m_id m ∉ processed_messages (state p) ->
  is_fresh_task (m_intent m) = false ->
  let p1 := snd (process_incoming_message env m p) in
  ainvoked p1 = ainvoked p /\
  processed_messages (state p1) = {[ m_id m ]} ∪ processed_messages (state p) /\
  world p1 = world p.
Proof.
  intros Hnew Hfresh. unfold is_fresh_task in Hfresh.
  unfold process_incoming_message, bind, get, set_state, modify, ret.
  destruct (decide _); [contradiction|]. cbn.
  destruct (startswith (m_intent m) "WORK_COMPLETE:"); cbn; [auto|].
  cbn in Hfresh. rewrite Hfresh. cbn. auto.
Qed.

Lemma claim_processed (m : Message) (p : Proc) :
  processed_messages (state (coordinator_claim m p))
  = {[ m_id m ]} ∪ processed_messages (state p) /\
  ainvoked (coordinator_claim m p) = (ainvoked p ++ [m_id m])%list.
Proof. split; reflexivity. Qed.

Lemma process_log (m : Message) (p : Proc) :
  m_id m ∉ processed_messages (state p) ->
  let p1 := snd (process_incoming_message env m p) in
  ainvoked p1
  = (ainvoked p ++ if is_fresh_task (m_intent m) then [m_id m] else [])%list /\
  processed_messages (state p1) = {[ m_id m ]} ∪ processed_messages (state p).
Proof.
  intros Hnew. destruct (is_fresh_task (m_intent m)) eqn:Hfresh.
  - cbn zeta. rewrite (process_runs_workflow m p Hnew Hfresh), bind_ret_snd.
    pose proof (workflow_frame env m (coordinator_claim m p)) as F.
    rewrite (cf_log _ _ F), (cf_processed _ _ F).
    split; apply claim_processed.
  - destruct (process_routes_away m p Hnew Hfresh) as (L & P & _).
    cbn zeta. rewrite L, P, app_nil_r. auto.
Qed.

Lemma process_keeps (m : Message) (p : Proc) (i : string) :
  i ∈ processed_messages (state p) ->
  i ∈ processed_messages (state (snd (process_incoming_message env m p))).
Proof.
  intros Hin. destruct (decide (m_id m ∈ processed_messages (state p))) as [Hold|Hnew].
  - now rewrite process_skips.
  - destruct (process_log m p Hnew) as [_ ->]. set_solver.
Qed.

Lemma dispatches_keep (ms : list Message) (p : Proc) (i : string) :
  i ∈ processed_messages (state p) ->
  i ∈ processed_messages (state (coordinator_dispatches env ms p)).
Proof.
  revert p. induction ms as [|m ms IH]; intros p Hin; [exact Hin|].
  cbn. apply IH. now apply process_keeps.
Qed.

Lemma process_dedup (m : Message) (p : Proc) :
  coordinator_dedup p ->
  coordinator_dedup (snd (process_incoming_message env m p)).
Proof.
  intros [Hnd Hsub].
  destruct (decide (m_id m ∈ processed_messages (state p))) as [Hold|Hnew].
  - rewrite process_skips by exact Hold. now split.
  - destruct (process_log m p Hnew) as [Hlog Hset]. cbn zeta in Hlog, Hset.
    split; rewrite Hlog.
    + destruct (is_fresh_task (m_intent m)); [|now rewrite app_nil_r].
      apply NoDup_app. split; [exact Hnd|]. split; [|apply NoDup_singleton].
      intros i Hi Hi'. apply list_elem_of_singleton in Hi'. subst i.
      apply Hnew, Hsub, Hi.
    + intros i Hi. rewrite Hset. apply elem_of_app in Hi as [Hi|Hi].
      * apply elem_of_union. right. now apply Hsub.
      * destruct (is_fresh_task (m_intent m)); [|now apply elem_of_nil in Hi].
        apply list_elem_of_singleton in Hi.
        apply elem_of_union. left. now apply elem_of_singleton.
Qed.

Lemma dispatches_dedup (ms : list Message) (p : Proc) :
  coordinator_dedup p -> coordinator_dedup (coordinator_dispatches env ms p).
Proof.
  revert p. induction ms as [|m ms IH]; intros p Hp; [exact Hp|].
  cbn. apply IH. now apply process_dedup.
Qed.

End CoordinatorDispatch.

Section WorkerDispatch.
Import EnhancedWorkerMoon.
Variable env : Env.

Lemma work_request_skips (m : Message) (q : Proc) :
  m_id m ∈ processed_messages (state q) ->
  process_work_request env m q = (Ok tt, q).
Proof.
  intros Hin. unfold process_work_request, bind, get.
  destruct (decide _); [reflexivity|contradiction].
Qed.

Lemma work_request_runs_workflow (m : Message) (q : Proc) :
  m_id m ∉ processed_messages (state q) ->
  process_work_request env m q
  = try_except (workflow env (initial_state m) ;;; ret tt) (fun _ => ret tt)
               (worker_claim m q).
Proof.
  intros Hnew.
  unfold process_work_request, worker_claim, bind, get, set_state, modify, log_ainvoke.
  destruct (decide _); [contradiction|]. reflexivity.
Qed.

Lemma try_ret_snd {S A} (m : M S A) (s : S) :
  try_except (m ;;; ret tt) (fun _ => ret tt) s = (Ok tt, snd (m s)).
Proof. unfold try_except, bind, ret. now destruct (m s) as [[a|e] s']. Qed.

Lemma work_request_log (m : Message) (q : Proc) :
  m_id m ∉ processed_messages (state q) ->
  let q1 := snd (process_work_request env m q) in
  ainvoked q1 = (ainvoked q ++ [m_id m])%list /\
  processed_messages (state q1) = {[ m_id m ]} ∪ processed_messages (state q).
Proof.
  intros Hnew. cbn zeta.
  rewrite (work_request_runs_workflow m q Hnew), try_ret_snd. cbn [snd].
  destruct (worker_workflow_run env m (worker_claim m q)) as [F _].
  rewrite (wf_log _ _ F), (wf_processed _ _ F). split; reflexivity.
Qed.

Lemma work_request_keeps (m : Message) (q : Proc) (i : string) :
  i ∈ processed_messages (state q) ->
  i ∈ processed_messages (state (snd (process_work_request env m q))).
Proof.
  intros Hin. destruct (decide (m_id m ∈ processed_messages (state q))) as [Hold|Hnew].
  - now rewrite work_request_skips.
  - destruct (work_request_log m q Hnew) as [_ ->]. set_solver.
Qed.

Lemma worker_dispatches_keep (ms : list Message) (q : Proc) (i : string) :
  i ∈ processed_messages (state q) ->
  i ∈ processed_messages (state (worker_dispatches env ms q)).
Proof.
  revert q. induction ms as [|m ms IH]; intros q Hin; [exact Hin|].
  cbn. apply IH. now apply work_request_keeps.
Qed.

Lemma work_request_dedup (m : Message) (q : Proc) :
  worker_dedup q -> worker_dedup (snd (process_work_request env m q)).
Proof.
  intros [Hnd Hsub].
  destruct (decide (m_id m ∈ processed_messages (state q))) as [Hold|Hnew].
  - rewrite work_request_skips by exact Hold. now split.
  - destruct (work_request_log m q Hnew) as [Hlog Hset]. cbn zeta in Hlog, Hset.
    split.
    + rewrite Hlog. apply NoDup_app. split; [exact Hnd|].
      split; [|apply NoDup_singleton].
      intros i Hi Hi'. apply list_elem_of_singleton in Hi'. subst i.
      apply Hnew, Hsub, Hi.
    + intros i Hi. rewrite Hlog in Hi. rewrite Hset.
      apply elem_of_app in Hi as [Hi|Hi].
      * apply elem_of_union. right. now apply Hsub.
      * apply list_elem_of_singleton in Hi.
        apply elem_of_union. left. now apply elem_of_singleton.
Qed.

Lemma worker_dispatches_dedup (ms : list Message) (q : Proc) :
  worker_dedup q -> worker_dedup (worker_dispatches env ms q).
Proof.
  revert q. induction ms as [|m ms IH]; intros q Hq; [exact Hq|].
  cbn. apply IH. now apply work_request_dedup.
Qed.

End WorkerDispatch.

(** C3, as the code has it. One instance hands an id to its pipeline at
    most once. The first dispatch of an id puts it in the processed set
    before the pipeline starts; the worker then always runs its workflow,
    the coordinator runs it exactly when the intent passes the routing
    guard (a completion is captured instead, the coordinator's own traffic
    is dropped); every later dispatch of that id, whatever was dispatched
    in between, changes nothing; over any sequence of dispatches the ids
    handed to the pipeline never repeat. *)
Theorem dispatch_at_most_once (env : Env) :
  (forall (p : CoordinatorMoon.Proc) (m : Message),
      m_id m ∉ CoordinatorMoon.processed_messages (CoordinatorMoon.state p) ->
      let p1 := snd (CoordinatorMoon.process_incoming_message env m p) in
      m_id m ∈ CoordinatorMoon.processed_messages
                 (CoordinatorMoon.state (coordinator_claim m p)) /\
      (is_fresh_task (m_intent m) = true ->
       CoordinatorMoon.process_incoming_message env m p
       = (CoordinatorMoon.workflow env (CoordinatorMoon.initial_state m) ;;; ret tt)
           (coordinator_claim m p)) /\
      CoordinatorMoon.ainvoked p1
      = (CoordinatorMoon.ainvoked p
         ++ if is_fresh_task (m_intent m) then [m_id m] else [])%list /\
      (forall ms m',
          m_id m' = m_id m ->
          CoordinatorMoon.process_incoming_message env m'
            (coordinator_dispatches env ms p1)
          = (Ok tt, coordinator_dispatches env ms p1))) /\
  (forall (q : EnhancedWorkerMoon.Proc) (m : Message),
      m_id m ∉ EnhancedWorkerMoon.processed_messages (EnhancedWorkerMoon.state q) ->
      let q1 := snd (EnhancedWorkerMoon.process_work_request env m q) in
      m_id m ∈ EnhancedWorkerMoon.processed_messages
                 (EnhancedWorkerMoon.state (worker_claim m q)) /\
      EnhancedWorkerMoon.process_work_request env m q
      = try_except
          (EnhancedWorkerMoon.workflow env (EnhancedWorkerMoon.initial_state m) ;;; ret tt)
          (fun _ => ret tt) (worker_claim m q) /\
      EnhancedWorkerMoon.ainvoked q1 = (EnhancedWorkerMoon.ainvoked q ++ [m_id m])%list /\
      (forall ms m',
          m_id m' = m_id m ->
          EnhancedWorkerMoon.process_work_request env m'
            (worker_dispatches env ms q1)
          = (Ok tt, worker_dispatches env ms q1))) /\
  (forall ms p, coordinator_dedup p ->
                NoDup (CoordinatorMoon.ainvoked (coordinator_dispatches env ms p))) /\
  (forall ms q, worker_dedup q ->
                NoDup (EnhancedWorkerMoon.ainvoked (worker_dispatches env ms q))).
Proof.
  split; [|split; [|split]].
  - intros p m Hnew p1. subst p1. split; [cbn; set_solver|].
    split; [intros Hfresh; now apply process_runs_workflow|].
    split; [now apply process_log|].
    intros ms m' Hid. apply process_skips. rewrite Hid.
    apply dispatches_keep. destruct (process_log env m p Hnew) as [_ ->]. set_solver.
  - intros q m Hnew q1. subst q1. split; [cbn; set_solver|].
    split; [now apply work_request_runs_workflow|].
    split; [now apply work_request_log|].
    intros ms m' Hid. apply work_request_skips. rewrite Hid.
    apply worker_dispatches_keep.
    destruct (work_request_log env m q Hnew) as [_ ->]. set_solver.
  - intros ms p Hp. now apply dispatches_dedup.
  - intros ms q Hq. now apply worker_dispatches_dedup.
Qed.

(** ** Coordinator: delegation *)

Section CoordinatorDelegation.
Import CoordinatorMoon.
Variable env : Env.

Lemma received_and_analyzed_state (m : Message) (p : Proc) st2 p2 :
  received_and_analyzed env m p = (Ok st2, p2) ->
  (exists a, st2 = with_analysis a (task_received (task_of m))) /\
  coordinator_frame p p2 /\ db (world p2) = db (world p).
Proof.
  unfold received_and_analyzed, bind.
  destruct (receive_task_runs m p) as (p1 & -> & F1 & W1).
  intros E.
  pose proof (analyze_task_frame env (task_received (task_of m)) p1) as (F2 & D2 & _).
  pose proof (analyze_task_state env (task_received (task_of m)) p1 st2) as S2.
  rewrite E in F2, D2, S2. cbn [fst snd] in *.
  split; [auto|]. split; [eapply frame_trans; eauto|congruence].
Qed.

Lemma delegate_direct (t : Task) (a : Analysis) (p : Proc) :
  truthy (a_requires_worker a) = false ->
  _delegate_to_worker_node env (with_analysis a (task_received t)) p
  = (Ok (with_delegation_sent false (with_analysis a (task_received t))), p).
Proof.
  intros H. unfold _delegate_to_worker_node. unfold_monad. cbn. now rewrite H.
Qed.

Lemma delegate_accepted (t : Task) (a : Analysis) (p : Proc) (hid : string) :
  truthy (a_requires_worker a) = true ->
  human_user p = Some hid ->
  store_script env (store_next (world p)) = StoreOk ->
  (forall err, store_script env (S (store_next (world p))) <> StoreRaises err) ->
  let row :=
    work_request_row t (agent_name p) hid
      (work_request_envelope t (agent_name p) (uuid_src env (uuid_next (world p))))
      (uuid_src env (S (uuid_next (world p)))) in
  fst (_delegate_to_worker_node env (with_analysis a (task_received t)) p)
  = Ok (with_delegation_sent true
          (with_delegation_id (m_id row) (with_analysis a (task_received t)))) /\
  db (world (snd (_delegate_to_worker_node env (with_analysis a (task_received t)) p)))
  = (db (world p) ++ [row])%list.
Proof.
  intros Ht Hu Hs Hv. unfold _delegate_to_worker_node. unfold_monad.
  cbn -[String.append]. rewrite Ht. cbn -[String.append]. rewrite Hu.
  cbn -[String.append]. rewrite Hs. cbn -[String.append].
  destruct (store_script env (S (store_next (world p)))) eqn:E; cbn -[String.append];
    try (split; reflexivity).
  now destruct (Hv err).
Qed.

Lemma delegate_refused (t : Task) (a : Analysis) (p : Proc) (hid : string) :
  truthy (a_requires_worker a) = true ->
  human_user p = Some hid ->
  store_script env (store_next (world p)) <> StoreOk ->
  exists e,
    fst (_delegate_to_worker_node env (with_analysis a (task_received t)) p)
    = Ok (with_delegation_sent false
            (with_error e (with_analysis a (task_received t)))) /\
    db (world (snd (_delegate_to_worker_node env (with_analysis a (task_received t)) p)))
    = db (world p).
Proof.
  intros Ht Hu Hs. unfold _delegate_to_worker_node. unfold_monad.
  cbn -[String.append]. rewrite Ht. cbn -[String.append]. rewrite Hu.
  cbn -[String.append].
  destruct (store_script env (store_next (world p))) eqn:E; cbn -[String.append];
    [congruence| |]; eexists; split; reflexivity.
Qed.
End CoordinatorDelegation.

(** C1, as the code has it. In a run on a received task whose analysis
    was produced, when requires_worker is true and the table accepts the
    insert (and the read-back that follows does not raise), the stage
    stores exactly one row, addressed to "worker", with intent
    "WORK_REQUEST: " + task text and reply_to = the task's id, and returns
    delegation_sent = true; when the table does not accept the insert it
    stores nothing and returns delegation_sent = false with an error; when
    requires_worker is false it stores nothing and returns
    delegation_sent = false. *)
Theorem delegation_routing (env : Env) (m : Message) (p p2 : CoordinatorMoon.Proc)
    (st2 : CoordinatorMoon.WfState) (a : CoordinatorMoon.Analysis) (hid : string)
    (Hrun : received_and_analyzed env m p = (Ok st2, p2))
    (Ha : CoordinatorMoon.s_analysis st2 = Some a)
    (Huser : CoordinatorMoon.human_user p = Some hid) :
  let r := CoordinatorMoon._delegate_to_worker_node env st2 p2 in
  let stored_by_stage :=
    stored_between (CoordinatorMoon.world p2) (CoordinatorMoon.world (snd r)) in
  (truthy (CoordinatorMoon.a_requires_worker a) = true ->
   store_script env (store_next (CoordinatorMoon.world p2)) = StoreOk ->
   (forall err,
       store_script env (S (store_next (CoordinatorMoon.world p2))) <> StoreRaises err) ->
   exists st3 row,
     fst r = Ok st3 /\
     CoordinatorMoon.s_delegation_sent st3 = Some true /\
     stored_by_stage [row] /\
     m_to_agent row = "worker" /\
     m_intent row = "WORK_REQUEST: " +:+ m_intent m /\
     m_reply_to row = Some (m_id m)) /\
  (truthy (CoordinatorMoon.a_requires_worker a) = true ->
   store_script env (store_next (CoordinatorMoon.world p2)) <> StoreOk ->
   exists st3,
     fst r = Ok st3 /\
     CoordinatorMoon.s_delegation_sent st3 = Some false /\
     CoordinatorMoon.s_error st3 <> None /\
     stored_by_stage []) /\
  (truthy (CoordinatorMoon.a_requires_worker a) = false ->
   exists st3,
     fst r = Ok st3 /\
     CoordinatorMoon.s_delegation_sent st3 = Some false /\
     stored_by_stage []).
Proof.
  destruct (received_and_analyzed_state env m p st2 p2 Hrun) as ((a' & ->) & F & _).
  cbn in Ha. injection Ha as ->.
  assert (Huser2 : CoordinatorMoon.human_user p2 = Some hid)
    by (rewrite (cf_user _ _ F); exact Huser).
  cbn zeta. unfold stored_between. split; [|split].
  - intros Ht Hs Hv.
    destruct (delegate_accepted env (task_of m) a p2 hid Ht Huser2 Hs Hv) as [-> ->].
    eexists. eexists. split; [reflexivity|]. repeat split.
  - intros Ht Hs.
    destruct (delegate_refused env (task_of m) a p2 hid Ht Huser2 Hs) as (e & -> & ->).
    eexists. split; [reflexivity|]. repeat split; [discriminate|now rewrite app_nil_r].
  - intros Ht. rewrite (delegate_direct env (task_of m) a p2 Ht).
    eexists. split; [reflexivity|]. split; [reflexivity|]. cbn. now rewrite app_nil_r.
Qed.

(** ** Coordinator: when the analysis cannot be read *)

Section CoordinatorFallback.
Import CoordinatorMoon.
Variable env : Env.

(** The four ways the analysis stage ends on a received task. *)
Lemma analyze_task_cases (t : Task) (p : Proc) :
  let r := _analyze_task_node env (task_received t) p in
  match advisor_script env (advisor_next (world p)) with
  | AdvisorRaises _ => fst r = Raise (UnboundLocalError "response")
  | AdvisorReplies text _ _ =>
      match json_loads env (strip_code_fence text) with
      | None => fst r = Raise (UnboundLocalError "analysis")
      | Some (PyDict d) =>
          exists a, fst r = Ok (with_analysis a (task_received t)) /\
                    a_requires_worker a
                    = default (PyStr "Not given") (assoc_get "requires_worker" d)
      | Some _ => fst r = Ok (with_analysis fallback_analysis (task_received t))
      end
  end.
Proof.
  unfold _analyze_task_node, analyze_try_block. unfold_monad. cbn.
  destruct (advisor_script env (advisor_next (world p))); cbn; [reflexivity|].
  destruct (json_loads env (strip_code_fence text)) as [[]|]; cbn; try reflexivity.
  eexists. split; reflexivity.
Qed.

Lemma fallback_run (m : Message) (p : Proc)
    (text : string) (tin tout : Z) (v : pyval) (hid : string) :
  advisor_script env (advisor_next (world p)) = AdvisorReplies text tin tout ->
  json_loads env (strip_code_fence text) = Some v ->
  (forall d, v <> PyDict d) ->
  human_user p = Some hid ->
  let run := workflow env (initial_state m) p in
  let row :=
    task_complete_row (task_of m)
      {| fr_task_id := m_id m; fr_status := "completed";
         fr_summary := "Task completed with worker assistance";
         fr_worker_contribution := ReplyText "Handled directly";
         fr_completed_at := iso_src env (clock_next (world p));
         fr_telemetry := {| tl_coordinator_model := "claude-3.5-sonnet";
                            tl_worker_model := "gpt-4";
                            tl_total_processing_time := "3.2s" |} |}
      (agent_name p) hid
      (task_complete_envelope (task_of m)
         {| fr_task_id := m_id m; fr_status := "completed";
            fr_summary := "Task completed with worker assistance";
            fr_worker_contribution := ReplyText "Handled directly";
            fr_completed_at := iso_src env (clock_next (world p));
            fr_telemetry := {| tl_coordinator_model := "claude-3.5-sonnet";
                               tl_worker_model := "gpt-4";
                               tl_total_processing_time := "3.2s" |} |}
         (agent_name p) (uuid_src env (uuid_next (world p))))
      (uuid_src env (S (uuid_next (world p)))) in
  match store_script env (store_next (world p)) with
  | StoreOk =>
      (exists st', fst run = Ok st' /\
                   s_analysis st' = Some fallback_analysis /\
                   s_delegation_sent st' = Some false /\
                   s_worker_response st' = Some (ReplyText "Handled directly") /\
                   s_completion_sent st' = Some true) /\
      db (world (snd run)) = (db (world p) ++ [row])%list
  | StoreNoData => fst run = Raise IndexError /\ db (world (snd run)) = db (world p)
  | StoreRaises err =>
      fst run = Raise (APIError err) /\ db (world (snd run)) = db (world p)
  end.
Proof.
  intros Hadv Hjson Hnd Hu.
  unfold workflow, _receive_task_node, _analyze_task_node, analyze_try_block,
    _delegate_to_worker_node, _wait_for_response_node, _consolidate_results_node,
    _complete_task_node.
  unfold_monad. cbn -[String.append]. rewrite Hadv. cbn -[String.append].
  rewrite Hjson.
  destruct v; try (exfalso; eapply Hnd; reflexivity); cbn -[String.append]; rewrite Hu;
    cbn -[String.append];
    destruct (store_script env (store_next (world p))); cbn -[String.append];
    try (split; reflexivity);
    (split; [|reflexivity]); eexists; (split; [reflexivity|]); repeat split.
Qed.
End CoordinatorFallback.

(** C2, as the code has it. Whenever the analysis stage substitutes its
    fallback (the reply was read and parsed, but is not a JSON object), the
    substitute is {complexity: "Not given", requires_worker: false,
    estimated_minutes: null, reasoning: "None given"}; the run then stores
    no WORK_REQUEST row whatever the table does, and when the table accepts
    the completion row the task completes, handled directly. *)
Theorem fallback_is_handled_directly (env : Env) (m : Message) (p : CoordinatorMoon.Proc)
    (text : string) (tin tout : Z) (v : pyval) (hid : string)
    (Hreply : advisor_script env (advisor_next (CoordinatorMoon.world p))
              = AdvisorReplies text tin tout)
    (Hparsed : json_loads env (CoordinatorMoon.strip_code_fence text) = Some v)
    (Hshape : forall d, v <> PyDict d)
    (Huser : CoordinatorMoon.human_user p = Some hid) :
  let run := CoordinatorMoon.workflow env (CoordinatorMoon.initial_state m) p in
  fst (CoordinatorMoon._analyze_task_node env (task_received (task_of m)) p)
  = Ok (CoordinatorMoon.with_analysis CoordinatorMoon.fallback_analysis
          (task_received (task_of m))) /\
  CoordinatorMoon.fallback_analysis
  = {| CoordinatorMoon.a_complexity := PyStr "Not given";
       CoordinatorMoon.a_requires_worker := PyBool false;
       CoordinatorMoon.a_estimated_minutes := PyNone;
       CoordinatorMoon.a_reasoning := PyStr "None given" |} /\
  (exists rows,
      stored_between (CoordinatorMoon.world p) (CoordinatorMoon.world (snd run)) rows /\
      Forall (fun row => m_to_agent row = "broadcast" /\
                         startswith (m_intent row) "WORK_REQUEST:" = false) rows) /\
  (store_script env (store_next (CoordinatorMoon.world p)) = StoreOk ->
   exists st' row,
     fst run = Ok st' /\
     CoordinatorMoon.s_analysis st' = Some CoordinatorMoon.fallback_analysis /\
     CoordinatorMoon.s_delegation_sent st' = Some false /\
     CoordinatorMoon.s_worker_response st'
     = Some (CoordinatorMoon.ReplyText "Handled directly") /\
     CoordinatorMoon.s_completion_sent st' = Some true /\
     stored_between (CoordinatorMoon.world p) (CoordinatorMoon.world (snd run)) [row] /\
     m_intent row = "TASK_COMPLETE: Task completed with worker assistance" /\
     m_reply_to row = Some (m_id m)).
Proof.
  pose proof (analyze_task_cases env (task_of m) p) as Hcases.
  pose proof (fallback_run env m p text tin tout v hid Hreply Hparsed Hshape Huser)
    as Hrun.
  cbn zeta in *. rewrite Hreply, Hparsed in Hcases.
  split; [destruct v; try exact Hcases; exfalso; eapply Hshape; reflexivity|].
  split; [reflexivity|]. unfold stored_between.
  destruct (store_script env (store_next (CoordinatorMoon.world p))).
  - destruct Hrun as [(st' & H1 & H2 & H3 & H4 & H5) Hdb]. split.
    + eexists [_]. split; [exact Hdb|]. repeat constructor.
    + intros _. exists st'. eexists.
      repeat (split; [eassumption|]).
      cbv [m_intent m_reply_to CoordinatorMoon.task_complete_row
           CoordinatorMoon.fr_summary String.append task_of CoordinatorMoon.t_id].
      split; reflexivity.
  - destruct Hrun as [_ Hdb]. split; [|discriminate].
    exists []. split; [now rewrite app_nil_r|constructor].
  - destruct Hrun as [_ Hdb]. split; [|discriminate].
    exists []. split; [now rewrite app_nil_r|constructor].
Qed.

(** ** Coordinator: the captured completion *)

Section CoordinatorCapture.
Import CoordinatorMoon.
Variable env : Env.

Lemma receive_task_frame st p : coordinator_frame p (snd (_receive_task_node st p)).
Proof. unfold _receive_task_node. run_stage. all: frame_done. Qed.

Lemma process_captures (m : Message) (p : Proc) :
  m_id m ∉ processed_messages (state p) ->
  startswith (m_intent m) "WORK_COMPLETE:" = true ->
  latest_worker_response (state (snd (process_incoming_message env m p)))
  = Some {| c_status := "Completed";
            c_result := replace (m_intent m) "WORK_COMPLETE: " EmptyString;
            c_details := "Worker completed successfully" |}.
Proof.
  intros Hnew Hpre.
  unfold process_incoming_message, bind, get, set_state, modify.
  destruct (decide _); [contradiction|]. cbn -[replace]. now rewrite Hpre.
Qed.

End CoordinatorCapture.

(** C9. The coordinator keeps one captured completion: every newly
    observed WORK_COMPLETE row replaces it, none of the six stages (hence
    no workflow run) changes it, and a run whose delegation was sent
    answers with the completion captured before the run, whatever
    delegation that completion belonged to, instead of the placeholder. *)
Theorem captured_completion_is_reused (env : Env) :
  (forall (p : CoordinatorMoon.Proc) (m : Message),
      m_id m ∉ CoordinatorMoon.processed_messages (CoordinatorMoon.state p) ->
      startswith (m_intent m) "WORK_COMPLETE:" = true ->
      CoordinatorMoon.latest_worker_response
        (CoordinatorMoon.state (snd (CoordinatorMoon.process_incoming_message env m p)))
      = Some {| CoordinatorMoon.c_status := "Completed";
                CoordinatorMoon.c_result := replace (m_intent m) "WORK_COMPLETE: " EmptyString;
                CoordinatorMoon.c_details := "Worker completed successfully" |}) /\
  (forall st p,
      let kept (p' : CoordinatorMoon.Proc) :=
        CoordinatorMoon.latest_worker_response (CoordinatorMoon.state p')
        = CoordinatorMoon.latest_worker_response (CoordinatorMoon.state p) in
      kept (snd (CoordinatorMoon._receive_task_node st p)) /\
      kept (snd (CoordinatorMoon._analyze_task_node env st p)) /\
      kept (snd (CoordinatorMoon._delegate_to_worker_node env st p)) /\
      kept (snd (CoordinatorMoon._wait_for_response_node st p)) /\
      kept (snd (CoordinatorMoon._consolidate_results_node env st p)) /\
      kept (snd (CoordinatorMoon._complete_task_node env st p))) /\
  (forall m p,
      CoordinatorMoon.latest_worker_response
        (CoordinatorMoon.state
           (snd (CoordinatorMoon.workflow env (CoordinatorMoon.initial_state m) p)))
      = CoordinatorMoon.latest_worker_response (CoordinatorMoon.state p)) /\
  (forall m p c st',
      CoordinatorMoon.latest_worker_response (CoordinatorMoon.state p) = Some c ->
      fst (CoordinatorMoon.workflow env (CoordinatorMoon.initial_state m) p) = Ok st' ->
      CoordinatorMoon.s_delegation_sent st' = Some true ->
      CoordinatorMoon.s_worker_response st' = Some (CoordinatorMoon.ReplyDict c)).
Proof.
  split; [|split; [|split]].
  - intros p m. apply process_captures.
  - intros st p kept. subst kept. cbn beta.
    split; [apply receive_task_frame|].
    split; [apply analyze_task_frame|].
    split; [apply delegate_frame|].
    split; [now rewrite wait_runs|].
    split; [apply consolidate_frame|apply complete_frame].
  - intros m p. apply workflow_frame.
  - intros m p c st' Hc Hrun Hsent.
    destruct (workflow_run env m p) as [_ Hend].
    destruct (Hend st' Hrun) as (_ & _ & ->). now rewrite Hsent, Hc.
Qed.

(** * The statements at concrete inputs *)

Section Witnesses.
Import Examples.

(** C1 as stated fails: the Advisor asks for delegation, the table is
    unreachable, and the stage returns delegation_sent = false having
    stored nothing. *)
Lemma delegation_not_sent_when_store_down :
  exists st2 p2 a st3,
    received_and_analyzed env_delegating_store_down task1 coordinator0 = (Ok st2, p2) /\
    CoordinatorMoon.s_analysis st2 = Some a /\
    CoordinatorMoon.a_requires_worker a = PyBool true /\
    fst (CoordinatorMoon._delegate_to_worker_node env_delegating_store_down st2 p2)
    = Ok st3 /\
    CoordinatorMoon.s_delegation_sent st3 = Some false /\
    db (CoordinatorMoon.world
          (snd (CoordinatorMoon._delegate_to_worker_node
                  env_delegating_store_down st2 p2))) = [].
Proof.
  eexists _, _, _, _.
  split; [vm_compute; reflexivity|].
  split; [reflexivity|]. split; [reflexivity|].
  split; [vm_compute; reflexivity|].
  split; reflexivity.
Qed.

Lemma delegation_routing_witness :
  let r := received_and_analyzed env_delegating task1 coordinator0 in
  let st2 := match fst r with Ok st => st | Raise _ => CoordinatorMoon.empty_dict end in
  exists st3 row,
    fst (CoordinatorMoon._delegate_to_worker_node env_delegating st2 (snd r)) = Ok st3 /\
    CoordinatorMoon.s_delegation_sent st3 = Some true /\
    stored_between (CoordinatorMoon.world (snd r))
      (CoordinatorMoon.world
         (snd (CoordinatorMoon._delegate_to_worker_node env_delegating st2 (snd r))))
      [row] /\
    m_to_agent row = "worker" /\
    m_intent row = "WORK_REQUEST: " +:+ m_intent task1 /\
    m_reply_to row = Some (m_id task1).
Proof.
  intros r st2.
  refine (proj1 (delegation_routing env_delegating task1 coordinator0 (snd r) st2
                   {| CoordinatorMoon.a_complexity := PyStr "Not given";
                      CoordinatorMoon.a_requires_worker := PyBool true;
                      CoordinatorMoon.a_estimated_minutes := PyNone;
                      CoordinatorMoon.a_reasoning := PyStr "No reasoning given" |}
                   "human-1" _ _ _) _ _ _).
  - vm_compute. reflexivity.
  - vm_compute. reflexivity.
  - reflexivity.
  - reflexivity.
  - reflexivity.
  - intros err. discriminate.
Defined.

(** C2 as stated fails: when the Advisor call fails, and when its reply is
    not JSON, the analysis stage raises instead of substituting an
    analysis, the run stops there and no completion is stored; and the
    analysis the code substitutes elsewhere is not the one the
    specification names. *)
Lemma advisor_failure_stops_the_run :
  fst (CoordinatorMoon._analyze_task_node env_advisor_down
         (task_received (task_of task1)) coordinator0)
  = Raise (UnboundLocalError "response") /\
  fst (CoordinatorMoon._analyze_task_node env_advisor_garbled
         (task_received (task_of task1)) coordinator0)
  = Raise (UnboundLocalError "analysis") /\
  fst (CoordinatorMoon.workflow env_advisor_down
         (CoordinatorMoon.initial_state task1) coordinator0)
  = Raise (UnboundLocalError "response") /\
  db (CoordinatorMoon.world
        (snd (CoordinatorMoon.workflow env_advisor_down
                (CoordinatorMoon.initial_state task1) coordinator0))) = [] /\
  CoordinatorMoon.fallback_analysis <> Spec.fallback_analysis.
Proof.
  repeat split; try (vm_compute; reflexivity). discriminate.
Qed.

Lemma fallback_is_handled_directly_witness :
  let run := CoordinatorMoon.workflow env_advisor_array
               (CoordinatorMoon.initial_state task1) coordinator0 in
  exists st' row,
    fst run = Ok st' /\
    CoordinatorMoon.s_analysis st' = Some CoordinatorMoon.fallback_analysis /\
    CoordinatorMoon.s_delegation_sent st' = Some false /\
    CoordinatorMoon.s_worker_response st'
    = Some (CoordinatorMoon.ReplyText "Handled directly") /\
    CoordinatorMoon.s_completion_sent st' = Some true /\
    stored_between world0 (CoordinatorMoon.world (snd run)) [row] /\
    m_intent row = "TASK_COMPLETE: Task completed with worker assistance" /\
    m_reply_to row = Some (m_id task1).
Proof.
  refine (proj2 (proj2 (proj2
            (fallback_is_handled_directly env_advisor_array task1 coordinator0
               "[]" 10 2 (PyList []) "human-1" _ _ _ _))) _).
  - reflexivity.
  - reflexivity.
  - intros d. discriminate.
  - reflexivity.
  - reflexivity.
Defined.

(** C3 as stated fails: a worker completion dispatched twice through one
    coordinator runs the workflow not once but never. *)
Lemma completion_dispatched_twice_runs_no_workflow :
  CoordinatorMoon.ainvoked
    (coordinator_dispatches env_delegating [completion1; completion1] coordinator0)
  = [] /\
  length (CoordinatorMoon.ainvoked
            (coordinator_dispatches env_delegating [completion1; completion1]
                                    coordinator0)) <> 1%nat.
Proof. split; [vm_compute; reflexivity|vm_compute; discriminate]. Qed.

Lemma dispatch_at_most_once_witness :
  CoordinatorMoon.ainvoked
    (snd (CoordinatorMoon.process_incoming_message env_delegating task1 coordinator0))
  = ["task-1"] /\
  CoordinatorMoon.process_incoming_message env_delegating task1
    (coordinator_dispatches env_delegating [completion1]
       (snd (CoordinatorMoon.process_incoming_message env_delegating task1 coordinator0)))
  = (Ok tt,
     coordinator_dispatches env_delegating [completion1]
       (snd (CoordinatorMoon.process_incoming_message env_delegating task1 coordinator0))).
Proof.
  pose proof (proj1 (dispatch_at_most_once env_delegating) coordinator0 task1
                (not_elem_of_empty _)) as (_ & _ & Hlog & Hskip).
  split; [exact Hlog|]. apply Hskip. reflexivity.
Defined.

Lemma analyze_request_classification_witness :
  exists a p',
    EnhancedWorkerMoon._analyze_request_node env_delegating
      (request_received (request_of work_request1)) worker0
    = (Ok (EnhancedWorkerMoon.with_analysis a
             (request_received (request_of work_request1))), p') /\
    EnhancedWorkerMoon.a_prompt_template a = "code_analysis" /\
    EnhancedWorkerMoon.a_complexity a = "high".
Proof.
  destruct (analyze_request_classification env_delegating
              (request_received (request_of work_request1))
              (request_of work_request1) worker0 eq_refl)
    as [(a & p' & Hrun & Htpl & Hhigh & _) _].
  exists a, p'. split; [exact Hrun|]. split; [exact Htpl|].
  apply Hhigh. vm_compute. lia.
Defined.

Lemma captured_completion_is_reused_witness :
  let p1 := snd (CoordinatorMoon.process_incoming_message env_delegating completion1
                   coordinator0) in
  exists st',
    fst (CoordinatorMoon.workflow env_delegating
           (CoordinatorMoon.initial_state task1) p1) = Ok st' /\
    CoordinatorMoon.s_worker_response st'
    = Some (CoordinatorMoon.ReplyDict
              {| CoordinatorMoon.c_status := "Completed";
                 CoordinatorMoon.c_result := "AI-powered code_review completed: fine...";
                 CoordinatorMoon.c_details := "Worker completed successfully" |}).
Proof.
  intros p1. eexists. split; [vm_compute; reflexivity|].
  apply (proj2 (proj2 (proj2 (captured_completion_is_reused env_delegating)))
           task1 p1).
  - vm_compute. reflexivity.
  - vm_compute. reflexivity.
  - reflexivity.
Defined.

Lemma record_id_and_envelope_id_witness :
  let r := received_and_analyzed env_delegating task1 coordinator0 in
  let st2 := match fst r with Ok st => st | Raise _ => CoordinatorMoon.empty_dict end in
  exists rows,
    stored_between (CoordinatorMoon.world (snd r))
      (CoordinatorMoon.world
         (snd (CoordinatorMoon._delegate_to_worker_node env_delegating st2 (snd r))))
      rows /\
    Forall (fun row => m_id row <> e_id (m_content row)) rows.
Proof.
  intros r st2.
  apply (proj1 (record_id_and_envelope_id env_delegating (env_of_fresh _ _))).
Defined.

End Witnesses.

Lemma two_hop_reply_chain_witness :
  Forall (fun row => m_reply_to row = Some "task-1")
         (db (CoordinatorMoon.world
                (snd (CoordinatorMoon.workflow Examples.env_delegating
                        (CoordinatorMoon.initial_state Examples.task1)
                        Examples.coordinator0)))) /\
  Forall (fun row => m_reply_to row = Some "uuid-1" /\ m_to_agent row = "coordinator")
         (db (EnhancedWorkerMoon.world
                (snd (EnhancedWorkerMoon.workflow Examples.env_delegating
                        (EnhancedWorkerMoon.initial_state Examples.work_request1)
                        Examples.worker0)))).
Proof.
  destruct (two_hop_reply_chain Examples.env_delegating) as [Hc Hw].
  destruct (Hc Examples.task1 Examples.coordinator0) as (rows & Hs & Hrows).
  destruct (Hw Examples.work_request1 Examples.worker0) as (rows' & Hs' & Hrows').
  unfold stored_between in Hs, Hs'. rewrite Hs, Hs'. split.
  - eapply Forall_impl; [exact Hrows|]. intros row [Hr _]. exact Hr.
  - eapply Forall_impl; [exact Hrows'|]. intros row (Hr & Ht & _).
    split; assumption.
Defined.

(** * Further properties of the code *)

(** ** Markers and round trips of texts *)

Lemma replace_absent (old new s : string) :
  old <> EmptyString -> contains old s = false -> replace s old new = s.
Proof.
  intros Hold. unfold replace. destruct old as [|a old']; [congruence|].
  induction s as [|c s IH]; intros H; [reflexivity|].
  cbn [contains] in H. apply orb_false_elim in H as [Hpre Hrest].
  cbn [replace_from]. rewrite Hpre. f_equal. now apply IH.
Qed.

Lemma work_request_marker_stripped (x : string) :
  replace ("WORK_REQUEST: " +:+ x) "WORK_REQUEST: " EmptyString
  = replace x "WORK_REQUEST: " EmptyString.
Proof.
  unfold replace. cbv [String.append]. cbn. now rewrite ?prefix_empty.
Qed.

Lemma work_complete_marker_stripped (x : string) :
  replace ("WORK_COMPLETE: " +:+ x) "WORK_COMPLETE: " EmptyString
  = replace x "WORK_COMPLETE: " EmptyString.
Proof.
  unfold replace. cbv [String.append]. cbn. now rewrite ?prefix_empty.
Qed.

(** X1. The worker recovers the task text from the work request the
    coordinator writes for a task: the request it receives has the
    work-request row's id and, when the task text does not itself contain
    "WORK_REQUEST: ", exactly the task's text. *)
Theorem work_request_text_round_trip (task : CoordinatorMoon.Task)
    (name hid i : string) (envelope : Envelope) (q : EnhancedWorkerMoon.Proc)
    (Hclean : contains "WORK_REQUEST: " (CoordinatorMoon.t_text task) = false) :
  exists request st q',
    EnhancedWorkerMoon._receive_request_node
      (EnhancedWorkerMoon.initial_state
         (CoordinatorMoon.work_request_row task name hid envelope i)) q
    = (Ok st, q') /\
    EnhancedWorkerMoon.s_request st = Some request /\
    EnhancedWorkerMoon.current_request (EnhancedWorkerMoon.state q') = Some request /\
    EnhancedWorkerMoon.rq_id request = i /\
    EnhancedWorkerMoon.rq_project_id request = CoordinatorMoon.t_project_id task /\
    EnhancedWorkerMoon.rq_text request = CoordinatorMoon.t_text task.
Proof.
  unfold EnhancedWorkerMoon._receive_request_node. unfold_worker.
  cbn -[String.append replace].
  eexists _, _, _. split; [reflexivity|].
  cbn -[String.append replace]. repeat split.
  rewrite work_request_marker_stripped. now apply replace_absent.
Qed.

Lemma work_request_text_round_trip_witness :
  exists request st q',
    EnhancedWorkerMoon._receive_request_node
      (EnhancedWorkerMoon.initial_state Examples.work_request1) Examples.worker0
    = (Ok st, q') /\
    EnhancedWorkerMoon.s_request st = Some request /\
    EnhancedWorkerMoon.rq_text request
    = "Refactor the login module for better error handling".
Proof.
  destruct (work_request_text_round_trip
              (task_of Examples.task1) "coordinator" "human-1" "uuid-1"
              (CoordinatorMoon.work_request_envelope (task_of Examples.task1)
                                                     "coordinator" "uuid-0")
              Examples.worker0)
    as (request & st & q' & Hrun & Hreq & _ & _ & _ & Htext).
  - vm_compute. reflexivity.
  - exists request, st, q'. split; [exact Hrun|]. split; [exact Hreq|exact Htext].
Defined.

(** X2. The coordinator captures the worker's summary text unchanged: when
    a completion row the worker wrote is dispatched for the first time and
    its summary text does not contain "WORK_COMPLETE: ", the captured
    result is that summary text, and no workflow is run for the row. *)
Theorem completion_text_round_trip (env : Env) (request : EnhancedWorkerMoon.Request)
    (f : EnhancedWorkerMoon.FormattedResponse) (summary_text name hid i : string)
    (envelope : Envelope) (p : CoordinatorMoon.Proc)
    (Hnew : i ∉ CoordinatorMoon.processed_messages (CoordinatorMoon.state p))
    (Hclean : contains "WORK_COMPLETE: " summary_text = false) :
  let row := EnhancedWorkerMoon.work_complete_row request f summary_text name hid
               envelope i in
  let p' := snd (CoordinatorMoon.process_incoming_message env row p) in
  fst (CoordinatorMoon.process_incoming_message env row p) = Ok tt /\
  CoordinatorMoon.latest_worker_response (CoordinatorMoon.state p')
  = Some {| CoordinatorMoon.c_status := "Completed";
            CoordinatorMoon.c_result := summary_text;
            CoordinatorMoon.c_details := "Worker completed successfully" |} /\
  CoordinatorMoon.ainvoked p' = CoordinatorMoon.ainvoked p /\
  CoordinatorMoon.world p' = CoordinatorMoon.world p.
Proof.
  intros row p'. subst p' row.
  unfold CoordinatorMoon.process_incoming_message. unfold_coordinator.
  cbn -[String.append replace startswith].
  destruct (decide _) as [Hin|_]; [contradiction|].
  cbn -[String.append replace startswith].
  replace (startswith ("WORK_COMPLETE: " +:+ summary_text) "WORK_COMPLETE:") with true
    by (unfold startswith; cbv [String.append]; cbn; now rewrite ?prefix_empty).
  cbn -[String.append replace].
  assert (Hne : "WORK_COMPLETE: " <> EmptyString) by discriminate.
  rewrite work_complete_marker_stripped.
  rewrite (replace_absent "WORK_COMPLETE: " EmptyString summary_text Hne Hclean).
  repeat split.
Qed.

Lemma completion_text_round_trip_witness :
  CoordinatorMoon.latest_worker_response
    (CoordinatorMoon.state
       (snd (CoordinatorMoon.process_incoming_message Examples.env_delegating
               MoreExamples.completion_row1 Examples.coordinator0)))
  = Some {| CoordinatorMoon.c_status := "Completed";
            CoordinatorMoon.c_result := "AI-powered code_review completed: fine...";
            CoordinatorMoon.c_details := "Worker completed successfully" |}.
Proof.
  refine (proj1 (proj2 (completion_text_round_trip Examples.env_delegating
            (request_of Examples.work_request1) MoreExamples.formatted1
            "AI-powered code_review completed: fine..." "worker" "human-1" "uuid-1"
            (EnhancedWorkerMoon.work_complete_envelope
               (request_of Examples.work_request1)
               "AI-powered code_review completed: fine..." "worker" "uuid-0")
            Examples.coordinator0 _ _))).
  - apply not_elem_of_empty.
  - vm_compute. reflexivity.
Defined.

(** ** The adapter and the envelopes of the two builders *)

(** X3. The adapter cannot send the envelopes the agents build for
    themselves: an envelope whose routing has no reply_to key makes
    [send_envelope] raise KeyError before any request reaches the table,
    and that is the case of the work-request, task-complete and
    work-complete envelopes. *)
Theorem send_envelope_needs_reply_to (env : Env) :
  (forall envelope human_id w,
      r_reply_to (e_routing envelope) = None ->
      send_envelope env envelope human_id w = (Raise (KeyError "reply_to"), w)) /\
  (forall task from i,
      r_reply_to (e_routing (CoordinatorMoon.work_request_envelope task from i)) = None) /\
  (forall task final_result from i,
      r_reply_to
        (e_routing (CoordinatorMoon.task_complete_envelope task final_result from i))
      = None) /\
  (forall request summary_text from i,
      r_reply_to
        (e_routing (EnhancedWorkerMoon.work_complete_envelope request summary_text from i))
      = None).
Proof.
  split; [|repeat split].
  intros envelope human_id w Hkey.
  unfold send_envelope, db_data, bind, subscript, raise. now rewrite Hkey.
Qed.

Lemma send_envelope_needs_reply_to_witness :
  send_envelope Examples.env_delegating
    (CoordinatorMoon.work_request_envelope (task_of Examples.task1) "coordinator" "uuid-0")
    "human-1" Examples.world0
  = (Raise (KeyError "reply_to"), Examples.world0).
Proof.
  apply (proj1 (send_envelope_needs_reply_to Examples.env_delegating)). reflexivity.
Defined.

Lemma strip_absent_prefix (x : string) :
  contains "agent:" x = false ->
  replace ("agent:" +:+ x) "agent:" EmptyString = x.
Proof.
  intros H. rewrite strip_to_prefix. apply replace_absent; [discriminate|exact H].
Qed.

(** X4. A progress update survives the send path: for an envelope built by
    [create_task_update] from a sender name that does not contain
    "agent:", an accepted insert stores exactly one row whose content is
    the envelope, under the envelope's id, with the sender's name, the
    recipient "broadcast", the progress text as intent, the status passed
    (or "processing") and the reply_to passed. *)
Theorem update_round_trip (env : Env)
    (project_id from_agent progress_text human_id : string)
    (status reply_to : option string) (w : World)
    (Hname : contains "agent:" from_agent = false)
    (Hstore : store_script env (store_next w) = StoreOk) :
  let built := create_task_update env project_id from_agent progress_text
                                  status reply_to w in
  exists row,
    fst (send_envelope env (fst built) human_id (snd built)) = Ok (Some row) /\
    db (snd (send_envelope env (fst built) human_id (snd built))) = (db w ++ [row])%list /\
    m_content row = fst built /\
    m_id row = e_id (fst built) /\
    m_agent_name row = from_agent /\
    m_to_agent row = "broadcast" /\
    m_intent row = progress_text /\
    m_status row = default "processing" status /\
    m_reply_to row = reply_to /\
    m_project_id row = project_id.
Proof.
  intros built. subst built.
  unfold send_envelope, db_data, bind, subscript, ret, table_insert, create_task_update.
  cbn [fst snd store_next db uuid4 datetime_now_isoformat tick e_routing r_reply_to
       r_from r_to e_id e_payload_text e_status r_project_id].
  rewrite Hstore, (strip_absent_prefix from_agent Hname).
  eexists. cbn [fst snd db store_request m_content m_id m_to_agent m_agent_name
                m_intent m_status m_reply_to m_project_id].
  repeat split.
Qed.

Lemma update_round_trip_witness :
  let built := create_task_update Examples.env_delegating "test_project" "worker"
                 "halfway" None (Some "task-1") Examples.world0 in
  exists row,
    fst (send_envelope Examples.env_delegating (fst built) "human-1" (snd built))
    = Ok (Some row) /\
    m_agent_name row = "worker" /\ m_to_agent row = "broadcast" /\
    m_status row = "processing" /\ m_reply_to row = Some "task-1".
Proof.
  intros built.
  destruct (update_round_trip Examples.env_delegating "test_project" "worker" "halfway"
              "human-1" None (Some "task-1") Examples.world0)
    as (row & Hrun & _ & _ & _ & Hfrom & Hto & _ & Hst & Hre & _).
  - vm_compute. reflexivity.
  - reflexivity.
  - exists row. repeat split; assumption.
Defined.

(** ** Coordinator: what a run stores, and in which order *)

Section CoordinatorStores.
Import CoordinatorMoon.
Variable env : Env.

Lemma delegate_outcome (t : Task) (a : Analysis) (p : Proc) :
  let st2 := with_analysis a (task_received t) in
  let r := _delegate_to_worker_node env st2 p in
  exists rows,
    stored_between (world p) (world (snd r)) rows /\
    (length rows <= 1)%nat /\
    Forall (fun row => m_to_agent row = "worker" /\
                       m_intent row = "WORK_REQUEST: " +:+ t_text t /\
                       m_status row = "sent" /\
                       m_agent_name row = agent_name p /\
                       m_reply_to row = Some (t_id t)) rows /\
    (truthy (a_requires_worker a) = false -> rows = []) /\
    (forall st3,
        fst r = Ok st3 ->
        s_task st3 = Some t /\ s_worker_response st3 = None /\
        s_final_result st3 = None /\ s_completion_sent st3 = None /\
        s_completion_id st3 = None /\ s_analysis st3 = Some a /\
        (s_delegation_sent st3 = Some true \/ s_delegation_sent st3 = Some false) /\
        (s_delegation_sent st3 = Some true ->
         exists row, rows = [row] /\ s_delegation_id st3 = Some (m_id row) /\
                     pending_delegation (state (snd r))
                     = Some {| worker_message_id := m_id row;
                               original_task_id := t_id t |})).
Proof.
  unfold _delegate_to_worker_node. run_stage.
  all: unfold stored_between; cbn -[String.append].
  all: try (exists []; split; [now rewrite app_nil_r|]; split; [cbn; lia|];
            split; [constructor|]; split; [reflexivity|];
            intros st3 H; try discriminate H; injection H as <-;
            cbn; repeat split; auto; discriminate).
  all: eexists [_]; split; [reflexivity|]; split; [cbn; lia|].
  all: split; [repeat constructor|]; split; [intros; congruence|].
  all: intros st3 H; try discriminate H; injection H as <-.
  all: cbn; repeat split; auto; try discriminate.
  all: intros _; eexists; repeat split.
Qed.

Lemma delegate_keeps_state (st : WfState) (p : Proc) :
  current_task (state (snd (_delegate_to_worker_node env st p))) = current_task (state p) /\
  task_status (state (snd (_delegate_to_worker_node env st p))) = task_status (state p).
Proof.
  unfold _delegate_to_worker_node. run_stage. all: split; reflexivity.
Qed.

Lemma consolidate_outcome (st : WfState) (p : Proc) (t : Task) (w : worker_reply) :
  s_task st = Some t -> s_worker_response st = Some w -> s_final_result st = None ->
  exists f p',
    _consolidate_results_node env st p = (Ok (with_final_result f st), p') /\
    fr_summary f = "Task completed with worker assistance" /\
    fr_task_id f = t_id t /\ fr_worker_contribution f = w /\
    coordinator_frame p p' /\ db (world p') = db (world p) /\
    store_next (world p') = store_next (world p) /\
    state p' = state p.
Proof.
  intros Ht Hw Hf. unfold _consolidate_results_node. unfold_coordinator.
  rewrite Ht, Hw. cbn. eexists _, _. split; [reflexivity|].
  repeat split; cbn; lia.
Qed.

Lemma complete_outcome (st : WfState) (p : Proc) (t : Task) (f : FinalResult) :
  s_task st = Some t -> s_final_result st = Some f ->
  s_completion_sent st = None -> s_completion_id st = None ->
  let r := _complete_task_node env st p in
  exists rows,
    stored_between (world p) (world (snd r)) rows /\
    Forall (fun row => m_to_agent row = "broadcast" /\
                       m_intent row = "TASK_COMPLETE: " +:+ fr_summary f /\
                       m_status row = "done" /\
                       m_agent_name row = agent_name p /\
                       m_reply_to row = Some (t_id t)) rows /\
    match fst r with
    | Ok st' =>
        exists row, rows = [row] /\ st' = with_completion true (m_id row) st /\
                    current_task (state (snd r)) = None /\
                    task_status (state (snd r)) = "idle" /\
                    pending_delegation (state (snd r)) = pending_delegation (state p)
    | Raise e => rows = [] /\ state (snd r) = state p
    end.
Proof.
  intros Ht Hf Hs Hi. unfold _complete_task_node. unfold_coordinator.
  rewrite Ht, Hf. cbn -[String.append].
  destruct (human_user p); cbn -[String.append];
    [|exists []; unfold stored_between; rewrite app_nil_r; repeat split; constructor].
  destruct (store_script env (store_next (world p))); cbn -[String.append];
    unfold stored_between; cbn -[String.append].
  - eexists [_]. split; [reflexivity|]. split; [repeat constructor|].
    eexists. split; [reflexivity|]. split; [|repeat split].
    unfold with_completion. now rewrite Hs, Hi.
  - exists []. rewrite app_nil_r. repeat split; constructor.
  - exists []. rewrite app_nil_r. repeat split; constructor.
Qed.

End CoordinatorStores.

Section CoordinatorRunShape.
Import CoordinatorMoon.
Variable env : Env.

(** What one whole run stores and how it ends. *)
Lemma workflow_stores (m : Message) (p : Proc) :
  let r := workflow env (initial_state m) p in
  exists requests completions,
    stored_between (world p) (world (snd r)) (requests ++ completions)%list /\
    (length requests <= 1)%nat /\ (length completions <= 1)%nat /\
    Forall (fun row => m_to_agent row = "worker" /\
                       m_intent row = "WORK_REQUEST: " +:+ m_intent m /\
                       m_status row = "sent" /\
                       m_agent_name row = agent_name p /\
                       m_reply_to row = Some (m_id m)) requests /\
    Forall (fun row => m_to_agent row = "broadcast" /\
                       m_intent row
                       = "TASK_COMPLETE: Task completed with worker assistance" /\
                       m_status row = "done" /\
                       m_agent_name row = agent_name p /\
                       m_reply_to row = Some (m_id m)) completions /\
    match fst r with
    | Ok st' =>
        length completions = 1%nat /\
        s_completion_sent st' = Some true /\
        (s_delegation_sent st' = Some true -> length requests = 1%nat) /\
        current_task (state (snd r)) = None /\
        task_status (state (snd r)) = "idle"
    | Raise e => completions = []
    end.
Proof.
  cbn zeta. unfold workflow, bind.
  destruct (receive_task_runs m p) as (p1 & -> & F1 & W1).
  set (t := task_of m).
  destruct (_analyze_task_node env (task_received t) p1) as [[st2|e2] p2] eqn:E2;
    pose proof (analyze_task_frame env (task_received t) p1) as (F2 & D2 & _);
    rewrite E2 in F2, D2; cbn [fst snd] in F2, D2.
  2:{ exists [], []. unfold stored_between. cbn [app fst snd].
      split; [rewrite app_nil_r; now rewrite D2, W1|].
      repeat split; try constructor; cbn; lia. }
  pose proof (analyze_task_state env (task_received t) p1 st2) as S2.
  rewrite E2 in S2. destruct (S2 eq_refl) as (a & ->). clear S2.
  destruct (delegate_outcome env t a p2) as (requests & Sd & Ld & Ad & _ & Hd).
  pose proof (delegate_frame env (with_analysis a (task_received t)) p2) as F3.
  cbn zeta in Sd, Hd.
  destruct (_delegate_to_worker_node env (with_analysis a (task_received t)) p2)
    as [[st3|e3] p3] eqn:E3; cbn [fst snd] in *.
  2:{ exists requests, []. unfold stored_between in *. rewrite app_nil_r.
      split; [now rewrite Sd, D2, W1|]. split; [exact Ld|]. split; [cbn; lia|].
      split; [|split; [constructor|reflexivity]].
      eapply Forall_impl; [exact Ad|].
      rewrite (cf_name _ _ F2), (cf_name _ _ F1). tauto. }
  destruct (Hd st3 eq_refl) as (T3 & W3 & R3 & C3 & I3 & _ & Hsent3 & Hone).
  rewrite wait_runs.
  set (reply := match s_delegation_sent st3 with
                | Some true => _ | _ => _ end).
  set (st4 := with_worker_response reply st3).
  destruct (consolidate_outcome env st4 p3 t reply) as
    (f & p5 & -> & Hsum & _ & _ & F5 & D5 & _ & _).
  { exact T3. } { subst st4. cbn. now rewrite W3. } { exact R3. }
  set (st5 := with_final_result f st4).
  destruct (complete_outcome env st5 p5 t f) as (completions & Sc & Ac & Hc).
  { exact T3. } { subst st5 st4. cbn. now rewrite R3. } { exact C3. } { exact I3. }
  cbn zeta in Sc, Hc. rewrite Hsum in Ac.
  assert (Hname : agent_name p5 = agent_name p).
  { rewrite (cf_name _ _ F5), (cf_name _ _ F3), (cf_name _ _ F2). apply F1. }
  assert (Hname2 : agent_name p2 = agent_name p).
  { rewrite (cf_name _ _ F2). apply F1. }
  exists requests, completions. unfold stored_between in *.
  split; [rewrite Sc, D5, Sd, D2, W1; now rewrite app_assoc|].
  split; [exact Ld|].
  destruct (_complete_task_node env st5 p5) as [[st6|e6] p6]; cbn [fst snd] in *.
  - destruct Hc as (row & -> & -> & Hcur & Hstat & _).
    split; [cbn; lia|].
    split; [eapply Forall_impl; [exact Ad|]; rewrite Hname2; tauto|].
    split; [eapply Forall_impl; [exact Ac|]; rewrite Hname;
            intros r0 (H1 & H2 & H3 & H4 & H5); repeat split; assumption|].
    split; [reflexivity|].
    split; [subst st5 st4; cbn; now rewrite C3|].
    split; [|split; assumption].
    intros Hs. subst st5 st4. cbn in Hs.
    destruct (Hone Hs) as (r0 & -> & _). reflexivity.
  - destruct Hc as [-> _].
    split; [cbn; lia|].
    split; [eapply Forall_impl; [exact Ad|]; rewrite Hname2; tauto|].
    split; [constructor|reflexivity].
Qed.

End CoordinatorRunShape.

(** ** Worker: a whole run of a signed-in worker *)

Section WorkerRunShape.
Import EnhancedWorkerMoon.
Variable env : Env.

Lemma worker_run_signed_in (m : Message) (q : Proc) (hid : string) :
  human_user q = Some hid ->
  let r := workflow env (initial_state m) q in
  let request := request_of m in
  let ty := fst (classify (rq_text request)) in
  let out := advisor_script env (advisor_next (world q)) in
  let summary_text := summary_of ty (content_of (rq_text request) out) in
  exists st',
    fst r = Ok st' /\
    s_summary_text st' = Some summary_text /\
    match store_script env (store_next (world q)) with
    | StoreOk =>
        exists row md,
          db (world (snd r)) = (db (world q) ++ [row])%list /\
          s_result_sent st' = Some true /\
          s_result_id st' = Some (m_id row) /\
          m_intent row = "WORK_COMPLETE: " +:+ summary_text /\
          m_to_agent row = "coordinator" /\
          m_agent_name row = agent_name q /\
          m_status row = "done" /\
          m_reply_to row = Some (m_id m) /\
          m_project_id row = m_project_id m /\
          m_telemetry row = Some md /\
          md_model_used md = model_tag_of out /\
          md_request_id md = m_id m /\
          md_analysis_type md = ty /\
          md_worker_agent md = agent_name q /\
          (forall err, out = AdvisorRaises err -> md_processing_time_ms md = 100) /\
          current_request (state (snd r)) = None /\
          ai_response (state (snd r)) = None
    | _ =>
        db (world (snd r)) = db (world q) /\
        s_result_sent st' = Some false /\
        s_error st' <> None /\
        current_request (state (snd r)) = Some request /\
        ai_response (state (snd r)) <> None
    end.
Proof.
  intros Hu. cbn zeta.
  unfold workflow, _receive_request_node, _analyze_request_node, _call_ai_model_node,
    _format_response_node, _send_result_node, summary_of, content_of, model_tag_of,
    fallback_content.
  unfold_worker.
  cbn -[String.append take_str replace classify Nat.ltb].
  change (replace (m_intent m) "WORK_REQUEST: " EmptyString)
    with (rq_text (request_of m)).
  destruct (classify (rq_text (request_of m))) as [ty tpl].
  cbn -[String.append take_str replace classify Nat.ltb].
  destruct (advisor_script env (advisor_next (world q))) as [err|text tin tout];
    cbn -[String.append take_str replace classify Nat.ltb]; rewrite Hu;
    cbn -[String.append take_str replace classify Nat.ltb];
    destruct (store_script env (store_next (world q)));
    cbn -[String.append take_str replace classify Nat.ltb];
    eexists; (split; [reflexivity|]); (split; [reflexivity|]);
    try (eexists _, _; repeat split; congruence);
    repeat split; try discriminate.
Qed.

Lemma worker_run_signed_out (m : Message) (q : Proc) :
  human_user q = None ->
  let r := workflow env (initial_state m) q in
  fst r = Raise (AttributeError "'NoneType' object has no attribute 'id'") /\
  db (world (snd r)) = db (world q).
Proof.
  intros Hu. cbn zeta.
  unfold workflow, _receive_request_node, _analyze_request_node, _call_ai_model_node,
    _format_response_node, _send_result_node.
  unfold_worker.
  cbn -[String.append take_str replace classify Nat.ltb].
  destruct (classify _) as [ty tpl].
  cbn -[String.append take_str replace classify Nat.ltb].
  destruct (advisor_script env (advisor_next (world q)));
    cbn -[String.append take_str replace classify Nat.ltb]; rewrite Hu;
    cbn -[String.append take_str replace classify Nat.ltb]; split; reflexivity.
Qed.

End WorkerRunShape.

(** ** Coordinator: properties of whole runs *)

(** X5. A coordinator run stores at most two rows and in a fixed order: at
    most one work request for the worker, then at most one completion for
    "broadcast", both by the coordinator and both replying to the task row.
    A run that ends normally has stored the completion, whose intent is
    always "TASK_COMPLETE: Task completed with worker assistance", has
    stored the work request if it reports delegation_sent, and leaves the
    coordinator idle with no current task; a run that raises has stored no
    completion. *)
Theorem run_stores_request_then_completion (env : Env) (m : Message)
    (p : CoordinatorMoon.Proc) :
  let r := CoordinatorMoon.workflow env (CoordinatorMoon.initial_state m) p in
  exists requests completions,
    stored_between (CoordinatorMoon.world p) (CoordinatorMoon.world (snd r))
                   (requests ++ completions)%list /\
    (length requests <= 1)%nat /\ (length completions <= 1)%nat /\
    Forall (fun row => m_to_agent row = "worker" /\
                       m_intent row = "WORK_REQUEST: " +:+ m_intent m /\
                       m_status row = "sent" /\
                       m_agent_name row = CoordinatorMoon.agent_name p /\
                       m_reply_to row = Some (m_id m)) requests /\
    Forall (fun row => m_to_agent row = "broadcast" /\
                       m_intent row
                       = "TASK_COMPLETE: Task completed with worker assistance" /\
                       m_status row = "done" /\
                       m_agent_name row = CoordinatorMoon.agent_name p /\
                       m_reply_to row = Some (m_id m)) completions /\
    match fst r with
    | Ok st' =>
        length completions = 1%nat /\
        CoordinatorMoon.s_completion_sent st' = Some true /\
        (CoordinatorMoon.s_delegation_sent st' = Some true -> length requests = 1%nat) /\
        CoordinatorMoon.current_task (CoordinatorMoon.state (snd r)) = None /\
        CoordinatorMoon.task_status (CoordinatorMoon.state (snd r)) = "idle"
    | Raise e => completions = []
    end.
Proof. apply workflow_stores. Qed.

Lemma run_stores_request_then_completion_witness :
  exists requests completions,
    stored_between
      (CoordinatorMoon.world Examples.coordinator0)
      (CoordinatorMoon.world
         (snd (CoordinatorMoon.workflow Examples.env_delegating
                 (CoordinatorMoon.initial_state Examples.task1) Examples.coordinator0)))
      (requests ++ completions)%list /\
    length requests = 1%nat /\ length completions = 1%nat.
Proof.
  pose proof (run_stores_request_then_completion Examples.env_delegating Examples.task1
                Examples.coordinator0) as H.
  cbn zeta in H. destruct H as (requests & completions & Hst & _ & _ & _ & _ & Hend).
  exists requests, completions. split; [exact Hst|].
  destruct (fst (CoordinatorMoon.workflow Examples.env_delegating
                   (CoordinatorMoon.initial_state Examples.task1) Examples.coordinator0))
    as [st'|e] eqn:Hrun; [|vm_compute in Hrun; discriminate].
  destruct Hend as (Hc & _ & Hd & _). split; [|exact Hc].
  apply Hd. vm_compute in Hrun. injection Hrun as <-. reflexivity.
Defined.

Lemma process_returns_when_routed_away (env : Env) (m : Message)
    (p : CoordinatorMoon.Proc) :
  is_fresh_task (m_intent m) = false ->
  fst (CoordinatorMoon.process_incoming_message env m p) = Ok tt.
Proof.
  intros Hfresh. unfold is_fresh_task in Hfresh.
  unfold CoordinatorMoon.process_incoming_message. unfold_coordinator.
  destruct (decide _); [reflexivity|]. cbn.
  destruct (startswith (m_intent m) "WORK_COMPLETE:"); cbn; [reflexivity|].
  cbn in Hfresh. now rewrite Hfresh.
Qed.

Lemma bind_ret_fst {S A} (m : M S A) (s : S) (e : exn) :
  fst ((m ;;; ret tt) s) = Raise e -> fst (m s) = Raise e.
Proof.
  unfold bind, ret. destruct (m s) as [[a|e'] s']; cbn; intros H;
    [discriminate H|now injection H as ->].
Qed.

(** X6. A task whose run raises is lost to this instance: when the
    dispatch of a row raises, the row's id is already in the processed set,
    no completion row has been stored for it (at most its work request),
    and every later dispatch of the row, whatever was dispatched in
    between, is skipped. *)
Theorem failed_task_is_never_retried (env : Env) (m : Message)
    (p : CoordinatorMoon.Proc) (e : exn)
    (Hraise : fst (CoordinatorMoon.process_incoming_message env m p) = Raise e) :
  let p' := snd (CoordinatorMoon.process_incoming_message env m p) in
  m_id m ∈ CoordinatorMoon.processed_messages (CoordinatorMoon.state p') /\
  (exists rows,
      stored_between (CoordinatorMoon.world p) (CoordinatorMoon.world p') rows /\
      Forall (fun row => m_to_agent row = "worker") rows) /\
  (forall ms,
      CoordinatorMoon.process_incoming_message env m (coordinator_dispatches env ms p')
      = (Ok tt, coordinator_dispatches env ms p')).
Proof.
  cbn zeta.
  destruct (decide (m_id m ∈ CoordinatorMoon.processed_messages (CoordinatorMoon.state p)))
    as [Hold|Hnew]; [rewrite process_skips in Hraise by exact Hold; discriminate|].
  destruct (is_fresh_task (m_intent m)) eqn:Hfresh;
    [|rewrite process_returns_when_routed_away in Hraise by exact Hfresh; discriminate].
  assert (Hin : m_id m ∈ CoordinatorMoon.processed_messages
                          (CoordinatorMoon.state
                             (snd (CoordinatorMoon.process_incoming_message env m p)))).
  { destruct (process_log env m p Hnew) as [_ ->].
    apply elem_of_union. left. now apply elem_of_singleton. }
  split; [exact Hin|]. split.
  - rewrite (process_runs_workflow env m p Hnew Hfresh) in *.
    apply bind_ret_fst in Hraise. rewrite bind_ret_snd.
    destruct (workflow_stores env m (coordinator_claim m p))
      as (requests & completions & S & _ & _ & A & _ & Hend).
    cbn zeta in S, Hend. rewrite Hraise in Hend. subst completions.
    exists requests. rewrite app_nil_r in S. split; [exact S|].
    eapply Forall_impl; [exact A|]. intros row Hrow. apply Hrow.
  - intros ms. apply process_skips. now apply dispatches_keep.
Qed.

Lemma failed_task_is_never_retried_witness :
  let p' := snd (CoordinatorMoon.process_incoming_message Examples.env_advisor_down
                   Examples.task1 Examples.coordinator0) in
  "task-1" ∈ CoordinatorMoon.processed_messages (CoordinatorMoon.state p') /\
  CoordinatorMoon.process_incoming_message Examples.env_advisor_down Examples.task1 p'
  = (Ok tt, p').
Proof.
  destruct (failed_task_is_never_retried Examples.env_advisor_down Examples.task1
              Examples.coordinator0 (UnboundLocalError "response"))
    as (Hin & _ & Hskip).
  - vm_compute. reflexivity.
  - split; [exact Hin|exact (Hskip [])].
Defined.

(** X7. An analysis that says nothing about delegation delegates: when the
    Advisor's JSON object has no "requires_worker" key, the analysis holds
    the default "Not given" there, which counts as true, so with the table
    up the work request is stored and delegation_sent is true. *)
Theorem missing_requires_worker_delegates (env : Env) (m : Message)
    (p : CoordinatorMoon.Proc) (text : string) (tin tout : Z)
    (d : list (string * pyval)) (hid : string)
    (Hreply : advisor_script env (advisor_next (CoordinatorMoon.world p))
              = AdvisorReplies text tin tout)
    (Hparsed : json_loads env (CoordinatorMoon.strip_code_fence text) = Some (PyDict d))
    (Hkey : assoc_get "requires_worker" d = None)
    (Huser : CoordinatorMoon.human_user p = Some hid)
    (Hinsert : store_script env (store_next (CoordinatorMoon.world p)) = StoreOk)
    (Hread : forall err,
        store_script env (S (store_next (CoordinatorMoon.world p))) <> StoreRaises err) :
  exists st2 p2 a st3 row,
    received_and_analyzed env m p = (Ok st2, p2) /\
    CoordinatorMoon.s_analysis st2 = Some a /\
    CoordinatorMoon.a_requires_worker a = PyStr "Not given" /\
    fst (CoordinatorMoon._delegate_to_worker_node env st2 p2) = Ok st3 /\
    CoordinatorMoon.s_delegation_sent st3 = Some true /\
    stored_between (CoordinatorMoon.world p2)
      (CoordinatorMoon.world (snd (CoordinatorMoon._delegate_to_worker_node env st2 p2)))
      [row] /\
    m_to_agent row = "worker" /\
    m_intent row = "WORK_REQUEST: " +:+ m_intent m.
Proof.
  unfold received_and_analyzed, CoordinatorMoon._receive_task_node,
    CoordinatorMoon._analyze_task_node, CoordinatorMoon.analyze_try_block.
  unfold_coordinator. cbn -[String.append]. rewrite Hreply. cbn -[String.append].
  rewrite Hparsed. cbn -[String.append]. rewrite Hkey. cbn -[String.append].
  eexists _, _, _, _, _.
  split; [reflexivity|]. split; [reflexivity|]. split; [reflexivity|].
  match goal with
  | |- context [CoordinatorMoon._delegate_to_worker_node env
                  (CoordinatorMoon.with_analysis ?a ?st) ?p2] =>
      destruct (delegate_accepted env (task_of m) a p2 hid eq_refl Huser Hinsert Hread)
        as [Hrun Hdb]
  end.
  split; [exact Hrun|]. split; [reflexivity|]. split; [exact Hdb|]. split; reflexivity.
Qed.

Lemma missing_requires_worker_delegates_witness :
  exists st2 p2 st3 row,
    received_and_analyzed MoreExamples.env_silent_about_worker Examples.task1
                          Examples.coordinator0 = (Ok st2, p2) /\
    fst (CoordinatorMoon._delegate_to_worker_node MoreExamples.env_silent_about_worker
           st2 p2) = Ok st3 /\
    CoordinatorMoon.s_delegation_sent st3 = Some true /\
    m_to_agent row = "worker".
Proof.
  destruct (missing_requires_worker_delegates MoreExamples.env_silent_about_worker
              Examples.task1 Examples.coordinator0 "{}" 10 2 [] "human-1")
    as (st2 & p2 & a & st3 & row & H1 & _ & _ & H4 & H5 & _ & H7 & _);
    try reflexivity; [intros err; discriminate|].
  exists st2, p2, st3, row. repeat split; assumption.
Defined.

(** X8. A run that is handed no row does not stop quietly: the first stage
    returns the "no_task" (worker: "no_request") status, the second one
    then fails on the missing "task" ("request") key, and the run raises
    KeyError having changed nothing. *)
Theorem run_without_a_row_raises (env : Env) :
  (forall st p,
      CoordinatorMoon.s_incoming_message st = None ->
      (exists st1,
          CoordinatorMoon._receive_task_node st p = (Ok st1, p) /\
          CoordinatorMoon.s_status st1 = Some "no_task") /\
      CoordinatorMoon.workflow env st p = (Raise (KeyError "task"), p)) /\
  (forall st q,
      EnhancedWorkerMoon.s_work_request st = None ->
      (exists st1,
          EnhancedWorkerMoon._receive_request_node st q = (Ok st1, q) /\
          EnhancedWorkerMoon.s_status st1 = Some "no_request") /\
      EnhancedWorkerMoon.workflow env st q = (Raise (KeyError "request"), q)).
Proof.
  split.
  - intros st p H.
    unfold CoordinatorMoon.workflow, CoordinatorMoon._receive_task_node,
      CoordinatorMoon._analyze_task_node.
    unfold_coordinator. rewrite H. cbn. split; [eexists; split; reflexivity|reflexivity].
  - intros st q H.
    unfold EnhancedWorkerMoon.workflow, EnhancedWorkerMoon._receive_request_node,
      EnhancedWorkerMoon._analyze_request_node.
    unfold_worker. rewrite H. cbn. split; [eexists; split; reflexivity|reflexivity].
Qed.

Lemma run_without_a_row_raises_witness :
  CoordinatorMoon.workflow Examples.env_delegating CoordinatorMoon.empty_dict
                           Examples.coordinator0
  = (Raise (KeyError "task"), Examples.coordinator0).
Proof.
  apply (proj1 (run_without_a_row_raises Examples.env_delegating)). reflexivity.
Defined.

(** ** Worker: properties of whole runs *)

Lemma length_append (a b : string) :
  String.length (a +:+ b) = (String.length a + String.length b)%nat.
Proof.
  induction a as [|c a IH]; [reflexivity|].
  change (String c a +:+ b) with (String c (a +:+ b)). cbn [String.length].
  now rewrite IH.
Qed.

Lemma length_take_str (n : nat) (s : string) : (String.length (take_str n s) <= n)%nat.
Proof.
  revert s. induction n as [|n IH]; intros [|c s]; cbn; try lia.
  specialize (IH s). lia.
Qed.

Lemma classify_type_length (text : string) :
  (String.length (fst (EnhancedWorkerMoon.classify text)) <= 16)%nat.
Proof.
  unfold EnhancedWorkerMoon.classify.
  repeat (destruct (EnhancedWorkerMoon.any_keyword _ _); [cbn; lia|]). cbn. lia.
Qed.

Lemma classify_pairs (text : string) :
  EnhancedWorkerMoon.classify text
  = (fst (EnhancedWorkerMoon.classify text), snd (EnhancedWorkerMoon.classify text)).
Proof. now destruct (EnhancedWorkerMoon.classify text). Qed.

(** X9. A signed-in worker always sends an answer when the table takes
    it, with or without the Advisor: the run ends normally and stores
    exactly one row for "coordinator" whose intent is "WORK_COMPLETE: "
    followed by "AI-powered <type> completed: ", the first 100 characters
    of the content and "..."; the content is the Advisor's text, or the
    apology built from the first 50 characters of the request when the
    call failed; the telemetry names the request, the analysis type and
    the model tag ("fallback", with 100 ms, after a failed call); and the
    in-memory request and response are cleared. *)
Theorem worker_always_answers (env : Env) (m : Message) (q : EnhancedWorkerMoon.Proc)
    (hid : string)
    (Huser : EnhancedWorkerMoon.human_user q = Some hid)
    (Hstore : store_script env (store_next (EnhancedWorkerMoon.world q)) = StoreOk) :
  let r := EnhancedWorkerMoon.workflow env (EnhancedWorkerMoon.initial_state m) q in
  let text := replace (m_intent m) "WORK_REQUEST: " EmptyString in
  let ty := fst (EnhancedWorkerMoon.classify text) in
  let out := advisor_script env (advisor_next (EnhancedWorkerMoon.world q)) in
  exists st' row md,
    fst r = Ok st' /\
    db (EnhancedWorkerMoon.world (snd r)) = (db (EnhancedWorkerMoon.world q) ++ [row])%list /\
    EnhancedWorkerMoon.s_result_sent st' = Some true /\
    EnhancedWorkerMoon.s_result_id st' = Some (m_id row) /\
    m_intent row = "WORK_COMPLETE: " +:+ summary_of ty (content_of text out) /\
    m_to_agent row = "coordinator" /\
    m_agent_name row = EnhancedWorkerMoon.agent_name q /\
    m_status row = "done" /\
    m_reply_to row = Some (m_id m) /\
    m_telemetry row = Some md /\
    md_model_used md = model_tag_of out /\
    md_request_id md = m_id m /\
    md_analysis_type md = ty /\
    (forall err, out = AdvisorRaises err -> md_processing_time_ms md = 100) /\
    EnhancedWorkerMoon.current_request (EnhancedWorkerMoon.state (snd r)) = None /\
    EnhancedWorkerMoon.ai_response (EnhancedWorkerMoon.state (snd r)) = None.
Proof.
  destruct (worker_run_signed_in env m q hid Huser) as (st' & Hrun & _ & Hrest).
  rewrite Hstore in Hrest.
  destruct Hrest as (row & md & H1 & H2 & H3 & H4 & H5 & H6 & H7 & H8 & _ & H10 & H11
                     & H12 & H13 & _ & H15 & H16 & H17).
  cbn zeta. exists st', row, md. repeat split; assumption.
Qed.

Lemma worker_always_answers_witness :
  let r := EnhancedWorkerMoon.workflow Examples.env_advisor_down
             (EnhancedWorkerMoon.initial_state Examples.work_request1)
             Examples.worker0 in
  exists row md,
    db (EnhancedWorkerMoon.world (snd r)) = [row] /\
    m_reply_to row = Some "uuid-1" /\
    m_telemetry row = Some md /\
    md_model_used md = "fallback".
Proof.
  destruct (worker_always_answers Examples.env_advisor_down Examples.work_request1
              Examples.worker0 "human-1" eq_refl eq_refl)
    as (st' & row & md & _ & Hdb & _ & _ & _ & _ & _ & _ & Hre & Htel & Hmod & _).
  exists row, md. repeat split; assumption.
Defined.

(** X10. A completion the table does not take is lost: when a signed-in
    worker is handed a new work request and the insert of its answer
    raises or reports no data, the dispatch still returns normally,
    nothing is stored, the in-memory request and response are left in
    place, and every later dispatch of the same row is skipped. *)
Theorem refused_answer_is_never_resent (env : Env) (m : Message)
    (q : EnhancedWorkerMoon.Proc) (hid : string)
    (Hnew : m_id m ∉ EnhancedWorkerMoon.processed_messages (EnhancedWorkerMoon.state q))
    (Huser : EnhancedWorkerMoon.human_user q = Some hid)
    (Hstore : store_script env (store_next (EnhancedWorkerMoon.world q)) <> StoreOk) :
  let q' := snd (EnhancedWorkerMoon.process_work_request env m q) in
  fst (EnhancedWorkerMoon.process_work_request env m q) = Ok tt /\
  db (EnhancedWorkerMoon.world q') = db (EnhancedWorkerMoon.world q) /\
  EnhancedWorkerMoon.current_request (EnhancedWorkerMoon.state q')
  = Some (request_of m) /\
  EnhancedWorkerMoon.ai_response (EnhancedWorkerMoon.state q') <> None /\
  (forall ms,
      EnhancedWorkerMoon.process_work_request env m (worker_dispatches env ms q')
      = (Ok tt, worker_dispatches env ms q')).
Proof.
  cbn zeta.
  pose proof (work_request_log env m q Hnew) as [_ Hset]. cbn zeta in Hset.
  rewrite (work_request_runs_workflow env m q Hnew), try_ret_snd in *. cbn [fst snd] in *.
  destruct (worker_run_signed_in env m (worker_claim m q) hid Huser)
    as (st' & _ & _ & Hrest).
  change (EnhancedWorkerMoon.world (worker_claim m q))
    with (EnhancedWorkerMoon.world q) in Hrest.
  split; [reflexivity|].
  destruct (store_script env (store_next (EnhancedWorkerMoon.world q)));
    [congruence| |];
    destruct Hrest as (Hdb & _ & _ & Hcur & Hai);
    (split; [exact Hdb|]); (split; [exact Hcur|]); (split; [exact Hai|]);
    intros ms; apply work_request_skips, worker_dispatches_keep; rewrite Hset;
    apply elem_of_union; left; now apply elem_of_singleton.
Qed.

Lemma refused_answer_is_never_resent_witness :
  let q' := snd (EnhancedWorkerMoon.process_work_request MoreExamples.env_all_down
                   Examples.work_request1 Examples.worker0) in
  db (EnhancedWorkerMoon.world q') = [] /\
  EnhancedWorkerMoon.process_work_request MoreExamples.env_all_down
    Examples.work_request1 q' = (Ok tt, q').
Proof.
  destruct (refused_answer_is_never_resent MoreExamples.env_all_down
              Examples.work_request1 Examples.worker0 "human-1")
    as (_ & Hdb & _ & _ & Hskip).
  - apply not_elem_of_empty.
  - reflexivity.
  - discriminate.
  - split; [exact Hdb|exact (Hskip [])].
Defined.

(** X11. The intent of a completion is short whatever the Advisor says:
    every row a worker run stores has an intent of at most 157
    characters. *)
Theorem completion_intent_is_bounded (env : Env) (m : Message)
    (q : EnhancedWorkerMoon.Proc) :
  exists rows,
    stored_between
      (EnhancedWorkerMoon.world q)
      (EnhancedWorkerMoon.world
         (snd (EnhancedWorkerMoon.workflow env (EnhancedWorkerMoon.initial_state m) q)))
      rows /\
    (length rows <= 1)%nat /\
    Forall (fun row => (String.length (m_intent row) <= 157)%nat) rows.
Proof.
  unfold stored_between.
  destruct (EnhancedWorkerMoon.human_user q) as [hid|] eqn:Hu.
  - destruct (worker_run_signed_in env m q hid Hu) as (st' & _ & _ & Hrest).
    destruct (store_script env (store_next (EnhancedWorkerMoon.world q))).
    + destruct Hrest as (row & md & Hdb & _ & _ & Hintent & _).
      exists [row]. split; [exact Hdb|]. split; [cbn; lia|].
      constructor; [|constructor]. rewrite Hintent. unfold summary_of.
      rewrite !length_append.
      pose proof (classify_type_length
                    (EnhancedWorkerMoon.rq_text (request_of m))) as Hty.
      pose proof (length_take_str 100
                    (content_of (EnhancedWorkerMoon.rq_text (request_of m))
                       (advisor_script env
                          (advisor_next (EnhancedWorkerMoon.world q))))) as Htake.
      cbn [String.length] in *. lia.
    + destruct Hrest as (Hdb & _). exists []. rewrite app_nil_r.
      split; [exact Hdb|]. split; [cbn; lia|constructor].
    + destruct Hrest as (Hdb & _). exists []. rewrite app_nil_r.
      split; [exact Hdb|]. split; [cbn; lia|constructor].
  - destruct (worker_run_signed_out env m q Hu) as [_ Hdb].
    exists []. rewrite app_nil_r. split; [exact Hdb|]. split; [cbn; lia|constructor].
Qed.

Lemma worker_workflow_stores (env : Env) (m : Message) (q : EnhancedWorkerMoon.Proc) :
  exists rows,
    stored_between
      (EnhancedWorkerMoon.world q)
      (EnhancedWorkerMoon.world
         (snd (EnhancedWorkerMoon.workflow env (EnhancedWorkerMoon.initial_state m) q)))
      rows /\
    (length rows <= 1)%nat /\
    Forall (worker_row env (request_of m) (EnhancedWorkerMoon.agent_name q)) rows.
Proof.
  destruct (worker_workflow_run env m q) as [_ (rows & Hs & Hrows)].
  exists rows. split; [exact Hs|]. split; [|exact Hrows].
  unfold stored_between in Hs.
  destruct (EnhancedWorkerMoon.human_user q) as [hid|] eqn:Hu.
  - destruct (worker_run_signed_in env m q hid Hu) as (st' & _ & _ & Hrest).
    destruct (store_script env (store_next (EnhancedWorkerMoon.world q))).
    + destruct Hrest as (row & md & Hdb & _). rewrite Hdb in Hs.
      apply app_inv_head in Hs. subst rows. cbn. lia.
    + destruct Hrest as (Hdb & _). rewrite Hdb in Hs.
      rewrite <- (app_nil_r (db (EnhancedWorkerMoon.world q))) in Hs at 1.
      apply app_inv_head in Hs. subst rows. cbn. lia.
    + destruct Hrest as (Hdb & _). rewrite Hdb in Hs.
      rewrite <- (app_nil_r (db (EnhancedWorkerMoon.world q))) in Hs at 1.
      apply app_inv_head in Hs. subst rows. cbn. lia.
  - destruct (worker_run_signed_out env m q Hu) as [_ Hdb]. rewrite Hdb in Hs.
    rewrite <- (app_nil_r (db (EnhancedWorkerMoon.world q))) in Hs at 1.
    apply app_inv_head in Hs. subst rows. cbn. lia.
Qed.

(** X12. Dispatching a row to the worker never raises, whatever the
    Advisor, the table and the row are, and stores at most one row, which
    is a completion for "coordinator" replying to the dispatched row. *)
Theorem work_request_dispatch_never_raises (env : Env) (m : Message)
    (q : EnhancedWorkerMoon.Proc) :
  fst (EnhancedWorkerMoon.process_work_request env m q) = Ok tt /\
  exists rows,
    stored_between
      (EnhancedWorkerMoon.world q)
      (EnhancedWorkerMoon.world (snd (EnhancedWorkerMoon.process_work_request env m q)))
      rows /\
    (length rows <= 1)%nat /\
    Forall (fun row => m_to_agent row = "coordinator" /\
                       m_reply_to row = Some (m_id m) /\
                       startswith (m_intent row) "WORK_COMPLETE: " = true) rows.
Proof.
  destruct (decide (m_id m ∈ EnhancedWorkerMoon.processed_messages
                               (EnhancedWorkerMoon.state q))) as [Hold|Hnew].
  - rewrite work_request_skips by exact Hold. split; [reflexivity|].
    exists []. unfold stored_between. cbn [snd]. rewrite app_nil_r.
    split; [reflexivity|]. split; [cbn; lia|constructor].
  - rewrite (work_request_runs_workflow env m q Hnew), try_ret_snd. cbn [fst snd].
    split; [reflexivity|].
    destruct (worker_workflow_stores env m (worker_claim m q)) as (rows & Hs & Hl & Hr).
    exists rows. split; [exact Hs|]. split; [exact Hl|].
    eapply Forall_impl; [exact Hr|]. intros row Hrow.
    apply worker_row_reply_to in Hrow. tauto.
Qed.

(** ** Coordinator: the routing guard *)

Lemma prefix_cons (a : ascii) (x s : string) :
  String.prefix (String a x) s = true ->
  exists s', s = String a s' /\ String.prefix x s' = true.
Proof.
  destruct s as [|b s']; cbn; [discriminate|].
  destruct (ascii_dec a b) as [->|]; [eauto|discriminate].
Qed.

Lemma request_is_not_completion (s : string) :
  startswith s "WORK_REQUEST:" = true -> startswith s "WORK_COMPLETE:" = false.
Proof.
  unfold startswith. intros H.
  repeat (apply prefix_cons in H as (? & -> & H)). reflexivity.
Qed.

Lemma task_complete_is_not_completion (s : string) :
  startswith s "TASK_COMPLETE:" = true -> startswith s "WORK_COMPLETE:" = false.
Proof.
  unfold startswith. intros H.
  repeat (apply prefix_cons in H as (? & -> & H)). reflexivity.
Qed.

(** X13. The coordinator never takes its own traffic for a task: the
    first dispatch of a row whose intent begins with "WORK_REQUEST:" or
    "TASK_COMPLETE:" returns normally, runs no workflow, stores nothing,
    draws nothing, leaves the captured completion and the current task
    alone, and only adds the row's id to the processed set. *)
Theorem own_traffic_is_ignored (env : Env) (m : Message) (p : CoordinatorMoon.Proc)
    (Hnew : m_id m ∉ CoordinatorMoon.processed_messages (CoordinatorMoon.state p))
    (Hown : startswith (m_intent m) "WORK_REQUEST:"
            || startswith (m_intent m) "TASK_COMPLETE:" = true) :
  CoordinatorMoon.process_incoming_message env m p
  = (Ok tt,
     snd (CoordinatorMoon.set_state (CoordinatorMoon.add_processed (m_id m)) p)) /\
  let p' := snd (CoordinatorMoon.process_incoming_message env m p) in
  CoordinatorMoon.world p' = CoordinatorMoon.world p /\
  CoordinatorMoon.ainvoked p' = CoordinatorMoon.ainvoked p /\
  CoordinatorMoon.latest_worker_response (CoordinatorMoon.state p')
  = CoordinatorMoon.latest_worker_response (CoordinatorMoon.state p) /\
  CoordinatorMoon.current_task (CoordinatorMoon.state p')
  = CoordinatorMoon.current_task (CoordinatorMoon.state p) /\
  CoordinatorMoon.processed_messages (CoordinatorMoon.state p')
  = {[ m_id m ]} ∪ CoordinatorMoon.processed_messages (CoordinatorMoon.state p).
Proof.
  assert (Hwc : startswith (m_intent m) "WORK_COMPLETE:" = false).
  { apply orb_prop in Hown as [H|H];
      [now apply request_is_not_completion|now apply task_complete_is_not_completion]. }
  assert (Heq : CoordinatorMoon.process_incoming_message env m p
                = (Ok tt, snd (CoordinatorMoon.set_state
                                 (CoordinatorMoon.add_processed (m_id m)) p))).
  { unfold CoordinatorMoon.process_incoming_message. unfold_coordinator.
    destruct (decide _); [contradiction|]. cbn. rewrite Hwc, Hown. reflexivity. }
  split; [exact Heq|]. cbn zeta. rewrite Heq. repeat split.
Qed.

Lemma own_traffic_is_ignored_witness :
  let p' := snd (CoordinatorMoon.process_incoming_message Examples.env_delegating
                   Examples.work_request1 Examples.coordinator0) in
  CoordinatorMoon.world p' = Examples.world0 /\ CoordinatorMoon.ainvoked p' = [].
Proof.
  destruct (own_traffic_is_ignored Examples.env_delegating Examples.work_request1
              Examples.coordinator0) as (_ & Hw & Hl & _).
  - apply not_elem_of_empty.
  - reflexivity.
  - split; [exact Hw|exact Hl].
Defined.

(** ** Coordinator: the command line *)

Section CommandLine.
Import CoordinatorMoon.
Variable env : Env.

Lemma cli_frame_refl p : cli_frame p p.
Proof. now split. Qed.

Lemma cli_frame_trans p1 p2 p3 : cli_frame p1 p2 -> cli_frame p2 p3 -> cli_frame p1 p3.
Proof. intros [] []. split; congruence. Qed.

Lemma send_test_message_effect (task_text : string) (p : Proc) :
  let r := send_test_message_to_self_custom env task_text p in
  cli_frame p (snd r) /\
  exists rows,
    stored_between (world p) (world (snd r)) rows /\
    Forall (cli_row (agent_name p) task_text) rows /\
    match fst r with
    | Ok row => rows = [row]
    | Raise e => rows = []
    end.
Proof.
  unfold send_test_message_to_self_custom. run_stage.
  all: split; [split; cbn; congruence|].
  all: unfold stored_between; cbn.
  all: try (exists []; split; [now rewrite app_nil_r|]; split; [constructor|reflexivity]).
  eexists [_]. split; [reflexivity|]. split; [|reflexivity].
  constructor; [|constructor]. repeat split.
Qed.

End CommandLine.

Section CommandLineSession.
Import CoordinatorMoon.
Variable env : Env.

Lemma session_ok_nil (p : Proc) :
  session_ok env [] p.
Proof.
  split; [apply cli_frame_refl|]. exists []. unfold stored_between. cbn.
  rewrite app_nil_r. repeat split; [lia|constructor].
Qed.

Lemma session_ok_skip (lines inputs : list string) (p : Proc) :
  session_ok env inputs p ->
  handle_cli_input env (lines ++ inputs) p = handle_cli_input env inputs p ->
  session_ok env (lines ++ inputs) p.
Proof.
  unfold session_ok. cbn zeta. intros (F & rows & S & L & A) ->.
  split; [exact F|]. exists rows. split; [exact S|].
  split; [rewrite length_app; lia|].
  eapply Forall_impl; [exact A|]. intros row (line & Hin & Hrest).
  exists line. split; [apply in_or_app; now right|exact Hrest].
Qed.

Lemma session_ok_all (n : nat) :
  forall inputs p, (length inputs <= n)%nat -> session_ok env inputs p.
Proof.
  induction n as [|n IH]; intros inputs p Hn.
  - destruct inputs; [|cbn in Hn; lia]. now apply session_ok_nil.
  - destruct inputs as [|command rest]; [now apply session_ok_nil|].
    cbn [length] in Hn.
    destruct (String.eqb (lower command) "quit") eqn:Eq.
    { unfold session_ok. cbn [handle_cli_input]. rewrite Eq.
      split; [apply cli_frame_refl|]. exists []. unfold stored_between, ret. cbn.
      rewrite app_nil_r. repeat split; [lia|constructor]. }
    destruct (String.eqb (lower command) "status") eqn:Es.
    { apply (session_ok_skip [command] rest); [apply IH; lia|].
      cbn [app handle_cli_input]. now rewrite Eq, Es. }
    destruct (String.eqb (lower command) "send") eqn:Ed.
    2:{ apply (session_ok_skip [command] rest); [apply IH; lia|].
        cbn [app handle_cli_input]. now rewrite Eq, Es, Ed. }
    destruct rest as [|task_text rest'].
    { unfold session_ok. cbn [handle_cli_input]. rewrite Eq, Es, Ed.
      split; [apply cli_frame_refl|]. exists []. unfold stored_between, ret. cbn.
      rewrite app_nil_r. repeat split; [lia|constructor]. }
    cbn [length] in Hn.
    destruct (String.eqb (strip task_text) EmptyString) eqn:Eb.
    { apply (session_ok_skip [command; task_text] rest'); [apply IH; lia|].
      cbn [app handle_cli_input]. now rewrite Eq, Es, Ed, Eb. }
    unfold session_ok. cbn [handle_cli_input]. rewrite Eq, Es, Ed, Eb.
    cbn [negb]. unfold bind.
    destruct (send_test_message_effect env (strip task_text) p) as (F1 & rows1 & S1 & A1 & E1).
    cbn zeta in *.
    assert (Hline : Forall (fun row => exists line,
                       In line (command :: task_text :: rest') /\
                       strip line <> EmptyString /\
                       cli_row (agent_name p) (strip line) row) rows1).
    { eapply Forall_impl; [exact A1|]. intros row Hrow. exists task_text.
      split; [right; now left|]. split; [|exact Hrow].
      intros Hblank. rewrite Hblank in Eb. discriminate. }
    destruct (send_test_message_to_self_custom env (strip task_text) p)
      as [[row|e] p1]; cbn [fst snd] in *.
    + destruct (IH rest' p1 ltac:(lia)) as (F2 & rows2 & S2 & L2 & A2).
      cbn zeta in *. split; [eapply cli_frame_trans; eauto|].
      exists (rows1 ++ rows2)%list. unfold stored_between in *.
      split; [rewrite S2, S1; now rewrite app_assoc|].
      split; [subst rows1; rewrite length_app; cbn [length]; lia|].
      apply Forall_app. split; [exact Hline|].
      eapply Forall_impl; [exact A2|]. intros r0 (line & Hin & Hne & Hrow).
      exists line. split; [right; right; exact Hin|]. split; [exact Hne|].
      now rewrite (cl_name _ _ F1) in Hrow.
    + split; [exact F1|]. exists rows1. split; [exact S1|].
      split; [subst rows1; cbn; lia|exact Hline].
Qed.

End CommandLineSession.

(** X14. Sending a task from the command line writes one row or fails
    loudly: for a signed-in coordinator, an accepted insert stores exactly
    one row, which is returned, addressed to the coordinator itself, sent
    by "cli-user", with the text as intent and as payload, status "sent"
    and no reply_to; an insert that reports no data raises IndexError and
    one that raises passes its exception on, nothing being stored. The
    dispatcher's state is never touched. *)
Theorem cli_task_is_one_row (env : Env) (task_text hid : string)
    (p : CoordinatorMoon.Proc)
    (Huser : CoordinatorMoon.human_user p = Some hid) :
  let r := CoordinatorMoon.send_test_message_to_self_custom env task_text p in
  cli_frame p (snd r) /\
  match store_script env (store_next (CoordinatorMoon.world p)) with
  | StoreOk =>
      exists row,
        fst r = Ok row /\
        stored_between (CoordinatorMoon.world p) (CoordinatorMoon.world (snd r)) [row] /\
        cli_row (CoordinatorMoon.agent_name p) task_text row /\
        m_human_id row = hid
  | StoreNoData =>
      fst r = Raise IndexError /\
      stored_between (CoordinatorMoon.world p) (CoordinatorMoon.world (snd r)) []
  | StoreRaises err =>
      fst r = Raise (APIError err) /\
      stored_between (CoordinatorMoon.world p) (CoordinatorMoon.world (snd r)) []
  end.
Proof.
  cbn zeta. split; [apply send_test_message_effect|].
  unfold CoordinatorMoon.send_test_message_to_self_custom, stored_between.
  unfold_coordinator. cbn. rewrite Huser. cbn.
  destruct (store_script env (store_next (CoordinatorMoon.world p))); cbn.
  - eexists. split; [reflexivity|]. split; [reflexivity|]. repeat split.
  - now rewrite app_nil_r.
  - now rewrite app_nil_r.
Qed.

Lemma cli_task_is_one_row_witness :
  exists row,
    fst (CoordinatorMoon.send_test_message_to_self_custom Examples.env_delegating
           "Explain microservices" Examples.coordinator0) = Ok row /\
    m_intent row = "Explain microservices" /\ m_to_agent row = "coordinator".
Proof.
  destruct (cli_task_is_one_row Examples.env_delegating "Explain microservices"
              "human-1" Examples.coordinator0 eq_refl) as (_ & row & Hrun & _ & Hrow & _).
  exists row. split; [exact Hrun|]. split; apply Hrow.
Defined.

(** X15. A command-line session only ever adds task rows. Whatever is
    typed, the session leaves the dispatcher's state and log untouched;
    every row it stores is a "cli-user" task for the coordinator itself
    whose intent is a typed line with the blanks around it removed and is
    not empty; and a row costs two typed lines (the command and the text).
    "quit", in any letter case, ends the session at once. *)
Theorem cli_session_only_adds_tasks (env : Env) :
  (forall inputs p,
      let r := CoordinatorMoon.handle_cli_input env inputs p in
      cli_frame p (snd r) /\
      exists rows,
        stored_between (CoordinatorMoon.world p) (CoordinatorMoon.world (snd r)) rows /\
        (2 * length rows <= length inputs)%nat /\
        Forall (fun row => exists line,
                    In line inputs /\ strip line <> EmptyString /\
                    cli_row (CoordinatorMoon.agent_name p) (strip line) row) rows) /\
  (forall command rest p,
      lower command = "quit" ->
      CoordinatorMoon.handle_cli_input env (command :: rest) p = (Ok tt, p)).
Proof.
  split.
  - intros inputs p. apply (session_ok_all env (length inputs)). lia.
  - intros command rest p Hq. cbn [CoordinatorMoon.handle_cli_input].
    now rewrite Hq.
Qed.

Lemma cli_session_only_adds_tasks_witness :
  CoordinatorMoon.handle_cli_input Examples.env_delegating
    ["QUIT"; "send"; "never typed"] Examples.coordinator0
  = (Ok tt, Examples.coordinator0).
Proof.
  apply (proj2 (cli_session_only_adds_tasks Examples.env_delegating)).
  vm_compute. reflexivity.
Defined.

(** ** The poll loops, one pass at a time *)

Lemma for_each_invariant {S A} (I : S -> Prop) (body : A -> M S unit) (l : list A) :
  (forall x s, In x l -> I s -> I (snd (body x s))) ->
  forall s, I s -> I (snd (for_each l body s)).
Proof.
  induction l as [|x l IH]; intros Hbody s Hs; [exact Hs|].
  cbn [for_each]. unfold bind.
  pose proof (Hbody x s (or_introl eq_refl) Hs) as H1.
  destruct (body x s) as [[[]|e] s1]; cbn [snd] in *; [|exact H1].
  apply IH; [|exact H1]. intros y s' Hy. apply Hbody. now right.
Qed.

Lemma for_each_ok {S A} (body : A -> M S unit) (l : list A) :
  (forall x s, fst (body x s) = Ok tt) ->
  forall s, fst (for_each l body s) = Ok tt.
Proof.
  intros Hbody. induction l as [|x l IH]; intros s; [reflexivity|].
  cbn [for_each]. unfold bind. specialize (Hbody x s).
  destruct (body x s) as [[[]|e] s1]; cbn [fst] in *; [apply IH|discriminate].
Qed.

Lemma try_except_swallows {S} (m : M S bool) (s : S) :
  exists b, fst (try_except m (fun _ => ret false) s) = Ok b.
Proof. unfold try_except, ret. destruct (m s) as [[b|e] s']; eauto. Qed.

Section CoordinatorPoll.
Import CoordinatorMoon.
Variable env : Env.

Lemma poll_pass_invariant (I : Proc -> Prop) response worker_responses :
  (forall m p, I p -> I (snd (process_incoming_message env m p))) ->
  forall p, I p -> I (snd (poll_for_messages_pass env response worker_responses p)).
Proof.
  intros Hstep p Hp. unfold poll_for_messages_pass, try_except.
  match goal with
  | |- I (snd (match ?body p with _ => _ end)) =>
      assert (Hbody : I (snd (body p)));
      [|destruct (body p) as [[b|e] p']; exact Hbody]
  end.
  unfold bind at 1. destruct response as [data|e]; cbn [snd]; [|exact Hp].
  unfold bind at 1.
  match goal with
  | |- context [for_each data ?f p] =>
      pose proof (for_each_invariant I f data) as H1
  end.
  cbn beta in H1. specialize (H1 (fun m s _ Hs => ltac:(
    unfold bind, get; destruct (decide _); [exact Hs|now apply Hstep])) p Hp).
  match goal with
  | |- context [for_each data ?f p] => destruct (for_each data f p) as [[[]|e] p1]
  end; cbn [snd] in *; [|exact H1].
  unfold bind at 1. destruct worker_responses as [data2|e]; cbn [snd]; [|exact H1].
  unfold bind at 1.
  match goal with
  | |- context [for_each data2 ?f p1] =>
      pose proof (for_each_invariant I f data2) as H2
  end.
  cbn beta in H2. specialize (H2 (fun m s _ Hs => ltac:(
    unfold bind, get; destruct (_ && _); [now apply Hstep|exact Hs])) p1 H1).
  match goal with
  | |- context [for_each data2 ?f p1] => destruct (for_each data2 f p1) as [[[]|e] p2]
  end; cbn [snd] in *; exact H2.
Qed.

End CoordinatorPoll.

(** X16. A pass of the coordinator's poll loop never raises: it reports
    [false] instead. It keeps the processed set growing and never hands an
    id to the workflow twice, also when a row shows up in both queries. A
    failing first query dispatches nothing; and when the dispatch of the
    first row of the batch raises, the pass ends there: the rows behind it
    are not dispatched in this pass and the second query is not made. *)
Theorem coordinator_poll_pass (env : Env)
    (response worker_responses : py_result (list Message)) (p : CoordinatorMoon.Proc) :
  let r := CoordinatorMoon.poll_for_messages_pass env response worker_responses p in
  (exists b, fst r = Ok b) /\
  (coordinator_dedup p -> coordinator_dedup (snd r)) /\
  (forall i, i ∈ CoordinatorMoon.processed_messages (CoordinatorMoon.state p) ->
             i ∈ CoordinatorMoon.processed_messages (CoordinatorMoon.state (snd r))) /\
  (forall e, response = Raise e -> r = (Ok false, p)) /\
  (forall m rest e,
      response = Ok (m :: rest) ->
      fst (CoordinatorMoon.process_incoming_message env m p) = Raise e ->
      r = (Ok false, snd (CoordinatorMoon.process_incoming_message env m p))).
Proof.
  cbn zeta. split; [apply try_except_swallows|].
  split; [apply poll_pass_invariant; intros m p0; apply process_dedup|].
  split.
  { intros i.
    apply (poll_pass_invariant env
             (fun p0 => i ∈ CoordinatorMoon.processed_messages (CoordinatorMoon.state p0))).
    intros m p0. apply process_keeps. }
  split.
  - intros e ->. reflexivity.
  - intros m rest e -> Hraise.
    unfold CoordinatorMoon.poll_for_messages_pass, try_except.
    unfold bind at 1. unfold bind at 1. cbn [for_each]. unfold bind at 1.
    unfold bind at 1. unfold get at 1.
    destruct (decide (m_id m ∈ CoordinatorMoon.processed_messages
                                 (CoordinatorMoon.state p))) as [Hold|Hnew].
    { rewrite process_skips in Hraise by exact Hold. discriminate. }
    destruct (CoordinatorMoon.process_incoming_message env m p) as [[[]|e'] p1];
      cbn [fst snd] in *; [discriminate|reflexivity].
Qed.

Lemma coordinator_poll_pass_witness :
  CoordinatorMoon.poll_for_messages_pass Examples.env_advisor_down
    (Ok [Examples.task1; Examples.cli_task "task-2" "Explain microservices"])
    (Ok []) Examples.coordinator0
  = (Ok false,
     snd (CoordinatorMoon.process_incoming_message Examples.env_advisor_down
            Examples.task1 Examples.coordinator0)).
Proof.
  apply (proj2 (proj2 (proj2 (proj2
           (coordinator_poll_pass Examples.env_advisor_down
              (Ok [Examples.task1; Examples.cli_task "task-2" "Explain microservices"])
              (Ok []) Examples.coordinator0))))
           Examples.task1 [Examples.cli_task "task-2" "Explain microservices"]
           (UnboundLocalError "response")).
  - reflexivity.
  - vm_compute. reflexivity.
Defined.

Section WorkerPoll.
Import EnhancedWorkerMoon.
Variable env : Env.

Lemma work_request_returns (m : Message) (q : Proc) :
  fst (process_work_request env m q) = Ok tt.
Proof.
  destruct (decide (m_id m ∈ processed_messages (state q))) as [Hold|Hnew].
  - now rewrite work_request_skips.
  - now rewrite (work_request_runs_workflow env m q Hnew), try_ret_snd.
Qed.

Lemma worker_pass_runs (data : list Message) (q : Proc) :
  poll_for_work_requests_pass env (Ok data) q
  = (Ok true,
     snd (for_each data
            (fun message =>
               self <- get ;;
               if negb (bool_decide (m_id message ∈ processed_messages (state self)))
                  && startswith (m_intent message) "WORK_REQUEST:"
               then process_work_request env message
               else ret tt) q)).
Proof.
  unfold poll_for_work_requests_pass, try_except. unfold bind at 1. unfold bind at 1.
  match goal with
  | |- context [for_each data ?f q] => pose proof (for_each_ok f data) as Hok
  end.
  cbn beta in Hok. specialize (Hok (fun m s => ltac:(
    unfold bind, get; destruct (_ && _); [apply work_request_returns|reflexivity])) q).
  match goal with
  | |- context [for_each data ?f q] => destruct (for_each data f q) as [[[]|e] q1]
  end; cbn [fst snd] in *; [reflexivity|discriminate].
Qed.

End WorkerPoll.

(** X17. A pass of the worker's poll loop fails only on its query: when
    the query raises the pass reports [false] and changes nothing; when it
    answers, the pass always reaches its end, whatever the dispatched
    workflows do, and the ids it hands to the workflow are ids of rows of
    the answer whose intent begins with "WORK_REQUEST:", none of them
    handed over twice. *)
Theorem worker_poll_pass (env : Env) (q : EnhancedWorkerMoon.Proc) :
  (forall e, EnhancedWorkerMoon.poll_for_work_requests_pass env (Raise e) q
             = (Ok false, q)) /\
  (forall data,
      let r := EnhancedWorkerMoon.poll_for_work_requests_pass env (Ok data) q in
      fst r = Ok true /\
      (exists new,
          EnhancedWorkerMoon.ainvoked (snd r)
          = (EnhancedWorkerMoon.ainvoked q ++ new)%list /\
          Forall (fun i => exists row,
                      In row data /\ m_id row = i /\
                      startswith (m_intent row) "WORK_REQUEST:" = true) new) /\
      (worker_dedup q -> worker_dedup (snd r))).
Proof.
  split; [reflexivity|]. intros data. cbn zeta. rewrite worker_pass_runs. cbn [fst snd].
  split; [reflexivity|]. split.
  - match goal with
    | |- context [for_each data ?f q] =>
        apply (for_each_invariant
                 (fun q' => exists new,
                      EnhancedWorkerMoon.ainvoked q'
                      = (EnhancedWorkerMoon.ainvoked q ++ new)%list /\
                      Forall (fun i => exists row,
                                  In row data /\ m_id row = i /\
                                  startswith (m_intent row) "WORK_REQUEST:" = true) new)
                 f data)
    end.
    + intros m s Hin (new & Hlog & Hnew). unfold bind, get.
      destruct (bool_decide _) eqn:Hdec; cbn [negb andb]; [exists new; now split|].
      destruct (startswith (m_intent m) "WORK_REQUEST:") eqn:Hpre;
        [|exists new; now split].
      apply bool_decide_eq_false in Hdec.
      destruct (work_request_log env m s Hdec) as [Hl _]. cbn zeta in Hl.
      exists (new ++ [m_id m])%list. rewrite Hl, Hlog, app_assoc.
      split; [reflexivity|]. apply Forall_app. split; [exact Hnew|].
      constructor; [|constructor]. exists m. auto.
    + exists []. now rewrite app_nil_r.
  - intros Hq.
    match goal with
    | |- context [for_each data ?f q] =>
        apply (for_each_invariant worker_dedup f data); [|exact Hq]
    end.
    intros m s _ Hs. unfold bind, get.
    destruct (_ && _); [now apply work_request_dedup|exact Hs].
Qed.

Lemma worker_poll_pass_witness :
  worker_dedup
    (snd (EnhancedWorkerMoon.poll_for_work_requests_pass Examples.env_delegating
            (Ok [Examples.work_request1]) Examples.worker0)).
Proof.
  apply (proj2 (proj2 (proj2 (worker_poll_pass Examples.env_delegating Examples.worker0)
                         [Examples.work_request1]))).
  split; [constructor|].
  intros i Hi. vm_compute in Hi. exfalso. exact (proj1 (elem_of_nil i) Hi).
Defined.
